(** * Realtime presence and room fan-out gateway (SocketService)

    A shallow embedding of [src/common/services/socket.service.ts], of the
    [UsersService] methods it calls ([src/users/users.service.ts]) and of the
    [REDIS_CLIENT] provider of [src/common/modules/common.module.ts],
    followed by the properties of the connection registry, the room router
    and the event fan-out.

    Conventions of the embedding.
    - Socket objects live in a store indexed by their id; a handler receives
      the id of its [client].  The [connectedUsers] map holds ids, that is,
      references: two entries may alias one socket, and a write to the [user]
      property of a socket is seen through every reference.
    - A handler is a computation in the monad [M]: it threads the gateway
      state and may throw.  State written before a throw is kept, as in
      JavaScript.  An [await] of a rejected promise throws.
    - What the injected collaborators answer (token verifier, user directory,
      clock) is an input of the handler, gathered in [Env]. *)

From stdpp Require Import base option strings list gmap fin_maps fin_sets.
From Stdlib Require Import ZArith.

Local Open Scope string_scope.

(** ** JavaScript values and strings *)

(** A value of TypeScript type [unknown], as far as [typeof] tells values
    apart. *)
Inductive unknown : Type :=
  | Undefined
  | Null
  | Str (s : string)
  | Num (n : Z)
  | Bool (b : bool)
  | Arr (xs : list string).

(** [typeof v === 'string'] *)
Definition typeof_string (v : unknown) : option string :=
  match v with
  | Str s => Some s
  | _ => None
  end.

(** Truthiness of a string: every string but the empty one. *)
Definition truthy (s : string) : bool :=
  match s with
  | EmptyString => false
  | String _ _ => true
  end.

(** [a || b] on values of type [string | undefined]. *)
Definition js_or (a b : option string) : option string :=
  match a with
  | Some s => if truthy s then a else b
  | None => b
  end.

(** [!token] on a value of type [string | undefined]. *)
Definition js_not (a : option string) : bool :=
  match a with
  | Some s => negb (truthy s)
  | None => true
  end.

(** [s.startsWith(p)] *)
Fixpoint starts_with (p s : string) : bool :=
  match p, s with
  | EmptyString, _ => true
  | String a p', String b s' => if Ascii.eqb a b then starts_with p' s' else false
  | String _ _, EmptyString => false
  end.

(** [s.slice(n)] for [n] within the string. *)
Fixpoint drop_chars (n : nat) (s : string) : string :=
  match n, s with
  | O, _ => s
  | S n', String _ s' => drop_chars n' s'
  | S _, EmptyString => EmptyString
  end.

(** [s.replace(pattern, replacement)] with a string pattern: the first
    occurrence of [pattern], scanning from the left, is replaced; a string
    without an occurrence is returned as it is.  (The replacement used by
    the gateway is the empty string, which has no [$] patterns.) *)
Fixpoint replace (pattern replacement s : string) : string :=
  if starts_with pattern s
  then replacement +:+ drop_chars (String.length pattern) s
  else match s with
       | EmptyString => EmptyString
       | String c s' => String c (replace pattern replacement s')
       end.

(** ** Data model *)

Definition Date := Z.
Definition SocketId := string.

Inductive TaskStatus := PENDING | IN_PROGRESS | COMPLETED | BLOCKED.

Record TaskDto := {
  task_id : string;
  task_title : string;
  task_description : option string;
  task_createdBy : string;
  task_assignedTo : option string;
  task_projectId : string;
  task_status : TaskStatus;
  task_dueDate : option Date;
  task_priority : Z;
  task_createdAt : Date;
  task_updatedAt : Date
}.

Record ProjectDto := {
  project_id : string;
  project_name : string;
  project_description : option string;
  project_createdBy : string;
  project_members : list string;
  project_isActive : bool;
  project_createdAt : Date;
  project_updatedAt : Date
}.

Record CommentDto := {
  comment_id : string;
  comment_content : string;
  comment_author : string;
  comment_taskId : string;
  comment_projectId : string;
  comment_createdAt : Date;
  comment_updatedAt : Date
}.

Record UserPresenceDto := {
  userId : string;
  presence_email : string;
  isOnline : bool;
  lastSeen : option Date
}.

Record NotificationDto := {
  notification_id : string;
  notification_type : string;
  notification_title : string;
  notification_message : string;
  notification_userId : string;
  notification_read : bool;
  notification_createdAt : Date
}.

(** [ServerToClientEvents]: the event kind with its payload. *)
Inductive ServerToClientEvent : Type :=
  | task_created (task : TaskDto)
  | task_updated (task : TaskDto)
  | task_deleted (taskId : string)
  | project_updated (project : ProjectDto)
  | comment_created (comment : CommentDto)
  | user_online (user : UserPresenceDto)
  | user_offline (userId : string)
  | notification (n : NotificationDto).

(** The wire-level tag of an event. *)
Definition event_name (e : ServerToClientEvent) : string :=
  match e with
  | task_created _ => "task.created"
  | task_updated _ => "task.updated"
  | task_deleted _ => "task.deleted"
  | project_updated _ => "project.updated"
  | comment_created _ => "comment.created"
  | user_online _ => "user.online"
  | user_offline _ => "user.offline"
  | notification _ => "notification"
  end.

(** The [user] property of an [AuthenticatedSocket]. *)
Record Principal := {
  id : string;
  email : string;
  isAdmin : bool
}.

Record JwtPayload := {
  jwt_email : string;
  sub : string
}.

(** The fields of a [UserDocument] the gateway reads. *)
Record UserDocument := {
  _id : string;
  user_email : string;
  isActive : bool;
  isConfirmed : bool;
  user_isAdmin : bool
}.

(** [client.handshake]: [auth] and [headers] may be missing altogether (the
    code reads them through [?.]). *)
Record Handshake := {
  auth : option unknown;            (* Some v: auth is an object, v = auth.token *)
  headers : option unknown          (* Some v: v = headers.authorization *)
}.

(** A socket object. *)
Record Socket := {
  handshake : Handshake;
  user : option Principal;          (* absent until authenticated *)
  connected : bool;
  rooms : gset string
}.

Global Instance Socket_inhabited : Inhabited Socket :=
  populate {| handshake := {| auth := None; headers := None |};
              user := None; connected := false; rooms := ∅ |}.

(** Exceptions. *)
Inductive Exn : Type :=
  | NotFoundException (message : string)
  | TypeError (message : string)
  | Error (message : string).

Definition message (e : Exn) : string :=
  match e with
  | NotFoundException m | TypeError m | Error m => m
  end.

Inductive Result (A : Type) : Type :=
  | Ok (a : A)
  | Throw (e : Exn).
Arguments Ok {A} a.
Arguments Throw {A} e.

(** One call of an emit function: the sockets the frame goes to, resolved
    when the call is made, and the event. *)
Record Emission := {
  recipients : gset SocketId;
  event : ServerToClientEvent
}.

Inductive LogLevel := LOG | WARN | ERROR.

(** ioredis client. *)
Inductive RedisStatus := Connecting | Ready | Reconnecting | End.
Inductive RedisEvent := on_connect | on_ready | on_error.

Record Redis := {
  host : string;
  port : Z;
  password : option string;
  status : RedisStatus;
  (** Listeners installed with [redis.on]: the event, and the console line
      the listener prints for the [message] of its argument. *)
  listeners : list (RedisEvent * (string → string))
}.

Inductive Adapter : Type :=
  | InMemoryAdapter
  | RedisAdapter (pubClient subClient : Redis).

(** The gateway with its server. *)
Record Server := {
  sockets : gmap SocketId Socket;             (* the store of socket objects *)
  connectedUsers : gmap string SocketId;      (* Map<string, AuthenticatedSocket> *)
  adapter : Adapter;
  wire : list Emission;                       (* emit calls, latest first *)
  logged : list (LogLevel * string)           (* logger lines, latest first *)
}.

(** ** The handler monad *)

Definition M (A : Type) : Type := Server → Result A * Server.

Global Instance M_ret : MRet M := λ A a st, (Ok a, st).
Global Instance M_bind : MBind M := λ A B f m st,
  match m st with
  | (Ok a, st') => f a st'
  | (Throw e, st') => (Throw e, st')
  end.

(** [try { body } catch (error) { handler }] *)
Definition try_catch {A} (body : M A) (handler : Exn → M A) : M A := λ st,
  match body st with
  | (Ok a, st') => (Ok a, st')
  | (Throw e, st') => handler e st'
  end.

(** [await p] for a promise that has settled as [p]; also used for a
    synchronous call that may throw. *)
Definition await {A} (p : Result A) : M A := λ st, (p, st).

Definition get_state : M Server := λ st, (Ok st, st).
Definition modify (f : Server → Server) : M unit := λ st, (Ok tt, f st).

(** ** Injected collaborators *)

(** The mongoose model of users, as far as [UsersService] calls it: what a
    query resolves to ([None] is [null]) or rejects with. *)
Record UserModel := {
  model_findById : string → Result (option UserDocument);
  model_findByIdAndUpdate : string → Date → Result (option UserDocument)
}.

(** The methods of the users service the gateway calls.  [findById] is
    declared to resolve to a document; the gateway also tests the result
    for [null], which a test double may resolve to. *)
Record UsersServiceI := {
  findById : string → Result (option UserDocument);
  updateLastSeen : string → Date → Result unit
}.

(** [UsersService.findById] *)
Definition UsersService_findById (userModel : UserModel) (id : string)
  : Result UserDocument :=
  match model_findById userModel id with
  | Ok (Some user) => Ok user
  | Ok None => Throw (NotFoundException "User not found")
  | Throw e => Throw e
  end.

(** [UsersService.updateLastSeen] *)
Definition UsersService_updateLastSeen (userModel : UserModel)
    (userId : string) (lastSeen : Date) : Result unit :=
  match model_findByIdAndUpdate userModel userId lastSeen with
  | Ok _ => Ok tt
  | Throw e => Throw e
  end.

(** The users service of the application, over a model. *)
Definition UsersService (userModel : UserModel) : UsersServiceI := {|
  findById := λ id,
    match UsersService_findById userModel id with
    | Ok user => Ok (Some user)
    | Throw e => Throw e
    end;
  updateLastSeen := UsersService_updateLastSeen userModel
|}.

(** What the constructor of [SocketService] receives, and the clock:
    [clock k] is the value of the [k]-th [new Date()] of a handler run. *)
Record Env := {
  jwtService_verify : string → Result JwtPayload;
  usersService : UsersServiceI;
  redisClient : Redis;
  clock : nat → Date
}.

(** ** socket.io primitives *)

Definition set_sockets (f : gmap SocketId Socket → gmap SocketId Socket)
    (st : Server) : Server :=
  {| sockets := f (sockets st); connectedUsers := connectedUsers st;
     adapter := adapter st; wire := wire st; logged := logged st |}.

Definition set_connectedUsers (f : gmap string SocketId → gmap string SocketId)
    (st : Server) : Server :=
  {| sockets := sockets st; connectedUsers := f (connectedUsers st);
     adapter := adapter st; wire := wire st; logged := logged st |}.

Definition set_adapter (a : Adapter) (st : Server) : Server :=
  {| sockets := sockets st; connectedUsers := connectedUsers st;
     adapter := a; wire := wire st; logged := logged st |}.

Definition push_wire (e : Emission) (st : Server) : Server :=
  {| sockets := sockets st; connectedUsers := connectedUsers st;
     adapter := adapter st; wire := e :: wire st; logged := logged st |}.

Definition push_log (l : LogLevel * string) (st : Server) : Server :=
  {| sockets := sockets st; connectedUsers := connectedUsers st;
     adapter := adapter st; wire := wire st; logged := l :: logged st |}.

Definition with_user (u : Principal) (s : Socket) : Socket :=
  {| handshake := handshake s; user := Some u;
     connected := connected s; rooms := rooms s |}.

Definition with_rooms (f : gset string → gset string) (s : Socket) : Socket :=
  {| handshake := handshake s; user := user s;
     connected := connected s; rooms := f (rooms s) |}.

(** The socket after its transport has closed: out of every room, and no
    longer connected. *)
Definition closed (s : Socket) : Socket :=
  {| handshake := handshake s; user := user s;
     connected := false; rooms := ∅ |}.

(** The sockets of the namespace: those that are connected.  Rooms and
    broadcasts are those of this process; what the Redis adapter relays to
    other processes is outside the model. *)
Definition connected_sockets (st : Server) : gset SocketId :=
  dom (filter (λ kv : SocketId * Socket, connected kv.2 = true) (sockets st)).

(** The connected sockets that are in [room]. *)
Definition room_members (room : string) (st : Server) : gset SocketId :=
  dom (filter (λ kv : SocketId * Socket,
                 connected kv.2 = true ∧ room ∈ rooms kv.2) (sockets st)).

Definition logger_log (msg : string) : M unit := modify (push_log (LOG, msg)).
Definition logger_warn (msg : string) : M unit := modify (push_log (WARN, msg)).
Definition logger_error (msg : string) : M unit := modify (push_log (ERROR, msg)).

(** [client.handshake] *)
Definition client_handshake (client : SocketId) : M Handshake := λ st,
  (Ok (handshake (sockets st !!! client)), st).

(** [client.user], possibly [undefined]. *)
Definition client_user (client : SocketId) : M (option Principal) := λ st,
  (Ok (user (sockets st !!! client)), st).

(** [client.user.email], a [TypeError] when [client.user] is [undefined]. *)
Definition client_user_email (client : SocketId) : M string := λ st,
  match user (sockets st !!! client) with
  | Some u => (Ok (email u), st)
  | None =>
      (Throw (TypeError "Cannot read properties of undefined (reading 'email')"), st)
  end.

(** [client.user = u] *)
Definition client_set_user (client : SocketId) (u : Principal) : M unit :=
  modify (set_sockets (alter (with_user u) client)).

(** [client.disconnect()]: the socket leaves its rooms and the namespace.
    The framework then runs the gateway's [handleDisconnect] on it, as it
    does when the peer closes the transport (see [transport_close]). *)
Definition client_disconnect (client : SocketId) : M unit :=
  modify (set_sockets (alter closed client)).

(** [client.join(room)] *)
Definition client_join (client : SocketId) (room : string) : M unit :=
  modify (set_sockets (alter (with_rooms (λ rs, {[room]} ∪ rs)) client)).

(** [client.leave(room)] *)
Definition client_leave (client : SocketId) (room : string) : M unit :=
  modify (set_sockets (alter (with_rooms (λ rs, rs ∖ {[room]})) client)).

(** [client.emit(ev, payload)]: to this socket. *)
Definition client_emit (client : SocketId) (ev : ServerToClientEvent) : M unit :=
  modify (push_wire {| recipients := {[client]}; event := ev |}).

(** [client.broadcast.emit(ev, payload)]: to every socket of the namespace
    but this one. *)
Definition client_broadcast_emit (client : SocketId) (ev : ServerToClientEvent)
  : M unit := λ st,
  (Ok tt, push_wire {| recipients := connected_sockets st ∖ {[client]};
                       event := ev |} st).

(** [server.to(room).emit(ev, payload)] *)
Definition server_to_emit (room : string) (ev : ServerToClientEvent) : M unit :=
  λ st, (Ok tt, push_wire {| recipients := room_members room st; event := ev |} st).

(** [server.emit(ev, payload)] *)
Definition server_emit (ev : ServerToClientEvent) : M unit := λ st,
  (Ok tt, push_wire {| recipients := connected_sockets st; event := ev |} st).

(** A transport is accepted: a new socket object with the handshake of the
    client, before [handleConnection] runs on it.  (socket.io also puts a
    socket in a room named by its own id, an id the library draws at random;
    the gateway never names that room, and it is left out.) *)
Definition accept (client : SocketId) (hs : Handshake) : M unit :=
  modify (set_sockets (insert client
    {| handshake := hs; user := None; connected := true; rooms := ∅ |})).

(** [redisClient.duplicate()]: a new client with the same options; the
    listeners of the original are not carried over. *)
Definition duplicate (r : Redis) : Redis :=
  {| host := host r; port := port r; password := password r;
     status := Connecting; listeners := [] |}.

(** [redis.on(ev, listener)] *)
Definition redis_on (ev : RedisEvent) (listener : string → string) (r : Redis)
  : Redis :=
  {| host := host r; port := port r; password := password r;
     status := status r; listeners := listeners r ++ [(ev, listener)] |}.

Definition RedisEvent_eqb (a b : RedisEvent) : bool :=
  match a, b with
  | on_connect, on_connect | on_ready, on_ready | on_error, on_error => true
  | _, _ => false
  end.

(** The client emits [ev] with an argument whose [message] is [msg]: the
    console lines of the listeners of [ev], in the order of installation. *)
Definition redis_emit (r : Redis) (ev : RedisEvent) (msg : string) : list string :=
  map (λ l : RedisEvent * (string → string), l.2 msg)
      (filter (λ l : RedisEvent * (string → string), RedisEvent_eqb l.1 ev = true)
              (listeners r)).

(** ** The REDIS_CLIENT provider *)

(** [ConfigService.get] at the two types the provider asks for. *)
Record ConfigService := {
  get_string : string → option string;
  get_number : string → option Z
}.

(** [new Redis(options)]: the client starts connecting on its own; nothing
    is awaited. *)
Definition new_Redis (h : string) (p : Z) (pw : option string) : Redis :=
  {| host := h; port := p; password := pw; status := Connecting; listeners := [] |}.

(** The [useFactory] of the [REDIS_CLIENT] provider. *)
Definition useFactory (configService : ConfigService) : Redis :=
  let redis :=
    new_Redis
      (match get_string configService "REDIS_HOST" with
       | Some h => if truthy h then h else "localhost"
       | None => "localhost"
       end)
      (match get_number configService "REDIS_PORT" with
       | Some p => if (p =? 0)%Z then 6379%Z else p
       | None => 6379%Z
       end)
      (get_string configService "REDIS_PASSWORD") in
  let redis := redis_on on_connect (λ _, "🔌 Redis connecting...") redis in
  let redis := redis_on on_ready (λ _, "✅ Redis connected successfully") redis in
  let redis :=
    redis_on on_error (λ msg, "❌ Redis connection error: " +:+ msg) redis in
  redis.

(** ** SocketService *)

Section SocketService.

Variable env : Env.

(** [afterInit] *)
Definition afterInit : M unit :=
  let pubClient := duplicate (redisClient env) in
  let subClient := duplicate (redisClient env) in
  modify (set_adapter (RedisAdapter pubClient subClient));;
  logger_log "WebSocket Gateway initialized with Redis adapter".

(** The [authToken] of [handleConnection]. *)
Definition authToken (hs : Handshake) : option string :=
  match auth hs with
  | Some token => typeof_string token
  | None => None
  end.

(** The [headerToken] of [handleConnection]. *)
Definition headerToken (hs : Handshake) : option string :=
  match headers hs with
  | Some authorization =>
      match typeof_string authorization with
      | Some a => Some (replace "Bearer " "" a)
      | None => None
      end
  | None => None
  end.

(** The [token] of [handleConnection]: [authToken || headerToken]. *)
Definition handshake_token (hs : Handshake) : option string :=
  js_or (authToken hs) (headerToken hs).

(** [handleConnection] *)
Definition handleConnection (client : SocketId) : M unit :=
  hs ← client_handshake client;
  let token := handshake_token hs in
  if js_not token then
    logger_warn "Connection rejected: No token provided";;
    client_disconnect client
  else
    match jwtService_verify env (default "" token) with
    | Throw _ => client_disconnect client
    | Ok payload =>
        try_catch
          (user ← await (findById (usersService env) (sub payload));
           match user with
           | None =>
               logger_warn ("Connection rejected: User not found ("
                            +:+ sub payload +:+ ")");;
               client_disconnect client
           | Some user =>
               if negb (isActive user) then
                 logger_warn ("Connection rejected: Inactive user ("
                              +:+ user_email user +:+ ")");;
                 client_disconnect client
               else if negb (isConfirmed user) then
                 logger_warn ("Connection rejected: Unconfirmed user ("
                              +:+ user_email user +:+ ")");;
                 client_disconnect client
               else
                 client_set_user client
                   {| id := _id user; email := user_email user;
                      isAdmin := user_isAdmin user |};;
                 modify (set_connectedUsers (insert (_id user) client));;
                 await (updateLastSeen (usersService env) (_id user) (clock env 0));;
                 let userPresence :=
                   {| userId := _id user; presence_email := user_email user;
                      isOnline := true; lastSeen := Some (clock env 1) |} in
                 client_broadcast_emit client (user_online userPresence);;
                 logger_log ("User " +:+ user_email user +:+ " connected")
           end)
          (λ error,
             logger_error ("[SocketService] Unexpected connection error: "
                           +:+ message error);;
             client_disconnect client)
    end.

(** [handleDisconnect] *)
Definition handleDisconnect (client : SocketId) : M unit :=
  authenticatedClient_user ← client_user client;
  match authenticatedClient_user with
  | Some u =>
      let userId := id u in
      modify (set_connectedUsers (delete userId));;
      await (updateLastSeen (usersService env) userId (clock env 0));;
      client_broadcast_emit client (user_offline userId);;
      logger_log ("User " +:+ email u +:+ " disconnected")
  | None => mret tt
  end.

(** The transport of [client] closes: the socket leaves its rooms and the
    namespace, then the gateway's [handleDisconnect] runs on it. *)
Definition transport_close (client : SocketId) : M unit :=
  client_disconnect client;;
  handleDisconnect client.

(** [handleJoinProject] *)
Definition handleJoinProject (client : SocketId) (projectId : string) : M unit :=
  client_join client ("project:" +:+ projectId);;
  email ← client_user_email client;
  logger_log ("User " +:+ email +:+ " joined project " +:+ projectId).

(** [handleLeaveProject] *)
Definition handleLeaveProject (client : SocketId) (projectId : string) : M unit :=
  client_leave client ("project:" +:+ projectId);;
  email ← client_user_email client;
  logger_log ("User " +:+ email +:+ " left project " +:+ projectId).

(** [handleJoinTask] *)
Definition handleJoinTask (client : SocketId) (taskId : string) : M unit :=
  client_join client ("task:" +:+ taskId);;
  email ← client_user_email client;
  logger_log ("User " +:+ email +:+ " joined task " +:+ taskId).

(** [handleLeaveTask] *)
Definition handleLeaveTask (client : SocketId) (taskId : string) : M unit :=
  client_leave client ("task:" +:+ taskId);;
  email ← client_user_email client;
  logger_log ("User " +:+ email +:+ " left task " +:+ taskId).

End SocketService.

(** *** Emission to one user *)

Definition emitTaskCreated (userId : string) (task : TaskDto) : M unit :=
  st ← get_state;
  match connectedUsers st !! userId with
  | Some client => client_emit client (task_created task)
  | None => mret tt
  end.

Definition emitTaskUpdated (userId : string) (task : TaskDto) : M unit :=
  st ← get_state;
  match connectedUsers st !! userId with
  | Some client => client_emit client (task_updated task)
  | None => mret tt
  end.

Definition emitTaskDeleted (userId : string) (taskId : string) : M unit :=
  st ← get_state;
  match connectedUsers st !! userId with
  | Some client => client_emit client (task_deleted taskId)
  | None => mret tt
  end.

Definition emitProjectUpdated (userId : string) (project : ProjectDto) : M unit :=
  st ← get_state;
  match connectedUsers st !! userId with
  | Some client => client_emit client (project_updated project)
  | None => mret tt
  end.

Definition emitCommentCreated (userId : string) (comment : CommentDto) : M unit :=
  st ← get_state;
  match connectedUsers st !! userId with
  | Some client => client_emit client (comment_created comment)
  | None => mret tt
  end.

Definition emitUserOnline (userId : string) (userPresence : UserPresenceDto)
  : M unit :=
  st ← get_state;
  match connectedUsers st !! userId with
  | Some client => client_emit client (user_online userPresence)
  | None => mret tt
  end.

Definition emitNotification (userId : string) (n : NotificationDto) : M unit :=
  st ← get_state;
  match connectedUsers st !! userId with
  | Some client => client_emit client (notification n)
  | None => mret tt
  end.

(** *** Emission to a room *)

Definition emitTaskCreatedToProject (projectId : string) (task : TaskDto) : M unit :=
  server_to_emit ("project:" +:+ projectId) (task_created task).

Definition emitTaskUpdatedToProject (projectId : string) (task : TaskDto) : M unit :=
  server_to_emit ("project:" +:+ projectId) (task_updated task).

Definition emitTaskDeletedToProject (projectId : string) (taskId : string) : M unit :=
  server_to_emit ("project:" +:+ projectId) (task_deleted taskId).

Definition emitProjectUpdatedToProject (projectId : string) (project : ProjectDto)
  : M unit :=
  server_to_emit ("project:" +:+ projectId) (project_updated project).

Definition emitCommentCreatedToProject (projectId : string) (comment : CommentDto)
  : M unit :=
  server_to_emit ("project:" +:+ projectId) (comment_created comment).

Definition emitUserOnlineToProject (projectId : string)
    (userPresence : UserPresenceDto) : M unit :=
  server_to_emit ("project:" +:+ projectId) (user_online userPresence).

Definition emitNotificationToProject (projectId : string) (n : NotificationDto)
  : M unit :=
  server_to_emit ("project:" +:+ projectId) (notification n).

Definition emitTaskUpdatedToTask (taskId : string) (task : TaskDto) : M unit :=
  server_to_emit ("task:" +:+ taskId) (task_updated task).

Definition emitCommentCreatedToTask (taskId : string) (comment : CommentDto)
  : M unit :=
  server_to_emit ("task:" +:+ taskId) (comment_created comment).

(** *** Broadcast *)

Definition broadcastUserOnline (userPresence : UserPresenceDto) : M unit :=
  server_emit (user_online userPresence).

Definition broadcastUserOffline (userId : string) : M unit :=
  server_emit (user_offline userId).

(** *** Presence reads *)

(** [isUserOnline]: [connectedUsers.has(userId)] *)
Definition isUserOnline (userId : string) : M bool := λ st,
  (Ok (bool_decide (is_Some (connectedUsers st !! userId))), st).

(** [getConnectedUsers]: [Array.from(connectedUsers.keys())].  The keys come
    in the order of the finite map; the insertion order of a JavaScript
    [Map] is not kept by the model. *)
Definition getConnectedUsers : M (list string) := λ st,
  (Ok (map_to_list (connectedUsers st)).*1, st).

(** [getConnectedUserCount]: [connectedUsers.size] *)
Definition getConnectedUserCount : M nat := λ st,
  (Ok (size (connectedUsers st)), st).

(** *** The calls of the fan-out API, as data

    One constructor per emit function of the gateway that targets a user,
    and one per function that targets a room, so that a statement can range
    over all of them. *)

Inductive UserEmit : Type :=
  | EmitTaskCreated (task : TaskDto)
  | EmitTaskUpdated (task : TaskDto)
  | EmitTaskDeleted (taskId : string)
  | EmitProjectUpdated (project : ProjectDto)
  | EmitCommentCreated (comment : CommentDto)
  | EmitUserOnline (userPresence : UserPresenceDto)
  | EmitNotification (n : NotificationDto).

Definition emitToUser (userId : string) (call : UserEmit) : M unit :=
  match call with
  | EmitTaskCreated task => emitTaskCreated userId task
  | EmitTaskUpdated task => emitTaskUpdated userId task
  | EmitTaskDeleted taskId => emitTaskDeleted userId taskId
  | EmitProjectUpdated project => emitProjectUpdated userId project
  | EmitCommentCreated comment => emitCommentCreated userId comment
  | EmitUserOnline userPresence => emitUserOnline userId userPresence
  | EmitNotification n => emitNotification userId n
  end.

Definition UserEmit_event (call : UserEmit) : ServerToClientEvent :=
  match call with
  | EmitTaskCreated task => task_created task
  | EmitTaskUpdated task => task_updated task
  | EmitTaskDeleted taskId => task_deleted taskId
  | EmitProjectUpdated project => project_updated project
  | EmitCommentCreated comment => comment_created comment
  | EmitUserOnline userPresence => user_online userPresence
  | EmitNotification n => notification n
  end.

Inductive RoomKind := project_kind | task_kind.

(** The room key ["<kind>:<entityId>"]. *)
Definition room_name (kind : RoomKind) (entityId : string) : string :=
  match kind with
  | project_kind => "project:" +:+ entityId
  | task_kind => "task:" +:+ entityId
  end.

Inductive ProjectEmit : Type :=
  | TaskCreatedToProject (task : TaskDto)
  | TaskUpdatedToProject (task : TaskDto)
  | TaskDeletedToProject (taskId : string)
  | ProjectUpdatedToProject (project : ProjectDto)
  | CommentCreatedToProject (comment : CommentDto)
  | UserOnlineToProject (userPresence : UserPresenceDto)
  | NotificationToProject (n : NotificationDto).

Definition emitToProject (projectId : string) (call : ProjectEmit) : M unit :=
  match call with
  | TaskCreatedToProject task => emitTaskCreatedToProject projectId task
  | TaskUpdatedToProject task => emitTaskUpdatedToProject projectId task
  | TaskDeletedToProject taskId => emitTaskDeletedToProject projectId taskId
  | ProjectUpdatedToProject project => emitProjectUpdatedToProject projectId project
  | CommentCreatedToProject comment => emitCommentCreatedToProject projectId comment
  | UserOnlineToProject userPresence => emitUserOnlineToProject projectId userPresence
  | NotificationToProject n => emitNotificationToProject projectId n
  end.

Definition ProjectEmit_event (call : ProjectEmit) : ServerToClientEvent :=
  match call with
  | TaskCreatedToProject task => task_created task
  | TaskUpdatedToProject task => task_updated task
  | TaskDeletedToProject taskId => task_deleted taskId
  | ProjectUpdatedToProject project => project_updated project
  | CommentCreatedToProject comment => comment_created comment
  | UserOnlineToProject userPresence => user_online userPresence
  | NotificationToProject n => notification n
  end.

(** * Vocabulary of the statements *)

(** ** Sample inputs

    A directory with one confirmed, active user, a verifier that accepts one
    token for her, and an empty gateway. *)

Definition alice : UserDocument :=
  {| _id := "u1"; user_email := "alice@example.com"; isActive := true;
     isConfirmed := true; user_isAdmin := false |}.

Definition sample_model : UserModel :=
  {| model_findById := λ i, if String.eqb i "u1" then Ok (Some alice) else Ok None;
     model_findByIdAndUpdate :=
       λ i _, if String.eqb i "u1" then Ok (Some alice) else Ok None |}.

(** The same directory when its writes fail. *)
Definition failing_model : UserModel :=
  {| model_findById := model_findById sample_model;
     model_findByIdAndUpdate := λ _ _, Throw (Error "connection timed out") |}.

Definition sample_verify (t : string) : Result JwtPayload :=
  if String.eqb t "tok-u1"
  then Ok {| jwt_email := "alice@example.com"; sub := "u1" |}
  else if String.eqb t "tok-ghost"
  then Ok {| jwt_email := "ghost@example.com"; sub := "u9" |}
  else Throw (Error "jwt malformed").

Definition sample_config : ConfigService :=
  {| get_string := λ _, None; get_number := λ _, None |}.

Definition sample_env : Env :=
  {| jwtService_verify := sample_verify;
     usersService := UsersService sample_model;
     redisClient := useFactory sample_config;
     clock := λ k, (1000 + Z.of_nat k)%Z |}.

Definition failing_env : Env :=
  {| jwtService_verify := sample_verify;
     usersService := UsersService failing_model;
     redisClient := useFactory sample_config;
     clock := λ k, (1000 + Z.of_nat k)%Z |}.

Definition empty_server : Server :=
  {| sockets := ∅; connectedUsers := ∅; adapter := InMemoryAdapter;
     wire := []; logged := [] |}.

Definition hs_alice : Handshake :=
  {| auth := Some (Str "tok-u1"); headers := None |}.

Definition hs_none : Handshake := {| auth := None; headers := None |}.

(** The state a computation leaves, whether it returned or threw. *)
Definition exec {A} (m : M A) (st : Server) : Server := (m st).2.

(** ** Room operations of clients, as a trace *)

(** The four inbound client operations. *)
Inductive ClientOp : Type :=
  | join_project (projectId : string)
  | leave_project (projectId : string)
  | join_task (taskId : string)
  | leave_task (taskId : string).

(** The handler the gateway runs for an operation of [client]. *)
Definition dispatch (client : SocketId) (op : ClientOp) : M unit :=
  match op with
  | join_project projectId => handleJoinProject client projectId
  | leave_project projectId => handleLeaveProject client projectId
  | join_task taskId => handleJoinTask client taskId
  | leave_task taskId => handleLeaveTask client taskId
  end.

(** The gateway after a sequence of operations, listed latest first.  A
    handler that throws leaves the state it had reached, and the next
    operation is served from there. *)
Fixpoint serve (ops : list (SocketId * ClientOp)) (st : Server) : Server :=
  match ops with
  | [] => st
  | (client, op) :: earlier => exec (dispatch client op) (serve earlier st)
  end.

(** The room an operation is about, and whether it joins it. *)
Definition op_room (op : ClientOp) : string :=
  match op with
  | join_project entityId | leave_project entityId => room_name project_kind entityId
  | join_task entityId | leave_task entityId => room_name task_kind entityId
  end.

Definition op_joins (op : ClientOp) : bool :=
  match op with
  | join_project _ | join_task _ => true
  | leave_project _ | leave_task _ => false
  end.

(** [client] has joined [room] and not left it since: its latest operation
    on [room] in the trace is a join. *)
Fixpoint joined (client : SocketId) (room : string)
    (ops : list (SocketId * ClientOp)) : bool :=
  match ops with
  | [] => false
  | (c, op) :: earlier =>
      if bool_decide (c = client ∧ op_room op = room)
      then op_joins op
      else joined client room earlier
  end.

(** ** The failure modes of authentication *)

Inductive AuthFailure (env : Env) (hs : Handshake) : Prop :=
  | token_absent :
      js_not (handshake_token hs) = true →
      AuthFailure env hs
  | token_rejected (t : string) (e : Exn) :
      handshake_token hs = Some t → truthy t = true →
      jwtService_verify env t = Throw e →
      AuthFailure env hs
  | user_not_found (t : string) (payload : JwtPayload) :
      handshake_token hs = Some t → truthy t = true →
      jwtService_verify env t = Ok payload →
      findById (usersService env) (sub payload) = Ok None ∨
      (∃ m, findById (usersService env) (sub payload) = Throw (NotFoundException m)) →
      AuthFailure env hs
  | user_inactive (t : string) (payload : JwtPayload) (u : UserDocument) :
      handshake_token hs = Some t → truthy t = true →
      jwtService_verify env t = Ok payload →
      findById (usersService env) (sub payload) = Ok (Some u) →
      isActive u = false →
      AuthFailure env hs
  | user_unconfirmed (t : string) (payload : JwtPayload) (u : UserDocument) :
      handshake_token hs = Some t → truthy t = true →
      jwtService_verify env t = Ok payload →
      findById (usersService env) (sub payload) = Ok (Some u) →
      isConfirmed u = false →
      AuthFailure env hs.

(** Authentication goes through up to the write of the last-seen time:
    the token verifies and names an active, confirmed user. *)
Definition authenticates (env : Env) (hs : Handshake) (u : UserDocument) : Prop :=
  ∃ t payload,
    handshake_token hs = Some t ∧ truthy t = true ∧
    jwtService_verify env t = Ok payload ∧
    findById (usersService env) (sub payload) = Ok (Some u) ∧
    isActive u = true ∧ isConfirmed u = true.

(** The principal [handleConnection] attaches for a user document. *)
Definition principal_of (u : UserDocument) : Principal :=
  {| id := _id u; email := user_email u; isAdmin := user_isAdmin u |}.

(** The state [handleConnection] has reached when it awaits the write of
    the last-seen time: principal attached, entry written. *)
Definition registered (client : SocketId) (u : UserDocument) (st : Server) : Server :=
  set_connectedUsers (insert (_id u) client)
    (set_sockets (alter (with_user (principal_of u)) client) st).

(** The kind and entity an operation is about. *)
Definition op_target (op : ClientOp) : RoomKind * string :=
  match op with
  | join_project entityId | leave_project entityId => (project_kind, entityId)
  | join_task entityId | leave_task entityId => (task_kind, entityId)
  end.

(** What an operation does to the set of rooms of its socket. *)
Definition op_effect (op : ClientOp) (rs : gset string) : gset string :=
  if op_joins op then {[op_room op]} ∪ rs else rs ∖ {[op_room op]}.

(** The client in the given connection state; for a bus that cannot be
    reached, ioredis emits [error] and goes to [Reconnecting]. *)
Definition with_status (s : RedisStatus) (r : Redis) : Redis :=
  {| host := host r; port := port r; password := password r;
     status := s; listeners := listeners r |}.

(** The sample environment when the bus is unreachable at startup. *)
Definition unreachable_env : Env :=
  {| jwtService_verify := sample_verify;
     usersService := UsersService sample_model;
     redisClient := with_status Reconnecting (useFactory sample_config);
     clock := λ k, (1000 + Z.of_nat k)%Z |}.

(** ** The remaining calls of the fan-out API, as data *)

(** The emit functions that target a task room. *)
Inductive TaskEmit : Type :=
  | TaskUpdatedToTask (task : TaskDto)
  | CommentCreatedToTask (comment : CommentDto).

Definition emitToTask (taskId : string) (call : TaskEmit) : M unit :=
  match call with
  | TaskUpdatedToTask task => emitTaskUpdatedToTask taskId task
  | CommentCreatedToTask comment => emitCommentCreatedToTask taskId comment
  end.

Definition TaskEmit_event (call : TaskEmit) : ServerToClientEvent :=
  match call with
  | TaskUpdatedToTask task => task_updated task
  | CommentCreatedToTask comment => comment_created comment
  end.

(** Every public emit function of the gateway. *)
Inductive EmitCall : Type :=
  | ToUser (userId : string) (call : UserEmit)
  | ToProject (projectId : string) (call : ProjectEmit)
  | ToTask (taskId : string) (call : TaskEmit)
  | BroadcastUserOnline (userPresence : UserPresenceDto)
  | BroadcastUserOffline (userId : string).

Definition emit (call : EmitCall) : M unit :=
  match call with
  | ToUser userId call => emitToUser userId call
  | ToProject projectId call => emitToProject projectId call
  | ToTask taskId call => emitToTask taskId call
  | BroadcastUserOnline userPresence => broadcastUserOnline userPresence
  | BroadcastUserOffline userId => broadcastUserOffline userId
  end.

(** [s.includes(p)] *)
Fixpoint includes (p s : string) : bool :=
  if starts_with p s then true
  else match s with
       | EmptyString => false
       | String _ s' => includes p s'
       end.

(** * The gateway on the event loop

    [handleConnection] is an [async] function: it runs to its first [await],
    and each continuation runs when the awaited promise has settled.  Other
    events of the loop are served in between. *)

(** Where a run of [handleConnection] is suspended. *)
Inductive Pending : Type :=
  | AwaitFindById (payload : JwtPayload)
  | AwaitUpdateLastSeen (user : UserDocument).

(** [handleConnection] up to [await this.usersService.findById(...)]. *)
Definition handleConnection_start (env : Env) (client : SocketId)
  : M (option Pending) :=
  hs ← client_handshake client;
  let token := handshake_token hs in
  if js_not token then
    logger_warn "Connection rejected: No token provided";;
    client_disconnect client;;
    mret None
  else
    match jwtService_verify env (default "" token) with
    | Throw _ => client_disconnect client;; mret None
    | Ok payload => mret (Some (AwaitFindById payload))
    end.

(** [handleConnection] from the moment [findById] has settled as [found], up
    to [await this.usersService.updateLastSeen(...)]. *)
Definition handleConnection_found (client : SocketId) (payload : JwtPayload)
    (found : Result (option UserDocument)) : M (option Pending) :=
  try_catch
    (user ← await found;
     match user with
     | None =>
         logger_warn ("Connection rejected: User not found ("
                      +:+ sub payload +:+ ")");;
         client_disconnect client;;
         mret None
     | Some user =>
         if negb (isActive user) then
           logger_warn ("Connection rejected: Inactive user ("
                        +:+ user_email user +:+ ")");;
           client_disconnect client;;
           mret None
         else if negb (isConfirmed user) then
           logger_warn ("Connection rejected: Unconfirmed user ("
                        +:+ user_email user +:+ ")");;
           client_disconnect client;;
           mret None
         else
           client_set_user client
             {| id := _id user; email := user_email user;
                isAdmin := user_isAdmin user |};;
           modify (set_connectedUsers (insert (_id user) client));;
           mret (Some (AwaitUpdateLastSeen user))
     end)
    (λ error,
       logger_error ("[SocketService] Unexpected connection error: "
                     +:+ message error);;
       client_disconnect client;;
       mret None).

(** [handleConnection] from the moment [updateLastSeen] has settled as
    [written]. *)
Definition handleConnection_written (env : Env) (client : SocketId)
    (user : UserDocument) (written : Result unit) : M unit :=
  try_catch
    (await written;;
     let userPresence :=
       {| userId := _id user; presence_email := user_email user;
          isOnline := true; lastSeen := Some (clock env 1) |} in
     client_broadcast_emit client (user_online userPresence);;
     logger_log ("User " +:+ user_email user +:+ " connected"))
    (λ error,
       logger_error ("[SocketService] Unexpected connection error: "
                     +:+ message error);;
       client_disconnect client).

(** The three segments in a row, each promise settling at once with the
    answer of the collaborator. *)
Definition handleConnection_segments (env : Env) (client : SocketId) : M unit :=
  p ← handleConnection_start env client;
  match p with
  | Some (AwaitFindById payload) =>
      p' ← handleConnection_found client payload
             (findById (usersService env) (sub payload));
      match p' with
      | Some (AwaitUpdateLastSeen user) =>
          handleConnection_written env client user
            (updateLastSeen (usersService env) (_id user) (clock env 0))
      | _ => mret tt
      end
  | _ => mret tt
  end.

(** The loop: the gateway, and the runs of [handleConnection] that are
    suspended, by socket. *)
Record Loop := {
  server : Server;
  pending : gmap SocketId Pending
}.

(** The events of the loop.  [env] answers for the handler the event runs;
    [env'] answers for the [handleDisconnect] that the framework runs when
    the handler has disconnected its client. *)
Inductive LoopEvent : Type :=
  | Connection (env : Env) (client : SocketId) (hs : Handshake)
  | FindByIdSettles (env' : Env) (client : SocketId)
      (found : Result (option UserDocument))
  | UpdateLastSeenSettles (env env' : Env) (client : SocketId)
      (written : Result unit)
  | Disconnection (env : Env) (client : SocketId)
  | Message (client : SocketId) (op : ClientOp)
  | UserEmitCall (userId : string) (call : UserEmit)
  | ProjectEmitCall (projectId : string) (call : ProjectEmit).

(** The gateway's [handleDisconnect] runs on [client] when a segment of its
    handler has disconnected it. *)
Definition after_segment (env' : Env) (client : SocketId) (before : Server)
    (after : Server) : Server :=
  if connected (sockets before !!! client) && negb (connected (sockets after !!! client))
  then exec (handleDisconnect env' client) after
  else after.

Definition set_pending (client : SocketId) (p : option Pending)
    (m : gmap SocketId Pending) : gmap SocketId Pending :=
  match p with
  | Some p => <[client := p]> m
  | None => delete client m
  end.

(** One event.  An event that the loop cannot see (a connection with the id
    of a known socket, the settling of a promise nobody awaits, traffic of a
    socket that is not connected) changes nothing. *)
Definition loop_step (ev : LoopEvent) (l : Loop) : Loop :=
  let st := server l in
  match ev with
  | Connection env client hs =>
      match sockets st !! client with
      | Some _ => l
      | None =>
          let st0 := exec (accept client hs) st in
          let '(r, st1) := handleConnection_start env client st0 in
          {| server := after_segment env client st0 st1;
             pending := set_pending client
                          (match r with Ok p => p | Throw _ => None end)
                          (pending l) |}
      end
  | FindByIdSettles env' client found =>
      match pending l !! client with
      | Some (AwaitFindById payload) =>
          let '(r, st1) := handleConnection_found client payload found st in
          {| server := after_segment env' client st st1;
             pending := set_pending client
                          (match r with Ok p => p | Throw _ => None end)
                          (pending l) |}
      | _ => l
      end
  | UpdateLastSeenSettles env env' client written =>
      match pending l !! client with
      | Some (AwaitUpdateLastSeen user) =>
          let st1 := exec (handleConnection_written env client user written) st in
          {| server := after_segment env' client st st1;
             pending := delete client (pending l) |}
      | _ => l
      end
  | Disconnection env client =>
      if connected (sockets st !!! client)
      then {| server := exec (transport_close env client) st;
              pending := pending l |}
      else l
  | Message client op =>
      if connected (sockets st !!! client)
      then {| server := exec (dispatch client op) st; pending := pending l |}
      else l
  | UserEmitCall userId call =>
      {| server := exec (emitToUser userId call) st; pending := pending l |}
  | ProjectEmitCall projectId call =>
      {| server := exec (emitToProject projectId call) st; pending := pending l |}
  end.

(** The loop after a sequence of events, listed latest first. *)
Fixpoint loop_run (evs : list LoopEvent) (l : Loop) : Loop :=
  match evs with
  | [] => l
  | ev :: earlier => loop_step ev (loop_run earlier l)
  end.

Definition empty_loop : Loop := {| server := empty_server; pending := ∅ |}.

(** Every entry of [connectedUsers] refers to a socket that carries the
    principal of the user the entry is for. *)
Definition entries_carry_principal (st : Server) : Prop :=
  ∀ u c, connectedUsers st !! u = Some c →
    ∃ p, user (sockets st !!! c) = Some p ∧ id p = u.

(** Every connected socket carries a principal, or its authentication is
    still under way. *)
Definition open_only_if_known (l : Loop) : Prop :=
  ∀ c s, sockets (server l) !! c = Some s → connected s = true →
    is_Some (user s) ∨ is_Some (pending l !! c).

(** What the loop keeps true between events. *)
Record LoopInv (l : Loop) : Prop := {
  inv_entries : entries_carry_principal (server l);
  inv_pending_socket :
    ∀ c p, pending l !! c = Some p → is_Some (sockets (server l) !! c);
  inv_pending_find :
    ∀ c payload, pending l !! c = Some (AwaitFindById payload) →
      user (sockets (server l) !!! c) = None;
  inv_pending_write :
    ∀ c u, pending l !! c = Some (AwaitUpdateLastSeen u) →
      user (sockets (server l) !!! c) = Some (principal_of u);
  inv_open :
    ∀ c, connected (sockets (server l) !!! c) = true →
      is_Some (user (sockets (server l) !!! c)) ∨ is_Some (pending l !! c)
}.

(** A change of the gateway that attaches no principal, adds no socket,
    connects nobody and adds no entry. *)
Record benign (st st' : Server) : Prop := {
  benign_user : ∀ c, user (sockets st' !!! c) = user (sockets st !!! c);
  benign_dom : ∀ c, is_Some (sockets st !! c) → is_Some (sockets st' !! c);
  benign_connected :
    ∀ c, connected (sockets st' !!! c) = true → connected (sockets st !!! c) = true;
  benign_entries :
    ∀ k c, connectedUsers st' !! k = Some c → connectedUsers st !! k = Some c
}.

(** * The services that call the gateway

    [TasksService], [ProjectsService] and the users controller with
    [UsersService.confirmUser].  A service method is a computation that
    threads the gateway together with the list of the queries it has
    issued to the mongoose models; what a query settles to is an input,
    gathered in [Db], as are the ids and dates the process draws. *)

Module Http.

(** The exceptions of the services: [ForbiddenException], and those the
    gateway model already has ([NotFoundException], and whatever an
    awaited query or a constructor throws). *)
Inductive Exception : Type :=
  | ForbiddenException (message : string)
  | Other (e : Exn).

End Http.

(** The documents as the services read them; an [ObjectId] is held by its
    hexadecimal string, which is what [toString] returns. *)
Record TaskDocument := {
  tdoc_id : string;
  tdoc_title : string;
  tdoc_description : option string;
  tdoc_createdBy : string;
  tdoc_assignedTo : option string;
  tdoc_projectId : string;
  tdoc_status : TaskStatus;
  tdoc_dueDate : option Date;
  tdoc_priority : Z;
  tdoc_createdAt : option Date;
  tdoc_updatedAt : option Date
}.

Record ProjectDocument := {
  pdoc_id : string;
  pdoc_name : string;
  pdoc_description : option string;
  pdoc_createdBy : string;
  pdoc_members : list string;
  pdoc_isActive : bool;
  pdoc_createdAt : option Date;
  pdoc_updatedAt : option Date
}.

(** [ProjectInfo], and the project of a task as [populate] puts it in place
    of its id, with the fields [name] and [members]. *)
Record ProjectInfo := {
  pinfo_id : string;
  pinfo_name : string;
  pinfo_members : list string
}.

(** A task whose [projectId] is populated, with the fields [update] reads;
    [projectId] is [null] when the project it names is gone. *)
Record PopulatedTask := {
  pt_id : string;
  pt_title : string;
  pt_createdBy : string;
  pt_assignedTo : option string;
  pt_projectId : option ProjectInfo
}.

Record CreateTaskDto := {
  ct_title : string;
  ct_description : option string;
  ct_projectId : string;
  ct_assignedTo : option string;
  ct_status : option TaskStatus;
  ct_dueDate : option string;
  ct_priority : option Z
}.

Record UpdateTaskDto := {
  ut_title : option string;
  ut_description : option string;
  ut_assignedTo : option string;
  ut_status : option TaskStatus;
  ut_dueDate : option string;
  ut_priority : option Z
}.

(** [taskData] of [TasksService.create].  A date [new Date(s)] is kept as
    the string [s] it is made from. *)
Record TaskData := {
  td_title : string;
  td_description : option string;
  td_createdBy : string;
  td_projectId : string;
  td_status : TaskStatus;
  td_priority : Z;
  td_assignedTo : option string;
  td_dueDate : option string
}.

(** [updateData] of [TasksService.update]: a field is [None] when it is not
    set; [assignedTo] can be set to [undefined]. *)
Record UpdateData := {
  ud_title : option string;
  ud_description : option string;
  ud_status : option TaskStatus;
  ud_priority : option Z;
  ud_dueDate : option string;
  ud_assignedTo : option (option string)
}.

(** A user as [populate] puts it in place of its id. *)
Record PopulatedUser := {
  pu_id : string;
  pu_name : string;
  pu_email : string;
  pu_lastSeen : option Date
}.

(** A project whose [createdBy] and [members] are populated; [createdBy] is
    [null] when the user it names is gone. *)
Record PopulatedProject := {
  pp_id : string;
  pp_name : string;
  pp_description : option string;
  pp_createdBy : option PopulatedUser;
  pp_members : list PopulatedUser;
  pp_isActive : bool;
  pp_createdAt : option Date;
  pp_updatedAt : option Date
}.

Record CreateProjectDto := {
  cp_name : string;
  cp_description : option string;
  cp_members : option (list string)
}.

(** The object [ProjectsService.create] hands to [projectModel.create]. *)
Record ProjectInput := {
  pi_name : string;
  pi_description : option string;
  pi_createdBy : string;
  pi_members : list string
}.

Record MemberDetail := {
  md_id : string;
  md_email : string;
  md_name : string;
  md_isOnline : bool;
  md_lastSeen : option Date
}.

Record ProjectWithMembersDto := {
  pwm_project : ProjectDto;
  memberDetails : list MemberDetail
}.

(** The queries the modelled methods issue. *)
Inductive DbCall : Type :=
  | users_find_active
  | users_findById (id : string)
  | users_findByIdAndUpdate_isConfirmed (id : string)
  | projects_findById (id : string)
  | projects_findById_populated (id : string)
  | projects_create (input : ProjectInput)
  | projects_save (project : ProjectDocument)
  | projects_findOne_active_member (_id members : string)
  | tasks_findById (id : string)
  | tasks_findById_populated (id : string)
  | tasks_create (taskData : TaskData)
  | tasks_findByIdAndUpdate (id : string) (updateData : UpdateData)
  | tasks_findByIdAndDelete (id : string)
  | tasks_findByIdAndUpdate_status (id : string) (status : TaskStatus).

(** What the queries settle to, and what the process draws. *)
Record Db := {
  answer_users_find_active : Result (list UserDocument);
  answer_users_findById : string → Result (option UserDocument);
  answer_users_confirm : string → Result (option UserDocument);
  answer_projects_findById : string → Result (option ProjectDocument);
  answer_projects_findById_populated : string → Result (option PopulatedProject);
  answer_projects_create : ProjectInput → Result ProjectDocument;
  answer_projects_save : ProjectDocument → Result unit;
  answer_projects_findOne_active_member :
    string → string → Result (option ProjectDocument);
  answer_tasks_findById : string → Result (option TaskDocument);
  answer_tasks_findById_populated : string → Result (option PopulatedTask);
  answer_tasks_create : TaskData → Result TaskDocument;
  answer_tasks_update : string → UpdateData → Result (option TaskDocument);
  answer_tasks_findByIdAndDelete : string → Result unit;
  answer_tasks_setStatus : string → TaskStatus → Result (option TaskDocument);
  (** [new Types.ObjectId(s)]: the id of [s], or the error for a string
      that is not an id. *)
  ObjectId_of : string → Result string;
  (** [new Types.ObjectId().toString()], by number of the draw. *)
  fresh_ObjectId : nat → string;
  (** [new Date()], by number of the reading. *)
  reading : nat → Date
}.

Record World := {
  gateway : Server;
  issued : list DbCall;          (* latest first *)
  ids_drawn : nat;
  dates_read : nat
}.

Inductive Outcome (A : Type) : Type :=
  | Returned (a : A)
  | Thrown (e : Http.Exception).
Arguments Returned {A} a.
Arguments Thrown {A} e.

Definition Service (A : Type) : Type := World → Outcome A * World.

Global Instance Service_ret : MRet Service := λ A a w, (Returned a, w).
Global Instance Service_bind : MBind Service := λ A B f m w,
  match m w with
  | (Returned a, w') => f a w'
  | (Thrown e, w') => (Thrown e, w')
  end.

(** [throw new ...Exception(...)] *)
Definition throw {A} (e : Http.Exception) : Service A := λ w, (Thrown e, w).

(** [await model.query(...)]: the query is issued, and settles as [answer]. *)
Definition query {A} (call : DbCall) (answer : Result A) : Service A := λ w,
  let w' := {| gateway := gateway w; issued := call :: issued w;
               ids_drawn := ids_drawn w; dates_read := dates_read w |} in
  match answer with
  | Ok a => (Returned a, w')
  | Throw e => (Thrown (Http.Other e), w')
  end.

(** A synchronous call that may throw. *)
Definition attempt {A} (r : Result A) : Service A := λ w,
  match r with
  | Ok a => (Returned a, w)
  | Throw e => (Thrown (Http.Other e), w)
  end.

(** [new Date()] *)
Definition new_Date (db : Db) : Service Date := λ w,
  (Returned (reading db (dates_read w)),
   {| gateway := gateway w; issued := issued w;
      ids_drawn := ids_drawn w; dates_read := S (dates_read w) |}).

(** [new Types.ObjectId().toString()] *)
Definition new_ObjectId (db : Db) : Service string := λ w,
  (Returned (fresh_ObjectId db (ids_drawn w)),
   {| gateway := gateway w; issued := issued w;
      ids_drawn := S (ids_drawn w); dates_read := dates_read w |}).

(** [this.socketService.<method>(...)]: the gateway method runs on the
    gateway of the process. *)
Definition socketService {A} (m : M A) : Service A := λ w,
  let '(r, st) := m (gateway w) in
  let w' := {| gateway := st; issued := issued w;
               ids_drawn := ids_drawn w; dates_read := dates_read w |} in
  match r with
  | Ok a => (Returned a, w')
  | Throw e => (Thrown (Http.Other e), w')
  end.

(** [x ?? new Date()] *)
Definition or_new_Date (db : Db) (x : option Date) : Service Date :=
  match x with
  | Some d => mret d
  | None => new_Date db
  end.

(** [for (const x of xs) f(x)], and [xs.map(f)], for an [f] with effects. *)
Fixpoint for_each {A} (f : A → Service unit) (xs : list A) : Service unit :=
  match xs with
  | [] => mret tt
  | x :: xs => f x;; for_each f xs
  end.

Fixpoint map_each {A B} (f : A → Service B) (xs : list A) : Service (list B) :=
  match xs with
  | [] => mret []
  | x :: xs => y ← f x; ys ← map_each f xs; mret (y :: ys)
  end.

(** The value of a [TaskStatus]. *)
Definition TaskStatus_value (s : TaskStatus) : string :=
  match s with
  | PENDING => "pending"
  | IN_PROGRESS => "in_progress"
  | COMPLETED => "completed"
  | BLOCKED => "blocked"
  end.

(** The double quote, as a string. *)
Definition dquote : string := String (Ascii.ascii_of_nat 34) EmptyString.

Module TasksService.

(** [toTaskDto] on a document whose [projectId] is not populated. *)
Definition toTaskDto (db : Db) (task : TaskDocument) : Service TaskDto :=
  createdAt ← or_new_Date db (tdoc_createdAt task);
  updatedAt ← or_new_Date db (tdoc_updatedAt task);
  mret {| task_id := tdoc_id task;
          task_title := tdoc_title task;
          task_description := tdoc_description task;
          task_createdBy := tdoc_createdBy task;
          task_assignedTo := tdoc_assignedTo task;
          task_projectId := tdoc_projectId task;
          task_status := tdoc_status task;
          task_dueDate := tdoc_dueDate task;
          task_priority := tdoc_priority task;
          task_createdAt := createdAt;
          task_updatedAt := updatedAt |}.

(** [validateProjectAccess] *)
Definition validateProjectAccess (db : Db) (projectId userId : string)
  : Service ProjectInfo :=
  _id ← attempt (ObjectId_of db projectId);
  members ← attempt (ObjectId_of db userId);
  project ← query (projects_findOne_active_member _id members)
                  (answer_projects_findOne_active_member db _id members);
  match project with
  | None => throw (Http.ForbiddenException "Project not found or access denied")
  | Some project =>
      mret {| pinfo_id := pdoc_id project; pinfo_name := pdoc_name project;
              pinfo_members := pdoc_members project |}
  end.

(** [checkTaskAccess] on a task whose [projectId] was populated. *)
Definition checkTaskAccess (task : PopulatedTask) (userId : string) : Service bool :=
  match pt_projectId task with
  | Some project =>
      mret (existsb (λ member, String.eqb member userId) (pinfo_members project))
  | None =>
      mret (String.eqb (pt_createdBy task) userId
            || match pt_assignedTo task with
               | Some a => String.eqb a userId
               | None => false
               end)
  end.

(** [s ? f(s) : undefined] for an optional string [s]. *)
Definition when_truthy {A} (s : option string) (f : string → Service A)
  : Service (option A) :=
  match s with
  | Some s => if truthy s then a ← f s; mret (Some a) else mret None
  | None => mret None
  end.

(** [create] *)
Definition create (db : Db) (createTaskDto : CreateTaskDto) (userId : string)
  : Service TaskDto :=
  project ← validateProjectAccess db (ct_projectId createTaskDto) userId;
  createdBy ← attempt (ObjectId_of db userId);
  projectId ← attempt (ObjectId_of db (ct_projectId createTaskDto));
  assignedTo ← when_truthy (ct_assignedTo createTaskDto)
                           (λ s, attempt (ObjectId_of db s));
  dueDate ← when_truthy (ct_dueDate createTaskDto) (λ s, mret s);
  let taskData :=
    {| td_title := ct_title createTaskDto;
       td_description := ct_description createTaskDto;
       td_createdBy := createdBy;
       td_projectId := projectId;
       td_status := default PENDING (ct_status createTaskDto);
       td_priority := default 0%Z (ct_priority createTaskDto);
       td_assignedTo := assignedTo;
       td_dueDate := dueDate |} in
  task ← query (tasks_create taskData) (answer_tasks_create db taskData);
  taskDto ← toTaskDto db task;
  socketService (emitTaskCreatedToProject (ct_projectId createTaskDto) taskDto);;
  match ct_assignedTo createTaskDto with
  | Some assignee =>
      if truthy assignee && negb (String.eqb assignee userId) then
        nid ← new_ObjectId db;
        createdAt ← new_Date db;
        let notification :=
          {| notification_id := nid;
             notification_type := "task_assigned";
             notification_title := "New Task Assigned";
             notification_message :=
               "You have been assigned to " +:+ dquote +:+ ct_title createTaskDto
               +:+ dquote +:+ " in project: " +:+ pinfo_name project;
             notification_userId := assignee;
             notification_read := false;
             notification_createdAt := createdAt |} in
        socketService (emitNotification assignee notification)
      else mret tt
  | None => mret tt
  end;;
  mret taskDto.

(** [update] *)
Definition update (db : Db) (id : string) (dto : UpdateTaskDto) (userId : string)
  : Service TaskDto :=
  task ← query (tasks_findById_populated id) (answer_tasks_findById_populated db id);
  match task with
  | None => throw (Http.Other (NotFoundException "Task not found"))
  | Some task =>
      hasAccess ← checkTaskAccess task userId;
      if negb hasAccess then
        throw (Http.ForbiddenException "Not authorized to update this task")
      else
        assignedTo ←
          match ut_assignedTo dto with
          | Some s =>
              if truthy s then
                oid ← attempt (ObjectId_of db s); mret (Some (Some oid))
              else mret (Some None)
          | None => mret None
          end;
        let updateData :=
          {| ud_title := ut_title dto;
             ud_description := ut_description dto;
             ud_status := ut_status dto;
             ud_priority := ut_priority dto;
             ud_dueDate := ut_dueDate dto;
             ud_assignedTo := assignedTo |} in
        let oldAssignedTo := pt_assignedTo task in
        updatedTask ← query (tasks_findByIdAndUpdate id updateData)
                            (answer_tasks_update db id updateData);
        match updatedTask with
        | None => throw (Http.Other (NotFoundException "Task not found after update"))
        | Some updatedTask =>
            taskDto ← toTaskDto db updatedTask;
            project ←
              match pt_projectId task with
              | Some project => mret project
              | None =>
                  throw (Http.Other
                           (TypeError "Cannot read properties of null (reading '_id')"))
              end;
            socketService (emitTaskUpdatedToProject (pinfo_id project) taskDto);;
            match ut_assignedTo dto with
            | Some assignee =>
                if truthy assignee && negb (bool_decide (Some assignee = oldAssignedTo))
                then
                  nid ← new_ObjectId db;
                  createdAt ← new_Date db;
                  let notification :=
                    {| notification_id := nid;
                       notification_type := "task_assigned";
                       notification_title := "Task Assigned to You";
                       notification_message :=
                         "You have been assigned to " +:+ dquote +:+ pt_title task
                         +:+ dquote +:+ " in project: " +:+ pinfo_name project;
                       notification_userId := assignee;
                       notification_read := false;
                       notification_createdAt := createdAt |} in
                  socketService (emitNotification assignee notification)
                else mret tt
            | None => mret tt
            end;;
            mret taskDto
        end
  end.

(** [remove] *)
Definition remove (db : Db) (id userId : string) : Service unit :=
  task ← query (tasks_findById id) (answer_tasks_findById db id);
  match task with
  | None => throw (Http.Other (NotFoundException "Task not found"))
  | Some task =>
      if negb (String.eqb (tdoc_createdBy task) userId) then
        throw (Http.ForbiddenException "Not authorized to delete this task")
      else
        query (tasks_findByIdAndDelete id) (answer_tasks_findByIdAndDelete db id);;
        socketService (emitTaskDeletedToProject (tdoc_projectId task) id)
  end.

(** [updateStatus] *)
Definition updateStatus (db : Db) (id : string) (status : TaskStatus)
    (userId : string) : Service TaskDto :=
  task ← query (tasks_findById id) (answer_tasks_findById db id);
  match task with
  | None => throw (Http.Other (NotFoundException "Task not found"))
  | Some task =>
      let isCreator := String.eqb (tdoc_createdBy task) userId in
      let isAssigned :=
        match tdoc_assignedTo task with
        | Some a => String.eqb a userId
        | None => false
        end in
      if negb isCreator && negb isAssigned then
        throw (Http.ForbiddenException "Not authorized to update this task")
      else
        updatedTask ← query (tasks_findByIdAndUpdate_status id status)
                            (answer_tasks_setStatus db id status);
        match updatedTask with
        | None => throw (Http.Other (NotFoundException "Task not found after status update"))
        | Some updatedTask =>
            taskDto ← toTaskDto db updatedTask;
            socketService (emitTaskUpdatedToProject (tdoc_projectId task) taskDto);;
            (if negb isCreator then
               nid ← new_ObjectId db;
               createdAt ← new_Date db;
               let notification :=
                 {| notification_id := nid;
                    notification_type := "task_status_changed";
                    notification_title := "Task Status Updated";
                    notification_message :=
                      "Task " +:+ dquote +:+ tdoc_title task +:+ dquote
                      +:+ " status changed to " +:+ TaskStatus_value status;
                    notification_userId := tdoc_createdBy task;
                    notification_read := false;
                    notification_createdAt := createdAt |} in
               socketService (emitNotification (tdoc_createdBy task) notification)
             else mret tt);;
            mret taskDto
        end
  end.

End TasksService.

Module ProjectsService.

(** [toProjectDto] on a document that is not populated. *)
Definition toProjectDto (db : Db) (project : ProjectDocument) : Service ProjectDto :=
  createdAt ← or_new_Date db (pdoc_createdAt project);
  updatedAt ← or_new_Date db (pdoc_updatedAt project);
  mret {| project_id := pdoc_id project;
          project_name := pdoc_name project;
          project_description := pdoc_description project;
          project_createdBy := pdoc_createdBy project;
          project_members := pdoc_members project;
          project_isActive := pdoc_isActive project;
          project_createdAt := createdAt;
          project_updatedAt := updatedAt |}.

(** [project.members = members] *)
Definition with_members (members : list string) (project : ProjectDocument)
  : ProjectDocument :=
  {| pdoc_id := pdoc_id project; pdoc_name := pdoc_name project;
     pdoc_description := pdoc_description project;
     pdoc_createdBy := pdoc_createdBy project;
     pdoc_members := members;
     pdoc_isActive := pdoc_isActive project;
     pdoc_createdAt := pdoc_createdAt project;
     pdoc_updatedAt := pdoc_updatedAt project |}.

(** [toProjectDto] on a populated project. *)
Definition toProjectDto_populated (db : Db) (project : PopulatedProject)
  : Service ProjectDto :=
  createdBy ←
    match pp_createdBy project with
    | Some u => mret (pu_id u)
    | None =>
        throw (Http.Other
                 (TypeError "Cannot read properties of null (reading '_id')"))
    end;
  createdAt ← or_new_Date db (pp_createdAt project);
  updatedAt ← or_new_Date db (pp_updatedAt project);
  mret {| project_id := pp_id project;
          project_name := pp_name project;
          project_description := pp_description project;
          project_createdBy := createdBy;
          project_members := pu_id <$> pp_members project;
          project_isActive := pp_isActive project;
          project_createdAt := createdAt;
          project_updatedAt := updatedAt |}.

(** The notification of [create] for one member. *)
Definition notify_created (db : Db) (createProjectDto : CreateProjectDto)
    (userId memberId : string) : Service unit :=
  if negb (String.eqb memberId userId) then
    nid ← new_ObjectId db;
    createdAt ← new_Date db;
    let notification :=
      {| notification_id := nid;
         notification_type := "project_created";
         notification_title := "New Project";
         notification_message :=
           "You have been added to project: " +:+ cp_name createProjectDto;
         notification_userId := memberId;
         notification_read := false;
         notification_createdAt := createdAt |} in
    socketService (emitNotification memberId notification)
  else mret tt.

(** [create] *)
Definition create (db : Db) (createProjectDto : CreateProjectDto) (userId : string)
  : Service ProjectDto :=
  creator ← attempt (ObjectId_of db userId);
  others ← map_each (λ id, attempt (ObjectId_of db id))
                    (default [] (cp_members createProjectDto));
  let memberIds := creator :: others in
  createdBy ← attempt (ObjectId_of db userId);
  let input :=
    {| pi_name := cp_name createProjectDto;
       pi_description := cp_description createProjectDto;
       pi_createdBy := createdBy;
       pi_members := memberIds |} in
  project ← query (projects_create input) (answer_projects_create db input);
  projectDto ← toProjectDto db project;
  for_each (notify_created db createProjectDto userId) memberIds;;
  mret projectDto.

(** [findById] *)
Definition findById (db : Db) (id' userId : string) : Service ProjectWithMembersDto :=
  project ← query (projects_findById_populated id')
                  (answer_projects_findById_populated db id');
  match project with
  | None => throw (Http.Other (NotFoundException "Project not found"))
  | Some project =>
      let isMember :=
        existsb (λ member, String.eqb (pu_id member) userId) (pp_members project) in
      if negb isMember then
        throw (Http.ForbiddenException "Not authorized to access this project")
      else
        baseDto ← toProjectDto_populated db project;
        memberDetails ←
          map_each
            (λ member,
               online ← socketService (isUserOnline (pu_id member));
               mret {| md_id := pu_id member; md_email := pu_email member;
                       md_name := pu_name member; md_isOnline := online;
                       md_lastSeen := pu_lastSeen member |})
            (pp_members project);
        mret {| pwm_project := baseDto; memberDetails := memberDetails |}
  end.

(** [addMember] *)
Definition addMember (db : Db) (projectId userId : string) (adminUser : Principal)
  : Service ProjectDto :=
  if negb (isAdmin adminUser) then
    throw (Http.ForbiddenException "Admin access required")
  else
    project ← query (projects_findById projectId)
                    (answer_projects_findById db projectId);
    match project with
    | None => throw (Http.Other (NotFoundException "Project not found"))
    | Some project =>
        userObjectId ← attempt (ObjectId_of db userId);
        let isAlreadyMember :=
          existsb (λ member, String.eqb member userObjectId) (pdoc_members project) in
        if isAlreadyMember then toProjectDto db project
        else
          let project :=
            with_members (pdoc_members project ++ [userObjectId]) project in
          query (projects_save project) (answer_projects_save db project);;
          projectDto ← toProjectDto db project;
          nid ← new_ObjectId db;
          createdAt ← new_Date db;
          let notification :=
            {| notification_id := nid;
               notification_type := "project_invite";
               notification_title := "Project Invitation";
               notification_message :=
                 "You have been added to project: " +:+ pdoc_name project;
               notification_userId := userId;
               notification_read := false;
               notification_createdAt := createdAt |} in
          socketService (emitNotification userId notification);;
          socketService (emitProjectUpdatedToProject projectId projectDto);;
          mret projectDto
    end.

(** [removeMember] *)
Definition removeMember (db : Db) (projectId userId currentUserId : string)
  : Service ProjectDto :=
  project ← query (projects_findById projectId)
                  (answer_projects_findById db projectId);
  match project with
  | None => throw (Http.Other (NotFoundException "Project not found"))
  | Some project =>
      let isCreator := String.eqb (pdoc_createdBy project) currentUserId in
      if negb isCreator then
        throw (Http.ForbiddenException "Only project creator can remove members")
      else
        userObjectId ← attempt (ObjectId_of db userId);
        let project :=
          with_members
            (List.filter (λ member, negb (String.eqb member userObjectId))
                         (pdoc_members project))
            project in
        query (projects_save project) (answer_projects_save db project);;
        projectDto ← toProjectDto db project;
        socketService (emitProjectUpdatedToProject projectId projectDto);;
        mret projectDto
  end.

End ProjectsService.

Module UsersController.

(** [UsersService.findAll] *)
Definition UsersService_findAll (db : Db) : Service (list UserDocument) :=
  query users_find_active (answer_users_find_active db).

(** The users model whose queries settle as [db] says. *)
Definition userModel (db : Db) : UserModel :=
  {| model_findById := answer_users_findById db;
     model_findByIdAndUpdate := λ id _, answer_users_findById db id |}.

(** [this.usersService.findById(id)]: [UsersService.findById], with its one
    query recorded. *)
Definition usersService_findById (db : Db) (id : string) : Service UserDocument :=
  query (users_findById id) (UsersService_findById (userModel db) id).

(** [UsersService.confirmUser] *)
Definition UsersService_confirmUser (db : Db) (userId : string)
    (adminUser : Principal) : Service UserDocument :=
  if negb (isAdmin adminUser) then
    throw (Http.ForbiddenException "Admin access required")
  else
    user ← query (users_findByIdAndUpdate_isConfirmed userId)
                 (answer_users_confirm db userId);
    match user with
    | None => throw (Http.Other (NotFoundException "User not found"))
    | Some user => mret user
    end.

(** [getMyProfile] *)
Definition getMyProfile (req_user : Principal) : Service Principal := mret req_user.

(** [findAll] *)
Definition findAll (db : Db) (req_user : Principal) : Service (list UserDocument) :=
  if negb (isAdmin req_user) then
    throw (Http.ForbiddenException "Admin access required")
  else UsersService_findAll db.

(** [findById] *)
Definition findById (db : Db) (id' : string) (req_user : Principal)
  : Service UserDocument :=
  if negb (String.eqb id' (id req_user)) && negb (isAdmin req_user) then
    throw (Http.ForbiddenException "Access denied")
  else usersService_findById db id'.

(** [confirmUser] *)
Definition confirmUser (db : Db) (userId : string) (req_user : Principal)
  : Service UserDocument :=
  UsersService_confirmUser db userId req_user.

End UsersController.

(** ** Sample data of the services *)

Definition sample_task : TaskDocument :=
  {| tdoc_id := "t1"; tdoc_title := "Write report"; tdoc_description := None;
     tdoc_createdBy := "u1"; tdoc_assignedTo := Some "u2"; tdoc_projectId := "p1";
     tdoc_status := PENDING; tdoc_dueDate := None; tdoc_priority := 0%Z;
     tdoc_createdAt := Some 10%Z; tdoc_updatedAt := Some 20%Z |}.

Definition task_with_status (status : TaskStatus) (task : TaskDocument) : TaskDocument :=
  {| tdoc_id := tdoc_id task; tdoc_title := tdoc_title task;
     tdoc_description := tdoc_description task;
     tdoc_createdBy := tdoc_createdBy task; tdoc_assignedTo := tdoc_assignedTo task;
     tdoc_projectId := tdoc_projectId task; tdoc_status := status;
     tdoc_dueDate := tdoc_dueDate task; tdoc_priority := tdoc_priority task;
     tdoc_createdAt := tdoc_createdAt task; tdoc_updatedAt := tdoc_updatedAt task |}.

Definition sample_project : ProjectDocument :=
  {| pdoc_id := "p1"; pdoc_name := "Apollo"; pdoc_description := None;
     pdoc_createdBy := "u1"; pdoc_members := ["u1"]; pdoc_isActive := true;
     pdoc_createdAt := Some 5%Z; pdoc_updatedAt := Some 6%Z |}.

(** [sample_project] with its users populated, and ["u2"] as a member. *)
Definition sample_populated : PopulatedProject :=
  {| pp_id := "p1"; pp_name := "Apollo"; pp_description := None;
     pp_createdBy :=
       Some {| pu_id := "u1"; pu_name := "Alice"; pu_email := "alice@example.com";
               pu_lastSeen := Some 1000%Z |};
     pp_members :=
       [ {| pu_id := "u1"; pu_name := "Alice"; pu_email := "alice@example.com";
            pu_lastSeen := Some 1000%Z |};
         {| pu_id := "u2"; pu_name := "Bob"; pu_email := "bob@example.com";
            pu_lastSeen := None |} ];
     pp_isActive := true; pp_createdAt := Some 5%Z; pp_updatedAt := Some 6%Z |}.

(** [sample_task] with its project populated; the members of the project
    are its creator ["u1"] and ["u3"], not its assignee ["u2"]. *)
Definition sample_populated_task : PopulatedTask :=
  {| pt_id := "t1"; pt_title := "Write report"; pt_createdBy := "u1";
     pt_assignedTo := Some "u2";
     pt_projectId :=
       Some {| pinfo_id := "p1"; pinfo_name := "Apollo";
               pinfo_members := ["u1"; "u3"] |} |}.

(** A database that holds [alice], [sample_task] and [sample_project], and
    whose writes succeed. *)
Definition sample_db : Db :=
  {| answer_users_find_active := Ok [alice];
     answer_users_findById := model_findById sample_model;
     answer_users_confirm := model_findById sample_model;
     answer_projects_findById :=
       λ i, if String.eqb i "p1" then Ok (Some sample_project) else Ok None;
     answer_projects_findById_populated :=
       λ i, if String.eqb i "p1" then Ok (Some sample_populated) else Ok None;
     answer_projects_create :=
       λ input, Ok {| pdoc_id := "p2"; pdoc_name := pi_name input;
                      pdoc_description := pi_description input;
                      pdoc_createdBy := pi_createdBy input;
                      pdoc_members := pi_members input; pdoc_isActive := true;
                      pdoc_createdAt := Some 7%Z; pdoc_updatedAt := Some 7%Z |};
     answer_projects_save := λ _, Ok tt;
     answer_projects_findOne_active_member :=
       λ i member, if String.eqb i "p1" && String.eqb member "u1"
                   then Ok (Some sample_project) else Ok None;
     answer_tasks_findById :=
       λ i, if String.eqb i "t1" then Ok (Some sample_task) else Ok None;
     answer_tasks_findById_populated :=
       λ i, if String.eqb i "t1" then Ok (Some sample_populated_task) else Ok None;
     answer_tasks_create :=
       λ taskData,
         Ok {| tdoc_id := "t2"; tdoc_title := td_title taskData;
               tdoc_description := td_description taskData;
               tdoc_createdBy := td_createdBy taskData;
               tdoc_assignedTo := td_assignedTo taskData;
               tdoc_projectId := td_projectId taskData;
               tdoc_status := td_status taskData;
               tdoc_dueDate := None;
               tdoc_priority := td_priority taskData;
               tdoc_createdAt := Some 8%Z; tdoc_updatedAt := Some 8%Z |};
     answer_tasks_update :=
       λ i updateData,
         if String.eqb i "t1"
         then Ok (Some (task_with_status
                          (default (tdoc_status sample_task) (ud_status updateData))
                          sample_task))
         else Ok None;
     answer_tasks_findByIdAndDelete := λ _, Ok tt;
     answer_tasks_setStatus :=
       λ i status, if String.eqb i "t1"
                   then Ok (Some (task_with_status status sample_task)) else Ok None;
     ObjectId_of := λ s, Ok s;
     fresh_ObjectId :=
       λ n, match n with
            | O => "65f000000000000000000001"
            | _ => "65f000000000000000000002"
            end;
     reading := λ k, (2000 + Z.of_nat k)%Z |}.

(** [sample_db] with a driver that refuses ["nope"] as an id. *)
Definition sample_db_strict : Db :=
  {| answer_users_find_active := answer_users_find_active sample_db;
     answer_users_findById := answer_users_findById sample_db;
     answer_users_confirm := answer_users_confirm sample_db;
     answer_projects_findById := answer_projects_findById sample_db;
     answer_projects_findById_populated :=
       answer_projects_findById_populated sample_db;
     answer_projects_create := answer_projects_create sample_db;
     answer_projects_save := answer_projects_save sample_db;
     answer_projects_findOne_active_member :=
       answer_projects_findOne_active_member sample_db;
     answer_tasks_findById := answer_tasks_findById sample_db;
     answer_tasks_findById_populated := answer_tasks_findById_populated sample_db;
     answer_tasks_create := answer_tasks_create sample_db;
     answer_tasks_update := answer_tasks_update sample_db;
     answer_tasks_findByIdAndDelete := answer_tasks_findByIdAndDelete sample_db;
     answer_tasks_setStatus := answer_tasks_setStatus sample_db;
     ObjectId_of :=
       λ s, if String.eqb s "nope"
            then Throw (Error "input must be a 24 character hex string")
            else Ok s;
     fresh_ObjectId := fresh_ObjectId sample_db;
     reading := reading sample_db |}.

(** Alice is connected on ["A"] and has joined the room of project ["p1"]. *)
Definition sample_world : World :=
  {| gateway := exec (accept "A" hs_alice;; handleConnection sample_env "A";;
                      handleJoinProject "A" "p1") empty_server;
     issued := []; ids_drawn := 0; dates_read := 0 |}.

Definition sample_admin : Principal :=
  {| id := "u0"; email := "root@example.com"; isAdmin := true |}.

(** The sample database after [sample_project] has been saved with ["u2"]
    as a second member. *)
Definition sample_db_after_add : Db :=
  {| answer_users_find_active := answer_users_find_active sample_db;
     answer_users_findById := answer_users_findById sample_db;
     answer_users_confirm := answer_users_confirm sample_db;
     answer_projects_findById :=
       λ i, if String.eqb i "p1"
            then Ok (Some (ProjectsService.with_members ["u1"; "u2"] sample_project))
            else Ok None;
     answer_projects_findById_populated :=
       answer_projects_findById_populated sample_db;
     answer_projects_create := answer_projects_create sample_db;
     answer_projects_save := answer_projects_save sample_db;
     answer_projects_findOne_active_member :=
       answer_projects_findOne_active_member sample_db;
     answer_tasks_findById := answer_tasks_findById sample_db;
     answer_tasks_findById_populated := answer_tasks_findById_populated sample_db;
     answer_tasks_create := answer_tasks_create sample_db;
     answer_tasks_update := answer_tasks_update sample_db;
     answer_tasks_findByIdAndDelete := answer_tasks_findByIdAndDelete sample_db;
     answer_tasks_setStatus := answer_tasks_setStatus sample_db;
     ObjectId_of := ObjectId_of sample_db;
     fresh_ObjectId := fresh_ObjectId sample_db;
     reading := reading sample_db |}.

(** * Properties *)

(** Unfolds the monad and the primitives, to run a handler symbolically. *)
Ltac unfold_M :=
  unfold mbind, M_bind, mret, M_ret, try_catch, await, get_state, modify,
    client_handshake, client_user, client_user_email, client_set_user,
    client_disconnect, client_join, client_leave, client_emit,
    client_broadcast_emit, server_to_emit, server_emit,
    logger_log, logger_warn, logger_error.

(** ** Lemmas on the primitives *)

Lemma elem_of_connected_sockets (st : Server) (c : SocketId) :
  c ∈ connected_sockets st ↔
  ∃ s, sockets st !! c = Some s ∧ connected s = true.
Proof.
  unfold connected_sockets. rewrite elem_of_dom. split.
  - intros [s Hs]. apply map_lookup_filter_Some in Hs as [? ?]. eauto.
  - intros (s & ? & ?). exists s. by apply map_lookup_filter_Some.
Qed.

Lemma elem_of_room_members (room : string) (st : Server) (c : SocketId) :
  c ∈ room_members room st ↔
  ∃ s, sockets st !! c = Some s ∧ connected s = true ∧ room ∈ rooms s.
Proof.
  unfold room_members. rewrite elem_of_dom. split.
  - intros [s Hs]. apply map_lookup_filter_Some in Hs as [? [? ?]]. eauto.
  - intros (s & ? & ? & ?). exists s. by apply map_lookup_filter_Some.
Qed.

(** Attaching the principal to a socket changes neither who is connected
    nor the membership of a room. *)
Lemma connected_sockets_with_user (st : Server) (c : SocketId) (u : Principal) :
  connected_sockets (set_sockets (alter (with_user u) c) st) = connected_sockets st.
Proof.
  apply set_eq. intros x. rewrite !elem_of_connected_sockets. simpl.
  destruct (decide (c = x)) as [->|Hne].
  - rewrite lookup_alter_eq. destruct (sockets st !! x) as [s|]; simpl.
    + split; intros (s' & Hs' & Hc); simplify_eq; eauto.
    + split; intros (s' & Hs' & Hc); simplify_eq.
  - by rewrite lookup_alter_ne.
Qed.

(** Closing a socket takes exactly that socket out of the connected ones. *)
Lemma connected_sockets_closed (st : Server) (c : SocketId) :
  connected_sockets (set_sockets (alter closed c) st) = connected_sockets st ∖ {[c]}.
Proof.
  apply set_eq. intros x.
  rewrite elem_of_difference, !elem_of_connected_sockets, elem_of_singleton. simpl.
  destruct (decide (c = x)) as [->|Hne].
  - rewrite lookup_alter_eq. destruct (sockets st !! x) as [s|]; simpl.
    + split; [intros (s' & Hs' & Hc); simplify_eq | intros [_ []]; done].
    + split; [intros (s' & Hs' & Hc); simplify_eq | intros [_ []]; done].
  - rewrite lookup_alter_ne by done. split; [intros; split; [done|congruence] | tauto].
Qed.


Lemma replace_Bearer_prefix (t : string) : replace "Bearer " "" ("Bearer " +:+ t) = t.
Proof. reflexivity. Qed.

Lemma js_not_false (a : option string) :
  js_not a = false ↔ ∃ s, a = Some s ∧ truthy s = true.
Proof.
  destruct a as [s|]; simpl.
  - rewrite negb_false_iff. split; [eauto | intros (? & [= <-] & ?); done].
  - split; [done | intros (? & ? & ?); done].
Qed.

(** ** Presence reads *)

(** C10.  The three presence reads agree and leave the gateway as it is:
    on every state, each of [isUserOnline], [getConnectedUsers] and
    [getConnectedUserCount] returns with the state unchanged;
    [isUserOnline u] is [true] exactly when [u] is in the list of
    [getConnectedUsers], in which no id occurs twice, and the count is the
    length of that list. *)
Theorem presence_reads_consistent (st : Server) (u : string) :
  ∃ (online : bool) (users : list string) (count : nat),
    isUserOnline u st = (Ok online, st) ∧
    getConnectedUsers st = (Ok users, st) ∧
    getConnectedUserCount st = (Ok count, st) ∧
    (online = true ↔ u ∈ users) ∧
    NoDup users ∧
    count = length users.
Proof.
  eexists _, _, _. repeat split.
  - intros Hon. apply bool_decide_eq_true in Hon as [c Hc].
    apply list_elem_of_fmap. exists (u, c). split; [done|].
    by apply elem_of_map_to_list.
  - intros Hin. apply bool_decide_eq_true.
    apply list_elem_of_fmap in Hin as ([u' c] & -> & Hin).
    apply elem_of_map_to_list in Hin. by exists c.
  - apply NoDup_fst_map_to_list.
  - by rewrite length_fmap, length_map_to_list.
Qed.

(** ** Emission to one user *)

(** C7.  For each of the gateway's emit functions that target a user: when
    the user id is not in [connectedUsers] the call returns normally and
    leaves the whole state, the wire included, as it was; when the id maps
    to a socket the call returns normally, and its one effect is one
    emission of the event whose recipients are that socket alone. *)
Theorem emitToUser_offline_silent_online_single
    (st : Server) (userId : string) (call : UserEmit) :
  (connectedUsers st !! userId = None →
     emitToUser userId call st = (Ok tt, st)) ∧
  (∀ client, connectedUsers st !! userId = Some client →
     emitToUser userId call st =
       (Ok tt, push_wire {| recipients := {[client]};
                            event := UserEmit_event call |} st)).
Proof.
  split.
  - intros Hnone.
    destruct call; unfold emitToUser, emitTaskCreated, emitTaskUpdated,
      emitTaskDeleted, emitProjectUpdated, emitCommentCreated, emitUserOnline,
      emitNotification, mbind, M_bind, get_state; simpl; by rewrite Hnone.
  - intros client Hsome.
    destruct call; unfold emitToUser, emitTaskCreated, emitTaskUpdated,
      emitTaskDeleted, emitProjectUpdated, emitCommentCreated, emitUserOnline,
      emitNotification, mbind, M_bind, get_state; simpl; by rewrite Hsome.
Qed.

Lemma emitToUser_offline_silent_online_single_witness :
  let st := exec (accept "A" hs_alice;; handleConnection sample_env "A") empty_server in
  (connectedUsers st !! "nonexistent" = None ∧
   emitToUser "nonexistent" (EmitTaskDeleted "t1") st = (Ok tt, st)) ∧
  (connectedUsers st !! "u1" = Some "A" ∧
   emitToUser "u1" (EmitTaskDeleted "t1") st =
     (Ok tt, push_wire {| recipients := {["A"]}; event := task_deleted "t1" |} st)).
Proof.
  intros st.
  assert (Hno : connectedUsers st !! "nonexistent" = None) by (vm_compute; reflexivity).
  assert (Hyes : connectedUsers st !! "u1" = Some "A") by (vm_compute; reflexivity).
  pose proof (emitToUser_offline_silent_online_single st "nonexistent"
                (EmitTaskDeleted "t1")) as [H1 _].
  pose proof (emitToUser_offline_silent_online_single st "u1"
                (EmitTaskDeleted "t1")) as [_ H2].
  split; split; [exact Hno | exact (H1 Hno) | exact Hyes | exact (H2 "A" Hyes)].
Defined.

(** ** Token of the handshake *)

(** C6, as stated, fails: with both fields present and an empty
    [auth.token], the token is the one of the [Authorization] header. *)
Lemma handshake_token_empty_auth_uses_header :
  let hs := {| auth := Some (Str ""); headers := Some (Str "Bearer abc") |} in
  authToken hs = Some "" ∧
  handshake_token hs = Some "abc" ∧
  handshake_token hs ≠ authToken hs.
Proof. repeat split. discriminate. Qed.

(** C6, amended.  A non-empty string in [auth.token] is the token, whatever
    the header holds.  When [auth.token] is absent, is not a string, or is
    the empty string, the token is the one of the header: the
    [Authorization] header, if it is a string, with the first occurrence of
    ["Bearer "] removed, which for a header that starts with ["Bearer "] is
    the header without that prefix. *)
Theorem handshake_token_priority (hs : Handshake) :
  (∀ a, auth hs = Some (Str a) → a ≠ "" → handshake_token hs = Some a) ∧
  (authToken hs = None ∨ authToken hs = Some "" →
     handshake_token hs = headerToken hs) ∧
  (∀ h, headers hs = Some (Str h) →
     headerToken hs = Some (replace "Bearer " "" h)) ∧
  (∀ t, headers hs = Some (Str ("Bearer " +:+ t)) → headerToken hs = Some t).
Proof.
  repeat split.
  - intros a Ha Hne. unfold handshake_token, authToken. rewrite Ha. simpl.
    destruct a; [done|reflexivity].
  - intros [H|H]; unfold handshake_token; by rewrite H.
  - intros h Hh. unfold headerToken. by rewrite Hh.
  - intros t Ht. unfold headerToken. rewrite Ht. simpl typeof_string. cbv iota.
    by rewrite replace_Bearer_prefix.
Qed.

Lemma handshake_token_priority_witness :
  let hs := {| auth := Some (Str "tok-a"); headers := Some (Str "Bearer tok-h") |} in
  let hs' := {| auth := Some (Num 7); headers := Some (Str "Bearer tok-h") |} in
  handshake_token hs = Some "tok-a" ∧
  handshake_token hs' = headerToken hs' ∧
  headerToken hs' = Some (replace "Bearer " "" "Bearer tok-h") ∧
  headerToken hs' = Some "tok-h".
Proof.
  intros hs hs'.
  destruct (handshake_token_priority hs) as (H1 & _).
  destruct (handshake_token_priority hs') as (_ & H2 & H3 & H4).
  split; [apply (H1 "tok-a"); [reflexivity | discriminate] |].
  split; [apply H2; left; reflexivity |].
  split; [apply (H3 "Bearer tok-h"); reflexivity | apply (H4 "tok-h"); reflexivity].
Defined.

(** ** Authentication *)

Lemma handleDisconnect_unauthenticated (env : Env) (client : SocketId) (st : Server) :
  user (sockets st !!! client) = None →
  handleDisconnect env client st = (Ok tt, st).
Proof. intros Hu. unfold handleDisconnect. unfold_M. by rewrite Hu. Qed.

Lemma lookup_total_alter_closed_user (m : gmap SocketId Socket) (c : SocketId) :
  user (alter closed c m !!! c) = user (m !!! c).
Proof.
  rewrite !lookup_total_alt, lookup_alter_eq. by destruct (m !! c).
Qed.

(** C5.  In each of the five failure modes (no token; token rejected by the
    verifier; user not found, whether the directory answers [null] or
    throws [NotFoundException]; user inactive; user unconfirmed)
    [handleConnection] returns normally having disconnected the client and
    nothing else: no frame is emitted to anyone, and [connectedUsers], hence
    the list of [getConnectedUsers], is what it was.  The client carries no
    principal afterwards, so the [handleDisconnect] that follows the
    disconnection changes nothing either. *)
Theorem auth_failure_fails_closed (env : Env) (st : Server) (client : SocketId) :
  AuthFailure env (handshake (sockets st !!! client)) →
  ∃ st',
    handleConnection env client st = (Ok tt, st') ∧
    sockets st' = alter closed client (sockets st) ∧
    wire st' = wire st ∧
    connectedUsers st' = connectedUsers st ∧
    (getConnectedUsers st').1 = (getConnectedUsers st).1 ∧
    (user (sockets st !!! client) = None →
       ∀ env', handleDisconnect env' client st' = (Ok tt, st')).
Proof.
  intros Hfail.
  assert (Hgoal : ∃ st',
    handleConnection env client st = (Ok tt, st') ∧
    sockets st' = alter closed client (sockets st) ∧
    wire st' = wire st ∧
    connectedUsers st' = connectedUsers st).
  { unfold handleConnection. unfold_M.
    destruct Hfail as [Habs | t e Ht Htr Hv | t p Ht Htr Hv Hf
                      | t p u Ht Htr Hv Hf Hact | t p u Ht Htr Hv Hf Hconf].
    - rewrite Habs. eexists; repeat split.
    - assert (Hn : js_not (handshake_token (handshake (sockets st !!! client))) = false)
        by (apply js_not_false; eauto).
      rewrite Hn, Ht. simpl. rewrite Hv. eexists; repeat split.
    - assert (Hn : js_not (handshake_token (handshake (sockets st !!! client))) = false)
        by (apply js_not_false; eauto).
      rewrite Hn, Ht. simpl. rewrite Hv.
      destruct Hf as [Hf | [m Hf]]; rewrite Hf; eexists; repeat split.
    - assert (Hn : js_not (handshake_token (handshake (sockets st !!! client))) = false)
        by (apply js_not_false; eauto).
      rewrite Hn, Ht. simpl. rewrite Hv, Hf, Hact. simpl. eexists; repeat split.
    - assert (Hn : js_not (handshake_token (handshake (sockets st !!! client))) = false)
        by (apply js_not_false; eauto).
      rewrite Hn, Ht. simpl. rewrite Hv, Hf, Hconf. simpl.
      destruct (isActive u); simpl; eexists; repeat split. }
  destruct Hgoal as (st' & Hrun & Hsock & Hwire & Husers).
  exists st'. repeat split; try done.
  - unfold getConnectedUsers. simpl. by rewrite Husers.
  - intros Hnone env'. apply handleDisconnect_unauthenticated.
    by rewrite Hsock, lookup_total_alter_closed_user.
Qed.

(** A token for a user the directory does not hold: [UsersService.findById]
    throws, and the connection is closed without a frame or an entry. *)
Lemma auth_failure_fails_closed_witness :
  let st := exec (accept "A" {| auth := None; headers := Some (Str "Bearer tok-ghost") |})
                 empty_server in
  ∃ st',
    handleConnection sample_env "A" st = (Ok tt, st') ∧
    sockets st' = alter closed "A" (sockets st) ∧
    wire st' = wire st ∧
    connectedUsers st' = connectedUsers st ∧
    (getConnectedUsers st').1 = (getConnectedUsers st).1 ∧
    (user (sockets st !!! "A") = None →
       ∀ env', handleDisconnect env' "A" st' = (Ok tt, st')).
Proof.
  intros st.
  apply (auth_failure_fails_closed sample_env st "A").
  apply (user_not_found sample_env _ "tok-ghost"
           {| jwt_email := "ghost@example.com"; sub := "u9" |});
    [vm_compute; reflexivity | reflexivity | reflexivity |].
  right. exists "User not found". reflexivity.
Defined.

Lemma handleConnection_authenticates (env : Env) (st : Server) (client : SocketId)
    (u : UserDocument) :
  authenticates env (handshake (sockets st !!! client)) u →
  handleConnection env client st =
    match updateLastSeen (usersService env) (_id u) (clock env 0) with
    | Ok _ =>
        (Ok tt,
         push_log (LOG, "User " +:+ user_email u +:+ " connected")
           (push_wire
              {| recipients := connected_sockets st ∖ {[client]};
                 event := user_online
                   {| userId := _id u; presence_email := user_email u;
                      isOnline := true; lastSeen := Some (clock env 1) |} |}
              (registered client u st)))
    | Throw e =>
        (Ok tt,
         set_sockets (alter closed client)
           (push_log (ERROR, "[SocketService] Unexpected connection error: "
                             +:+ message e)
              (registered client u st)))
    end.
Proof.
  intros (t & payload & Ht & Htr & Hv & Hf & Hact & Hconf).
  assert (Hn : js_not (handshake_token (handshake (sockets st !!! client))) = false)
    by (apply js_not_false; eauto).
  unfold handleConnection. unfold_M.
  rewrite Hn, Ht. simpl. rewrite Hv, Hf, Hact, Hconf. simpl.
  destruct (updateLastSeen (usersService env) (_id u) (clock env 0)) as [[]|e]; [|done].
  fold (principal_of u). rewrite <- (connected_sockets_with_user st client (principal_of u)).
  reflexivity.
Qed.

Lemma handleDisconnect_authenticated (env : Env) (st : Server) (client : SocketId)
    (p : Principal) :
  user (sockets st !!! client) = Some p →
  handleDisconnect env client st =
    match updateLastSeen (usersService env) (id p) (clock env 0) with
    | Ok _ =>
        (Ok tt,
         push_log (LOG, "User " +:+ email p +:+ " disconnected")
           (push_wire {| recipients := connected_sockets st ∖ {[client]};
                         event := user_offline (id p) |}
              (set_connectedUsers (delete (id p)) st)))
    | Throw e => (Throw e, set_connectedUsers (delete (id p)) st)
    end.
Proof.
  intros Hu. unfold handleDisconnect. unfold_M. rewrite Hu.
  by destruct (updateLastSeen (usersService env) (id p) (clock env 0)) as [[]|e].
Qed.


Lemma sample_authenticates (st : Server) (client : SocketId) :
  handshake (sockets st !!! client) = hs_alice →
  authenticates sample_env (handshake (sockets st !!! client)) alice.
Proof.
  intros ->. exists "tok-u1", {| jwt_email := "alice@example.com"; sub := "u1" |}.
  repeat split.
Qed.


(** C2, as stated, fails.  With a directory whose writes fail, Alice's
    connection on ["A"] is authenticated up to the write of the last-seen
    time; [handleConnection] then disconnects ["A"] and emits nothing, so
    Bob on ["B"] receives no [user.online].  On deregistration of an
    authenticated socket, the failed write makes [handleDisconnect] throw
    before any [user.offline] is emitted. *)
Lemma last_seen_failure_aborts_flow :
  let st := exec (accept "B" hs_none;; accept "A" hs_alice) empty_server in
  let st' := exec (handleConnection failing_env "A") st in
  "B" ∈ connected_sockets st ∧
  connected (sockets st' !!! "A") = false ∧
  wire st' = [] ∧
  handleDisconnect failing_env "A" st' =
    (Throw (Error "connection timed out"),
     set_connectedUsers (delete "u1") st') ∧
  wire (exec (handleDisconnect failing_env "A") st') = [].
Proof.
  intros st st'. split.
  - apply elem_of_connected_sockets. eexists. split; vm_compute; reflexivity.
  - repeat split; vm_compute; reflexivity.
Qed.

(** C2, amended.  When authentication goes through up to the write of the
    last-seen time and that write fails, [handleConnection] catches the
    failure: it returns normally, logs the error, disconnects the client and
    emits no frame.  The entry written before the failure, which maps the
    user id to the client, is removed by the [handleDisconnect] that
    follows the disconnection, whatever the directory answers then. *)
Theorem last_seen_failure_disconnects (env : Env) (st : Server) (client : SocketId)
    (u : UserDocument) (e : Exn) :
  is_Some (sockets st !! client) →
  authenticates env (handshake (sockets st !!! client)) u →
  updateLastSeen (usersService env) (_id u) (clock env 0) = Throw e →
  ∃ st',
    handleConnection env client st = (Ok tt, st') ∧
    wire st' = wire st ∧
    logged st' =
      (ERROR, "[SocketService] Unexpected connection error: " +:+ message e)
      :: logged st ∧
    connected (sockets st' !!! client) = false ∧
    connectedUsers st' = <[_id u := client]> (connectedUsers st) ∧
    (∀ env', connectedUsers (exec (handleDisconnect env' client) st')
             = delete (_id u) (connectedUsers st)).
Proof.
  intros [s Hs] Hauth Hw.
  rewrite (handleConnection_authenticates env st client u Hauth), Hw.
  set (st1 := set_sockets (alter closed client) _).
  assert (Hsock : sockets st1 !!! client = closed (with_user (principal_of u) s)).
  { unfold st1. simpl. by rewrite lookup_total_alt, !lookup_alter_eq, Hs. }
  exists st1. repeat split.
  - by rewrite Hsock.
  - intros env'. unfold exec.
    rewrite (handleDisconnect_authenticated env' st1 client (principal_of u))
      by (by rewrite Hsock).
    destruct (updateLastSeen (usersService env') (id (principal_of u)) (clock env' 0));
      simpl; apply delete_insert_eq.
Qed.

Lemma last_seen_failure_disconnects_witness :
  let st := exec (accept "B" hs_none;; accept "A" hs_alice) empty_server in
  ∃ st',
    handleConnection failing_env "A" st = (Ok tt, st') ∧
    wire st' = wire st ∧
    logged st' =
      (ERROR, "[SocketService] Unexpected connection error: connection timed out")
      :: logged st ∧
    connected (sockets st' !!! "A") = false ∧
    connectedUsers st' = <["u1" := "A"]> (connectedUsers st) ∧
    (∀ env', connectedUsers (exec (handleDisconnect env' "A") st')
             = delete "u1" (connectedUsers st)).
Proof.
  intros st.
  apply (last_seen_failure_disconnects failing_env st "A" alice
           (Error "connection timed out")).
  - eexists. vm_compute. reflexivity.
  - exists "tok-u1", {| jwt_email := "alice@example.com"; sub := "u1" |}.
    repeat split.
  - reflexivity.
Defined.

(** ** Deregistration *)

(** [handleDisconnect] deletes the entry of the user id of its client,
    whichever socket that entry maps to. *)
Lemma handleDisconnect_deletes_by_user_id (env : Env) (st : Server)
    (client : SocketId) (p : Principal) :
  user (sockets st !!! client) = Some p →
  connectedUsers (exec (handleDisconnect env client) st)
  = delete (id p) (connectedUsers st).
Proof.
  intros Hu. unfold exec. rewrite (handleDisconnect_authenticated env st client p Hu).
  by destruct (updateLastSeen (usersService env) (id p) (clock env 0)).
Qed.

Lemma transport_close_unfold (env : Env) (client : SocketId) (st : Server) :
  transport_close env client st
  = handleDisconnect env client (set_sockets (alter closed client) st).
Proof. reflexivity. Qed.

(** C1.  The code on the scenario of the claim.  Socket [A] carries the
    principal of a user whose entry in [connectedUsers] refers to another
    socket [B], as happens when the user has authenticated on [A] and then
    on [B].  When the transport of [A] closes, [B] is left as it was, still
    connected and authenticated if it was, but the entry of the user is
    deleted and [isUserOnline] answers [false] for her. *)
Theorem stale_close_evicts_live_entry (env : Env) (st : Server) (A B : SocketId)
    (p : Principal) (sB : Socket) :
  A ≠ B →
  user (sockets st !!! A) = Some p →
  connectedUsers st !! id p = Some B →
  sockets st !! B = Some sB →
  let st' := exec (transport_close env A) st in
  sockets st' !! B = Some sB ∧
  connectedUsers st' !! id p = None ∧
  (isUserOnline (id p) st').1 = Ok false.
Proof.
  intros Hne Hu Hentry HB st'. subst st'. unfold exec.
  rewrite transport_close_unfold.
  rewrite (handleDisconnect_authenticated env _ A p)
    by (simpl; by rewrite lookup_total_alter_closed_user).
  assert (Hgone : delete (id p) (connectedUsers st) !! id p = None)
    by apply lookup_delete_eq.
  destruct (updateLastSeen (usersService env) (id p) (clock env 0)); simpl.
  - split; [by rewrite lookup_alter_ne|]. split; [done|].
    unfold isUserOnline. simpl. by rewrite Hgone.
  - split; [by rewrite lookup_alter_ne|]. split; [done|].
    unfold isUserOnline. simpl. by rewrite Hgone.
Qed.

(** Alice authenticates on ["A"], then on ["B"]; then ["A"] closes. *)
Lemma stale_close_evicts_live_entry_witness :
  let st := exec (accept "A" hs_alice;; handleConnection sample_env "A";;
                  accept "B" hs_alice;; handleConnection sample_env "B")
                 empty_server in
  let sB := {| handshake := hs_alice; user := Some (principal_of alice);
               connected := true; rooms := ∅ |} in
  let st' := exec (transport_close sample_env "A") st in
  (connectedUsers st !! "u1" = Some "B" ∧ (isUserOnline "u1" st).1 = Ok true) ∧
  (sockets st' !! "B" = Some sB ∧
   connectedUsers st' !! "u1" = None ∧
   (isUserOnline "u1" st').1 = Ok false).
Proof.
  intros st sB st'.
  assert (Hentry : connectedUsers st !! "u1" = Some "B") by (vm_compute; reflexivity).
  split; [split; [exact Hentry | vm_compute; reflexivity] |].
  apply (stale_close_evicts_live_entry sample_env st "A" "B" (principal_of alice) sB);
    [discriminate | vm_compute; reflexivity | exact Hentry | vm_compute; reflexivity].
Defined.

(** ** Room router *)

Lemma dispatch_sockets (client : SocketId) (op : ClientOp) (st : Server) :
  sockets (exec (dispatch client op) st)
  = alter (with_rooms (op_effect op)) client (sockets st).
Proof.
  unfold exec.
  destruct op; unfold dispatch, handleJoinProject, handleLeaveProject,
    handleJoinTask, handleLeaveTask; unfold_M; simpl;
    match goal with
    | |- context [user ?s] => destruct (user s)
    end; reflexivity.
Qed.

Lemma dispatch_frame (client : SocketId) (op : ClientOp) (st : Server) :
  connectedUsers (exec (dispatch client op) st) = connectedUsers st ∧
  wire (exec (dispatch client op) st) = wire st.
Proof.
  unfold exec.
  destruct op; unfold dispatch, handleJoinProject, handleLeaveProject,
    handleJoinTask, handleLeaveTask; unfold_M; simpl;
    match goal with
    | |- context [user ?s] => destruct (user s)
    end; split; reflexivity.
Qed.

(** C3, as stated, fails.  Socket ["A"] has been accepted and carries no
    principal.  [handleJoinProject] puts it in room ["project:P1"] before it
    throws on reading the user's email, and a later emission to the project
    goes to ["A"]. *)
Lemma unauthenticated_join_enters_room :
  let st := exec (accept "A" hs_none) empty_server in
  let st' := exec (handleJoinProject "A" "P1") st in
  user (sockets st !!! "A") = None ∧
  (handleJoinProject "A" "P1" st).1
    = Throw (TypeError "Cannot read properties of undefined (reading 'email')") ∧
  "project:P1" ∈ rooms (sockets st' !!! "A") ∧
  (wire (exec (emitTaskDeletedToProject "P1" "t1") st')
   = [ {| recipients := {["A"]}; event := task_deleted "t1" |} ]).
Proof.
  intros st st'. split; [reflexivity|]. split; [reflexivity|]. split.
  - replace (rooms (sockets st' !!! "A")) with ({["project:P1"]} : gset string)
      by (vm_compute; reflexivity).
    by apply elem_of_singleton.
  - vm_compute. reflexivity.
Qed.

(** C3, amended.  On a connection that carries a principal, [join.project]
    and [join.task] return normally and add to the rooms of the connection
    the room ["project:<id>"], respectively ["task:<id>"], and nothing else
    to any socket.  The handlers take the authenticated connection by type
    and test nothing themselves; whatever the connection, none of the four
    room handlers disconnects a socket. *)
Theorem join_adds_room_for_principal (client : SocketId) (op : ClientOp) (st : Server) :
  (∀ s p, sockets st !! client = Some s → user s = Some p → op_joins op = true →
     ∃ st',
       dispatch client op st = (Ok tt, st') ∧
       rooms (sockets st' !!! client) = {[op_room op]} ∪ rooms s ∧
       (∀ c, c ≠ client → sockets st' !! c = sockets st !! c)) ∧
  (∀ c, connected (sockets (exec (dispatch client op) st) !!! c)
        = connected (sockets st !!! c)).
Proof.
  split.
  - intros s p Hs Hu Hj.
    pose proof (dispatch_sockets client op st) as Hsock. unfold exec in Hsock.
    assert (Hret : (dispatch client op st).1 = Ok tt).
    { destruct op; try discriminate Hj;
        unfold dispatch, handleJoinProject, handleJoinTask; unfold_M; simpl;
        by rewrite lookup_total_alt, lookup_alter_eq, Hs; simpl; rewrite Hu. }
    destruct (dispatch client op st) as [r st'] eqn:Hrun. simpl in *. subst r.
    exists st'. split; [reflexivity|]. rewrite Hsock. split.
    + rewrite lookup_total_alt, lookup_alter_eq, Hs. simpl.
      unfold op_effect. by rewrite Hj.
    + intros c Hne. by rewrite lookup_alter_ne.
  - intros c. rewrite dispatch_sockets, !lookup_total_alt.
    destruct (decide (client = c)) as [->|Hne].
    + rewrite lookup_alter_eq. by destruct (sockets st !! c).
    + by rewrite lookup_alter_ne.
Qed.

Lemma join_adds_room_for_principal_witness :
  let st := exec (accept "A" hs_alice;; handleConnection sample_env "A") empty_server in
  ∃ st',
    handleJoinTask "A" "T7" st = (Ok tt, st') ∧
    rooms (sockets st' !!! "A") = {["task:T7"]} ∪ ∅ ∧
    (∀ c, c ≠ "A" → sockets st' !! c = sockets st !! c).
Proof.
  intros st.
  destruct (join_adds_room_for_principal "A" (join_task "T7") st) as [H _].
  apply (H {| handshake := hs_alice; user := Some (principal_of alice);
              connected := true; rooms := ∅ |} (principal_of alice));
    [vm_compute; reflexivity | reflexivity | reflexivity].
Defined.

(** ** Room-scoped fan-out *)

Lemma room_name_inj (k1 k2 : RoomKind) (e1 e2 : string) :
  room_name k1 e1 = room_name k2 e2 → k1 = k2 ∧ e1 = e2.
Proof.
  destruct k1, k2; intros H; cbv in H; try discriminate H;
    by injection H as ->.
Qed.

Lemma op_room_target (op : ClientOp) :
  op_room op = room_name (op_target op).1 (op_target op).2.
Proof. by destruct op. Qed.

(** The sockets after a trace of room operations, when no socket was in a
    room before: the same sockets, as connected as before, each in the rooms
    it has joined and not left. *)
Lemma serve_sockets (ops : list (SocketId * ClientOp)) (st0 : Server) (c : SocketId) :
  (∀ c s, sockets st0 !! c = Some s → rooms s = ∅) →
  match sockets (serve ops st0) !! c, sockets st0 !! c with
  | Some s, Some s0 =>
      connected s = connected s0 ∧ ∀ r, r ∈ rooms s ↔ joined c r ops = true
  | None, None => True
  | _, _ => False
  end.
Proof.
  intros Hempty. induction ops as [|[client op] earlier IH]; simpl.
  - destruct (sockets st0 !! c) as [s0|] eqn:Hc; [|done].
    split; [done|]. intros r. rewrite (Hempty c s0 Hc), elem_of_empty. naive_solver.
  - rewrite dispatch_sockets.
    destruct (decide (client = c)) as [->|Hne].
    + rewrite lookup_alter_eq.
      destruct (sockets (serve earlier st0) !! c) as [s|],
               (sockets st0 !! c) as [s0|]; simpl; try done.
      destruct IH as [Hconn Hrooms]. split; [done|]. intros r.
      unfold op_effect. case_bool_decide as Hd.
      * destruct Hd as [_ <-].
        destruct (op_joins op);
          rewrite ?elem_of_union, ?elem_of_difference, ?elem_of_singleton;
          intuition congruence.
      * assert (op_room op ≠ r) by (intros ?; apply Hd; done).
        rewrite <- Hrooms.
        destruct (op_joins op);
          rewrite ?elem_of_union, ?elem_of_difference, ?elem_of_singleton;
          intuition congruence.
    + rewrite lookup_alter_ne by done.
      destruct (sockets (serve earlier st0) !! c) as [s|],
               (sockets st0 !! c) as [s0|]; simpl; try done.
      destruct IH as [Hconn Hrooms]. split; [done|]. intros r.
      rewrite Hrooms. case_bool_decide as Hd; [|done]. by destruct Hd.
Qed.

Lemma emitToProject_recipients (projectId : string) (call : ProjectEmit) (st : Server) :
  emitToProject projectId call st =
    (Ok tt, push_wire {| recipients := room_members (room_name project_kind projectId) st;
                         event := ProjectEmit_event call |} st).
Proof. by destruct call. Qed.

(** C9.  Room keys do not collide: two keys ["<kind>:<id>"] are equal only
    for the same kind and the same id.  After any sequence of room
    operations on a gateway whose sockets started in no room, each of the
    emit functions that target a project makes one emission to room
    ["project:A"], and its recipients are exactly the connected sockets
    that have joined ["project:A"] and not left it since.  A socket all of
    whose operations were about other targets (["project:B"] with [B ≠ A],
    or ["task:A"]) is not a recipient. *)
Theorem room_scoped_isolation :
  (∀ k1 e1 k2 e2, room_name k1 e1 = room_name k2 e2 → k1 = k2 ∧ e1 = e2) ∧
  (∀ (st0 : Server) (ops : list (SocketId * ClientOp)) (A : string)
     (call : ProjectEmit),
     (∀ c s, sockets st0 !! c = Some s → rooms s = ∅) →
     ∃ rs,
       emitToProject A call (serve ops st0) =
         (Ok tt, push_wire {| recipients := rs; event := ProjectEmit_event call |}
                   (serve ops st0)) ∧
       (∀ c, c ∈ rs ↔
             c ∈ connected_sockets st0 ∧
             joined c (room_name project_kind A) ops = true) ∧
       (∀ c, (∀ op, (c, op) ∈ ops → op_target op ≠ (project_kind, A)) → c ∉ rs)).
Proof.
  split; [intros; by apply room_name_inj|].
  intros st0 ops A call Hempty.
  exists (room_members (room_name project_kind A) (serve ops st0)).
  split; [apply emitToProject_recipients|].
  assert (Hchar : ∀ c, c ∈ room_members (room_name project_kind A) (serve ops st0) ↔
                       c ∈ connected_sockets st0 ∧
                       joined c (room_name project_kind A) ops = true).
  { intros c. rewrite elem_of_room_members, elem_of_connected_sockets.
    pose proof (serve_sockets ops st0 c Hempty) as H.
    destruct (sockets (serve ops st0) !! c) as [s|],
             (sockets st0 !! c) as [s0|]; try done.
    - destruct H as [Hconn Hrooms]. split.
      + intros (s' & [= <-] & Hc & Hr). split; [|by apply Hrooms].
        exists s0. split; [done|congruence].
      + intros [(s' & [= <-] & Hc) Hj]. exists s.
        split; [done|]. split; [congruence|by apply Hrooms].
    - split; [intros (? & ? & _); done | intros [(? & ? & _) _]; done]. }
  split; [exact Hchar|].
  intros c Hother Hin. apply Hchar in Hin as [_ Hj].
  clear Hchar Hempty. induction ops as [|[c' op] earlier IH]; simpl in Hj; [done|].
  case_bool_decide as Hd.
  - destruct Hd as [-> Hroom]. rewrite op_room_target in Hroom.
    apply (room_name_inj _ project_kind _ A) in Hroom as [Hk He].
    apply (Hother op); [left|]. destruct (op_target op); simpl in *; congruence.
  - apply IH; [|done]. intros op' Hin'. apply Hother. by right.
Qed.

Lemma accept_no_rooms (client : SocketId) (hs : Handshake) (st : Server) :
  (∀ c s, sockets st !! c = Some s → rooms s = ∅) →
  ∀ c s, sockets (exec (accept client hs) st) !! c = Some s → rooms s = ∅.
Proof.
  intros Hst c s. unfold exec, accept, modify. simpl.
  destruct (decide (client = c)) as [->|Hne].
  - rewrite lookup_insert_eq. by intros [= <-].
  - rewrite lookup_insert_ne by done. apply Hst.
Qed.

(** Carol joins ["project:A"]; Dave joins ["project:B"] and ["task:A"]; Erin
    joined ["project:A"] and left.  An update of project ["A"] goes to Carol
    alone. *)
Lemma room_scoped_isolation_witness :
  let st0 := exec (accept "erin" hs_none)
               (exec (accept "dave" hs_none)
                  (exec (accept "carol" hs_none) empty_server)) in
  let ops := [ ("erin", leave_project "A"); ("dave", join_task "A");
               ("carol", join_project "A"); ("dave", join_project "B");
               ("erin", join_project "A") ] in
  ∃ rs,
    emitToProject "A" (TaskDeletedToProject "t1") (serve ops st0) =
      (Ok tt, push_wire {| recipients := rs; event := task_deleted "t1" |}
                (serve ops st0)) ∧
    "carol" ∈ rs ∧ ("dave" ∉ rs) ∧ ("erin" ∉ rs).
Proof.
  intros st0 ops.
  destruct room_scoped_isolation as [_ H].
  destruct (H st0 ops "A" (TaskDeletedToProject "t1")) as (rs & Hrun & Hchar & Hother).
  { unfold st0. do 3 apply accept_no_rooms. intros c s Hc. simpl in Hc.
    by rewrite lookup_empty in Hc. }
  exists rs. split; [exact Hrun|]. split; [|split].
  - apply Hchar. split; [|reflexivity].
    apply elem_of_connected_sockets. eexists. split; vm_compute; reflexivity.
  - apply Hother. intros op Hop. unfold ops in Hop.
    apply elem_of_cons in Hop as [[=]|Hop].
    apply elem_of_cons in Hop as [[= ->]|Hop]; [discriminate|].
    apply elem_of_cons in Hop as [[=]|Hop].
    apply elem_of_cons in Hop as [[= ->]|Hop]; [discriminate|].
    apply elem_of_cons in Hop as [[=]|Hop].
    apply elem_of_nil in Hop. destruct Hop.
  - intros Hin. apply Hchar in Hin as [_ Hj]. discriminate Hj.
Defined.

(** ** Backbone adapter *)

(** C4, as stated, fails.  The bus is unreachable at startup: the client of
    the provider emits [error], which its listener answers with one console
    line, and the client goes on retrying.  [afterInit] on that client
    returns normally with the adapter installed: nothing is thrown, and
    startup goes on. *)
Lemma unreachable_bus_does_not_abort_startup :
  status (redisClient unreachable_env) = Reconnecting ∧
  redis_emit (redisClient unreachable_env) on_error
             "connect ECONNREFUSED 127.0.0.1:6379"
  = ["❌ Redis connection error: connect ECONNREFUSED 127.0.0.1:6379"] ∧
  (afterInit unreachable_env empty_server).1 = Ok tt ∧
  adapter (exec (afterInit unreachable_env) empty_server)
  = RedisAdapter (duplicate (redisClient unreachable_env))
                 (duplicate (redisClient unreachable_env)).
Proof. repeat split. Qed.

(** C4, amended.  Initialization of the backbone adapter has no failing
    path.  The provider returns its client for every configuration, and a
    connection error of that client only prints one console line through
    the [error] listener.  [afterInit] returns normally for every client,
    whatever its connection state: it installs the Redis adapter over two
    duplicates of the client, logs one line, and touches neither the sockets
    nor [connectedUsers] nor the wire. *)
Theorem backbone_init_never_fails (configService : ConfigService) (env : Env)
    (st : Server) (msg : string) :
  redis_emit (useFactory configService) on_error msg
  = ["❌ Redis connection error: " +:+ msg] ∧
  ∃ st',
    afterInit env st = (Ok tt, st') ∧
    adapter st' = RedisAdapter (duplicate (redisClient env))
                               (duplicate (redisClient env)) ∧
    logged st' = (LOG, "WebSocket Gateway initialized with Redis adapter") :: logged st ∧
    sockets st' = sockets st ∧
    connectedUsers st' = connectedUsers st ∧
    wire st' = wire st.
Proof.
  split; [reflexivity|].
  eexists. repeat split.
Qed.

(** * Further properties of the gateway *)

(** ** Outcomes of [handleConnection] *)

(** Every run of [handleConnection] either authenticates its client, or
    closes it and leaves the registry and the wire as they were. *)
Lemma handleConnection_cases (env : Env) (st : Server) (client : SocketId) :
  (∃ u, authenticates env (handshake (sockets st !!! client)) u) ∨
  (∃ st', handleConnection env client st = (Ok tt, st') ∧
          sockets st' = alter closed client (sockets st) ∧
          connectedUsers st' = connectedUsers st ∧
          wire st' = wire st).
Proof.
  destruct (js_not (handshake_token (handshake (sockets st !!! client)))) eqn:Hn.
  { right. unfold handleConnection. unfold_M. rewrite Hn. eexists. repeat split. }
  apply js_not_false in Hn as (t & Ht & Htr).
  assert (Hn : js_not (handshake_token (handshake (sockets st !!! client))) = false)
    by (apply js_not_false; eauto).
  destruct (jwtService_verify env t) as [payload|e] eqn:Hv.
  2:{ right. unfold handleConnection. unfold_M. rewrite Hn, Ht. simpl. rewrite Hv.
      eexists. repeat split. }
  destruct (findById (usersService env) (sub payload)) as [[u|]|e] eqn:Hf.
  - destruct (isActive u) eqn:Hact; [destruct (isConfirmed u) eqn:Hconf|].
    + left. exists u, t, payload. repeat split; done.
    + right. unfold handleConnection. unfold_M. rewrite Hn, Ht. simpl.
      rewrite Hv, Hf, Hact, Hconf. simpl. eexists. repeat split.
    + right. unfold handleConnection. unfold_M. rewrite Hn, Ht. simpl.
      rewrite Hv, Hf, Hact. simpl. eexists. repeat split.
  - right. unfold handleConnection. unfold_M. rewrite Hn, Ht. simpl.
    rewrite Hv, Hf. eexists. repeat split.
  - right. unfold handleConnection. unfold_M. rewrite Hn, Ht. simpl.
    rewrite Hv, Hf. eexists. repeat split.
Qed.

(** X1.  [handleConnection] never rejects: whatever the handshake holds and
    whatever the verifier and the directory answer or throw, the handler
    returns normally. *)
Theorem handleConnection_never_throws (env : Env) (st : Server) (client : SocketId) :
  (handleConnection env client st).1 = Ok tt.
Proof.
  destruct (handleConnection_cases env st client) as [[u Hu] | (st' & -> & _)]; [|done].
  rewrite (handleConnection_authenticates env st client u Hu).
  by destruct (updateLastSeen (usersService env) (_id u) (clock env 0)).
Qed.

(** X2.  A client is left connected by [handleConnection] only if it has
    been authenticated and announced: its token verified and named an
    active, confirmed user, the last-seen write succeeded, the client
    carries the principal of that user, the registry maps the user to the
    client, and the latest emission is the [user.online] of the user to the
    other connected sockets. *)
Theorem handleConnection_open_only_if_authenticated
    (env : Env) (st : Server) (client : SocketId) (s : Socket) :
  sockets st !! client = Some s →
  connected (sockets (exec (handleConnection env client) st) !!! client) = true →
  ∃ u,
    authenticates env (handshake s) u ∧
    updateLastSeen (usersService env) (_id u) (clock env 0) = Ok tt ∧
    user (sockets (exec (handleConnection env client) st) !!! client)
      = Some (principal_of u) ∧
    connectedUsers (exec (handleConnection env client) st) !! _id u = Some client ∧
    head (wire (exec (handleConnection env client) st)) =
      Some {| recipients := connected_sockets st ∖ {[client]};
              event := user_online
                {| userId := _id u; presence_email := user_email u;
                   isOnline := true; lastSeen := Some (clock env 1) |} |}.
Proof.
  intros Hs. unfold exec.
  assert (Hhs : sockets st !!! client = s) by (by rewrite lookup_total_alt, Hs).
  destruct (handleConnection_cases env st client) as [[u Hu] | (st' & -> & Hsock & _)].
  - rewrite (handleConnection_authenticates env st client u Hu).
    destruct (updateLastSeen (usersService env) (_id u) (clock env 0)) as [[]|e] eqn:Hw;
      simpl.
    + intros _. exists u. rewrite <- Hhs. split; [done|]. split; [done|].
      split; [|split; [apply lookup_insert_eq | done]].
      by rewrite lookup_total_alt, lookup_alter_eq, Hs.
    + rewrite lookup_total_alt, !lookup_alter_eq, Hs. discriminate.
  - simpl. rewrite Hsock, lookup_total_alt, lookup_alter_eq, Hs. discriminate.
Qed.

Lemma handleConnection_open_only_if_authenticated_witness :
  let st := exec (accept "B" hs_none;; accept "A" hs_alice) empty_server in
  ∃ u,
    authenticates sample_env hs_alice u ∧
    updateLastSeen (usersService sample_env) (_id u) (clock sample_env 0) = Ok tt ∧
    user (sockets (exec (handleConnection sample_env "A") st) !!! "A")
      = Some (principal_of u) ∧
    connectedUsers (exec (handleConnection sample_env "A") st) !! _id u = Some "A" ∧
    head (wire (exec (handleConnection sample_env "A") st)) =
      Some {| recipients := connected_sockets st ∖ {["A"]};
              event := user_online
                {| userId := _id u; presence_email := user_email u;
                   isOnline := true; lastSeen := Some (clock sample_env 1) |} |}.
Proof.
  intros st.
  apply (handleConnection_open_only_if_authenticated sample_env st "A"
           {| handshake := hs_alice; user := None; connected := true; rooms := ∅ |});
    vm_compute; reflexivity.
Defined.

(** ** The registry *)

(** X3.  A successful authentication makes the client the one socket of its
    user: the registry maps the user id to the client, whatever it mapped
    it to before, and the entries of all other users are as they were.  The
    count of connected users grows by one when the user was not registered
    and stays the same when an earlier connection of hers is replaced. *)
Theorem registration_replaces_entry (env : Env) (st : Server) (client : SocketId)
    (u : UserDocument) :
  authenticates env (handshake (sockets st !!! client)) u →
  updateLastSeen (usersService env) (_id u) (clock env 0) = Ok tt →
  let st' := exec (handleConnection env client) st in
  connectedUsers st' !! _id u = Some client ∧
  (∀ u', u' ≠ _id u → connectedUsers st' !! u' = connectedUsers st !! u') ∧
  (getConnectedUserCount st').1 =
    Ok (if (isUserOnline (_id u) st).1 is Ok true
        then size (connectedUsers st)
        else S (size (connectedUsers st))).
Proof.
  intros Hauth Hw st'. subst st'. unfold exec.
  rewrite (handleConnection_authenticates env st client u Hauth), Hw. simpl.
  split; [apply lookup_insert_eq|]. split.
  - intros u' Hne. by rewrite lookup_insert_ne.
  - unfold getConnectedUserCount. simpl. f_equal.
    destruct (connectedUsers st !! _id u) as [c|] eqn:Hc.
    + rewrite bool_decide_eq_true_2 by eauto. by apply map_size_insert_Some.
    + rewrite bool_decide_eq_false_2 by (by intros [? ?]).
      by apply map_size_insert_None.
Qed.

(** Alice, connected on ["A"], connects again on ["B"]. *)
Lemma registration_replaces_entry_witness :
  let st := exec (accept "A" hs_alice;; handleConnection sample_env "A";;
                  accept "B" hs_alice) empty_server in
  let st' := exec (handleConnection sample_env "B") st in
  connectedUsers st !! "u1" = Some "A" ∧
  connectedUsers st' !! "u1" = Some "B" ∧
  (∀ u', u' ≠ "u1" → connectedUsers st' !! u' = connectedUsers st !! u') ∧
  (getConnectedUserCount st').1 = Ok 1.
Proof.
  intros st st'.
  split; [vm_compute; reflexivity|].
  destruct (registration_replaces_entry sample_env st "B" alice) as (H1 & H2 & H3);
    [apply sample_authenticates; vm_compute; reflexivity | reflexivity |].
  split; [exact H1|]. split; [exact H2|].
  fold st' in H3. rewrite H3. vm_compute. reflexivity.
Defined.

(** X4.  Connecting and leaving is a round trip of the registry: when a
    user who was not registered authenticates on a socket and the transport
    of that socket then closes, [connectedUsers] is again what it was
    before the connection, whether or not the last-seen write of the
    deregistration succeeds. *)
Theorem connect_then_close_restores_registry (env env' : Env) (st : Server)
    (client : SocketId) (u : UserDocument) :
  is_Some (sockets st !! client) →
  authenticates env (handshake (sockets st !!! client)) u →
  updateLastSeen (usersService env) (_id u) (clock env 0) = Ok tt →
  connectedUsers st !! _id u = None →
  connectedUsers (exec (transport_close env' client)
                    (exec (handleConnection env client) st))
  = connectedUsers st.
Proof.
  intros [s Hs] Hauth Hw Hfresh. unfold exec at 2.
  rewrite (handleConnection_authenticates env st client u Hauth), Hw. simpl.
  unfold exec. rewrite transport_close_unfold.
  rewrite (handleDisconnect_authenticated env' _ client (principal_of u)).
  - destruct (updateLastSeen (usersService env') (id (principal_of u)) (clock env' 0));
      simpl; by rewrite delete_insert_eq, delete_id.
  - simpl. by rewrite lookup_total_alt, !lookup_alter_eq, Hs.
Qed.

Lemma connect_then_close_restores_registry_witness :
  let st := exec (accept "A" hs_alice) empty_server in
  connectedUsers (exec (transport_close failing_env "A")
                    (exec (handleConnection sample_env "A") st))
  = connectedUsers st.
Proof.
  intros st.
  apply (connect_then_close_restores_registry sample_env failing_env st "A" alice).
  - eexists. vm_compute. reflexivity.
  - apply sample_authenticates. vm_compute. reflexivity.
  - reflexivity.
  - vm_compute. reflexivity.
Defined.

(** X5.  [handleDisconnect] on a client without a principal does nothing at
    all.  On a client with a principal it removes the entry of the user id
    before it awaits the last-seen write, so the entry is gone whatever the
    write does; the sockets are not touched.  The handler rejects exactly
    when the write rejects, with the error of the write, and then emits
    nothing. *)
Theorem handleDisconnect_outcome (env : Env) (st : Server) (client : SocketId) :
  (user (sockets st !!! client) = None →
     handleDisconnect env client st = (Ok tt, st)) ∧
  (∀ p, user (sockets st !!! client) = Some p →
     sockets (exec (handleDisconnect env client) st) = sockets st ∧
     connectedUsers (exec (handleDisconnect env client) st)
       = delete (id p) (connectedUsers st) ∧
     (∀ e, updateLastSeen (usersService env) (id p) (clock env 0) = Throw e ↔
           (handleDisconnect env client st).1 = Throw e) ∧
     (∀ e, updateLastSeen (usersService env) (id p) (clock env 0) = Throw e →
           wire (exec (handleDisconnect env client) st) = wire st)).
Proof.
  split; [apply handleDisconnect_unauthenticated|].
  intros p Hu. unfold exec.
  rewrite (handleDisconnect_authenticated env st client p Hu).
  destruct (updateLastSeen (usersService env) (id p) (clock env 0)) as [[]|e0];
    simpl; repeat split; try done; intros; congruence.
Qed.

Lemma handleDisconnect_outcome_witness :
  let st0 := exec (accept "C" hs_none) empty_server in
  let st := exec (accept "A" hs_alice;; handleConnection sample_env "A") empty_server in
  handleDisconnect sample_env "C" st0 = (Ok tt, st0) ∧
  sockets (exec (handleDisconnect failing_env "A") st) = sockets st ∧
  connectedUsers (exec (handleDisconnect failing_env "A") st)
    = delete "u1" (connectedUsers st) ∧
  (handleDisconnect failing_env "A" st).1 = Throw (Error "connection timed out") ∧
  wire (exec (handleDisconnect failing_env "A") st) = wire st.
Proof.
  intros st0 st.
  destruct (handleDisconnect_outcome sample_env st0 "C") as [H0 _].
  destruct (handleDisconnect_outcome failing_env st "A") as [_ H1].
  destruct (H1 (principal_of alice)) as (Hs & Hc & Hiff & Hw);
    [vm_compute; reflexivity|].
  split; [apply H0; vm_compute; reflexivity|].
  split; [exact Hs|]. split; [exact Hc|].
  split; [apply (Hiff (Error "connection timed out")); reflexivity|].
  apply (Hw (Error "connection timed out")). reflexivity.
Defined.

(** X10.  With the users service of the application the gateway's own
    [User not found] branch is never taken: [UsersService.findById] does not
    resolve to [null], it throws [NotFoundException].  A verified token for
    a user the model does not hold therefore ends in the catch-all of
    [handleConnection]: the client is disconnected and the one line logged
    is the error ["Unexpected connection error: User not found"]. *)
Theorem missing_user_reaches_catch_all (userModel : UserModel)
    (verify : string → Result JwtPayload) (redis : Redis) (clk : nat → Date)
    (st : Server) (client : SocketId) (t : string) (payload : JwtPayload) :
  let env := {| jwtService_verify := verify; usersService := UsersService userModel;
                redisClient := redis; clock := clk |} in
  (∀ id, findById (usersService env) id ≠ Ok None) ∧
  (handshake_token (handshake (sockets st !!! client)) = Some t →
   truthy t = true →
   verify t = Ok payload →
   model_findById userModel (sub payload) = Ok None →
   ∃ st',
     handleConnection env client st = (Ok tt, st') ∧
     logged st' =
       (ERROR, "[SocketService] Unexpected connection error: User not found")
       :: logged st ∧
     sockets st' = alter closed client (sockets st) ∧
     connectedUsers st' = connectedUsers st ∧
     wire st' = wire st).
Proof.
  intros env. split.
  - intros i. simpl. unfold UsersService_findById.
    by destruct (model_findById userModel i) as [[?|]|?].
  - intros Ht Htr Hv Hm.
    assert (Hn : js_not (handshake_token (handshake (sockets st !!! client))) = false)
      by (apply js_not_false; eauto).
    unfold handleConnection. unfold_M. rewrite Hn, Ht. simpl. rewrite Hv.
    unfold UsersService_findById. rewrite Hm. eexists. repeat split.
Qed.

Lemma missing_user_reaches_catch_all_witness :
  let st := exec (accept "A" {| auth := Some (Str "tok-ghost"); headers := None |})
                 empty_server in
  ∃ st',
    handleConnection sample_env "A" st = (Ok tt, st') ∧
    logged st' =
      (ERROR, "[SocketService] Unexpected connection error: User not found")
      :: logged st ∧
    sockets st' = alter closed "A" (sockets st) ∧
    connectedUsers st' = connectedUsers st ∧
    wire st' = wire st.
Proof.
  intros st.
  destruct (missing_user_reaches_catch_all sample_model sample_verify
              (useFactory sample_config) (λ k, (1000 + Z.of_nat k)%Z) st "A"
              "tok-ghost" {| jwt_email := "ghost@example.com"; sub := "u9" |})
    as [_ H].
  apply H; [vm_compute; reflexivity | reflexivity | reflexivity | reflexivity].
Defined.

(** ** Room membership *)

Lemma elem_of_room_members_dispatch (client : SocketId) (op : ClientOp) (st : Server)
    (r : string) (c : SocketId) :
  c ∈ room_members r (exec (dispatch client op) st) ↔
  ∃ s, sockets st !! c = Some s ∧ connected s = true ∧
       r ∈ (if decide (client = c) then op_effect op (rooms s) else rooms s).
Proof.
  rewrite elem_of_room_members, dispatch_sockets.
  destruct (decide (client = c)) as [->|Hne].
  - rewrite lookup_alter_eq. destruct (sockets st !! c) as [s|]; simpl.
    + split.
      * intros (s' & [= <-] & Hc & Hr). eauto.
      * intros (s' & [= <-] & Hc & Hr). eauto.
    + split; intros (s' & Hs' & _); discriminate Hs'.
  - by rewrite lookup_alter_ne.
Qed.

Lemma op_effect_idemp (op : ClientOp) (rs : gset string) :
  op_effect op (op_effect op rs) = op_effect op rs.
Proof.
  unfold op_effect. apply set_eq. intros x.
  destruct (op_joins op);
    rewrite ?elem_of_union, ?elem_of_difference, ?elem_of_singleton; tauto.
Qed.

(** X6.  Joining and leaving rooms.  For each of the four room handlers and
    every socket: running the handler a second time changes no membership;
    the members of every room other than the one named stay the same; the
    named room gains the client, if it is connected, on a join and loses it
    on a leave, and no other member changes; and nobody is connected or
    disconnected by it. *)
Theorem room_handlers_membership (client : SocketId) (op : ClientOp) (st : Server) :
  let st1 := exec (dispatch client op) st in
  (∀ r, room_members r (exec (dispatch client op) st1) = room_members r st1) ∧
  (∀ r, r ≠ op_room op → room_members r st1 = room_members r st) ∧
  room_members (op_room op) st1 =
    (if op_joins op
     then room_members (op_room op) st ∪ ({[client]} ∩ connected_sockets st)
     else room_members (op_room op) st ∖ {[client]}) ∧
  connected_sockets st1 = connected_sockets st.
Proof.
  intros st1. subst st1. repeat split.
  - intros r. apply set_eq. intros c.
    rewrite !elem_of_room_members_dispatch. split.
    + intros (s & Hs & Hc & Hr). rewrite dispatch_sockets in Hs.
      destruct (decide (client = c)) as [->|Hne].
      * rewrite lookup_alter_eq in Hs.
        destruct (sockets st !! c) as [s0|]; [|discriminate Hs].
        injection Hs as <-. simpl in *. rewrite op_effect_idemp in Hr. eauto.
      * rewrite lookup_alter_ne in Hs by done. eauto.
    + intros (s & Hs & Hc & Hr). rewrite dispatch_sockets.
      destruct (decide (client = c)) as [->|Hne].
      * rewrite lookup_alter_eq, Hs. eexists. split; [reflexivity|].
        simpl. by rewrite op_effect_idemp.
      * rewrite lookup_alter_ne by done. eauto.
  - intros r Hr. apply set_eq. intros c.
    rewrite elem_of_room_members_dispatch, elem_of_room_members.
    split; intros (s & Hs & Hc & Hin); exists s; (split; [done|]); (split; [done|]).
    + destruct (decide (client = c)); [|done]. unfold op_effect in Hin.
      destruct (op_joins op);
        rewrite ?elem_of_union, ?elem_of_difference, ?elem_of_singleton in Hin;
        intuition congruence.
    + destruct (decide (client = c)); [|done]. unfold op_effect.
      destruct (op_joins op);
        rewrite ?elem_of_union, ?elem_of_difference, ?elem_of_singleton;
        intuition congruence.
  - apply set_eq. intros c. rewrite elem_of_room_members_dispatch.
    unfold op_effect. destruct (op_joins op).
    + rewrite elem_of_union, elem_of_intersection, elem_of_singleton,
        elem_of_room_members, elem_of_connected_sockets.
      destruct (decide (client = c)) as [->|Hne].
      * split.
        -- intros (s & Hs & Hc & Hin). right. eauto.
        -- intros [(s & Hs & Hc & Hin) | [_ (s & Hs & Hc)]]; exists s;
             (split; [done|]); (split; [done|]);
             rewrite elem_of_union, elem_of_singleton; tauto.
      * split.
        -- intros (s & Hs & Hc & Hin). left. eauto.
        -- intros [H | [Heq _]]; [done | congruence].
    + rewrite elem_of_difference, elem_of_singleton, elem_of_room_members.
      destruct (decide (client = c)) as [->|Hne].
      * split.
        -- intros (s & Hs & Hc & Hin).
           rewrite elem_of_difference, elem_of_singleton in Hin. tauto.
        -- intros [_ Hcc]. by destruct Hcc.
      * split.
        -- intros (s & Hs & Hc & Hin). split; [eauto | congruence].
        -- intros [H _]. done.
  - apply set_eq. intros c. rewrite !elem_of_connected_sockets, dispatch_sockets.
    destruct (decide (client = c)) as [->|Hne].
    + rewrite lookup_alter_eq. destruct (sockets st !! c) as [s|]; simpl.
      * split; intros (s' & [= <-] & Hc); eauto.
      * split; intros (s' & Hs' & _); discriminate Hs'.
    + by rewrite lookup_alter_ne.
Qed.

(** ** Task rooms *)

(** The members of a room after a trace of room operations, when no socket
    was in a room before. *)
Lemma room_members_serve (ops : list (SocketId * ClientOp)) (st0 : Server)
    (r : string) (c : SocketId) :
  (∀ c s, sockets st0 !! c = Some s → rooms s = ∅) →
  c ∈ room_members r (serve ops st0) ↔
  c ∈ connected_sockets st0 ∧ joined c r ops = true.
Proof.
  intros Hempty. rewrite elem_of_room_members, elem_of_connected_sockets.
  pose proof (serve_sockets ops st0 c Hempty) as H.
  destruct (sockets (serve ops st0) !! c) as [s|],
           (sockets st0 !! c) as [s0|]; try (destruct H; fail).
  - destruct H as [Hconn Hrooms]. split.
    + intros (s' & [= <-] & Hc & Hr). split; [|by apply Hrooms].
      exists s0. split; [reflexivity|congruence].
    + intros [(s' & [= <-] & Hc) Hj]. exists s.
      split; [reflexivity|]. split; [congruence|by apply Hrooms].
  - split; [intros (? & Hd & _); discriminate Hd
           | intros [(? & Hd & _) _]; discriminate Hd].
Qed.

Lemma joined_other_targets (c : SocketId) (k : RoomKind) (e : string)
    (ops : list (SocketId * ClientOp)) :
  (∀ op, (c, op) ∈ ops → op_target op ≠ (k, e)) →
  joined c (room_name k e) ops = false.
Proof.
  induction ops as [|[c' op] earlier IH]; intros Hother; [reflexivity|].
  cbn [joined]. case_bool_decide as Hd.
  - destruct Hd as [-> Hroom]. rewrite op_room_target in Hroom.
    apply room_name_inj in Hroom as [Hk He].
    exfalso. apply (Hother op); [left|].
    destruct (op_target op); simpl in *; congruence.
  - apply IH. intros op' Hin'. apply Hother. by right.
Qed.

Lemma emitToTask_recipients (taskId : string) (call : TaskEmit) (st : Server) :
  emitToTask taskId call st =
    (Ok tt, push_wire {| recipients := room_members (room_name task_kind taskId) st;
                         event := TaskEmit_event call |} st).
Proof. by destruct call. Qed.

(** X7.  Task rooms are isolated like project rooms.  After any sequence of
    room operations on a gateway whose sockets started in no room,
    [emitTaskUpdatedToTask] and [emitCommentCreatedToTask] for task [T]
    each make one emission whose recipients are exactly the connected
    sockets that have joined ["task:T"] and not left it since; a socket all
    of whose operations were about other targets, the project of the same
    id included, is not a recipient. *)
Theorem task_room_isolation (st0 : Server) (ops : list (SocketId * ClientOp))
    (T : string) (call : TaskEmit) :
  (∀ c s, sockets st0 !! c = Some s → rooms s = ∅) →
  ∃ rs,
    emitToTask T call (serve ops st0) =
      (Ok tt, push_wire {| recipients := rs; event := TaskEmit_event call |}
                (serve ops st0)) ∧
    (∀ c, c ∈ rs ↔
          c ∈ connected_sockets st0 ∧ joined c (room_name task_kind T) ops = true) ∧
    (∀ c, (∀ op, (c, op) ∈ ops → op_target op ≠ (task_kind, T)) → c ∉ rs).
Proof.
  intros Hempty.
  exists (room_members (room_name task_kind T) (serve ops st0)).
  split; [apply emitToTask_recipients|]. split.
  - intros c. by apply room_members_serve.
  - intros c Hother Hin. apply room_members_serve in Hin as [_ Hj]; [|done].
    rewrite (joined_other_targets c task_kind T ops Hother) in Hj. discriminate Hj.
Qed.

(** Carol joins ["task:7"]; Dave joins ["project:7"]; Erin joined
    ["task:7"] and left. *)
Lemma task_room_isolation_witness :
  let st0 := exec (accept "erin" hs_none)
               (exec (accept "dave" hs_none)
                  (exec (accept "carol" hs_none) empty_server)) in
  let ops := [ ("erin", leave_task "7"); ("dave", join_project "7");
               ("carol", join_task "7"); ("erin", join_task "7") ] in
  ∃ rs,
    emitToTask "7" (CommentCreatedToTask
                      {| comment_id := "c1"; comment_content := "hello";
                         comment_author := "u1"; comment_taskId := "7";
                         comment_projectId := "7"; comment_createdAt := 0%Z;
                         comment_updatedAt := 0%Z |}) (serve ops st0) =
      (Ok tt, push_wire
                {| recipients := rs;
                   event := comment_created
                      {| comment_id := "c1"; comment_content := "hello";
                         comment_author := "u1"; comment_taskId := "7";
                         comment_projectId := "7"; comment_createdAt := 0%Z;
                         comment_updatedAt := 0%Z |} |}
                (serve ops st0)) ∧
    "carol" ∈ rs ∧ ("dave" ∉ rs) ∧ ("erin" ∉ rs).
Proof.
  intros st0 ops.
  destruct (task_room_isolation st0 ops "7"
              (CommentCreatedToTask
                 {| comment_id := "c1"; comment_content := "hello";
                    comment_author := "u1"; comment_taskId := "7";
                    comment_projectId := "7"; comment_createdAt := 0%Z;
                    comment_updatedAt := 0%Z |}))
    as (rs & Hrun & Hchar & Hother).
  { unfold st0. do 3 apply accept_no_rooms. intros c s Hc. simpl in Hc.
    rewrite lookup_empty in Hc. discriminate Hc. }
  exists rs. split; [exact Hrun|]. split; [|split].
  - apply Hchar. split; [|reflexivity].
    apply elem_of_connected_sockets. eexists. split; vm_compute; reflexivity.
  - apply Hother. intros op Hop. unfold ops in Hop.
    apply elem_of_cons in Hop as [[=]|Hop].
    apply elem_of_cons in Hop as [[= ->]|Hop]; [discriminate|].
    apply elem_of_cons in Hop as [[=]|Hop].
    apply elem_of_cons in Hop as [[=]|Hop].
    apply elem_of_nil in Hop. destruct Hop.
  - intros Hin. apply Hchar in Hin as [_ Hj]. discriminate Hj.
Defined.

(** ** What an emit function can do *)

Lemma room_members_connected (room : string) (st : Server) :
  room_members room st ⊆ connected_sockets st.
Proof.
  intros c. rewrite elem_of_room_members, elem_of_connected_sockets.
  intros (s & Hs & Hc & _). eauto.
Qed.

Lemma emitToUser_cases
    (st : Server) (userId : string) (call : UserEmit) :
  (connectedUsers st !! userId = None →
     emitToUser userId call st = (Ok tt, st)) ∧
  (∀ client, connectedUsers st !! userId = Some client →
     emitToUser userId call st =
       (Ok tt, push_wire {| recipients := {[client]};
                            event := UserEmit_event call |} st)).
Proof.
  split.
  - intros Hnone.
    destruct call; unfold emitToUser, emitTaskCreated, emitTaskUpdated,
      emitTaskDeleted, emitProjectUpdated, emitCommentCreated, emitUserOnline,
      emitNotification, mbind, M_bind, get_state; simpl; by rewrite Hnone.
  - intros client Hsome.
    destruct call; unfold emitToUser, emitTaskCreated, emitTaskUpdated,
      emitTaskDeleted, emitProjectUpdated, emitCommentCreated, emitUserOnline,
      emitNotification, mbind, M_bind, get_state; simpl; by rewrite Hsome.
Qed.

Lemma emit_cases (call : EmitCall) (st : Server) :
  ∃ st' es,
    emit call st = (Ok tt, st') ∧
    sockets st' = sockets st ∧
    connectedUsers st' = connectedUsers st ∧
    adapter st' = adapter st ∧
    logged st' = logged st ∧
    wire st' = (es ++ wire st)%list ∧
    match call with
    | ToUser userId _ =>
        match connectedUsers st !! userId with
        | Some client => ∃ ev, es = [ {| recipients := {[client]}; event := ev |} ]
        | None => es = []
        end
    | _ => ∃ e, es = [e] ∧ recipients e ⊆ connected_sockets st
    end.
Proof.
  destruct call as [userId call|projectId call|taskId call|p|u]; simpl.
  - destruct (emitToUser_cases st userId call) as [Hoff Hon].
    destruct (connectedUsers st !! userId) as [client|] eqn:Hc.
    + rewrite (Hon client eq_refl). eexists _, [_]. repeat split. eauto.
    + rewrite (Hoff eq_refl). exists st, []. repeat split.
  - rewrite emitToProject_recipients. eexists _, [_]. repeat split.
    eexists. split; [reflexivity|]. apply room_members_connected.
  - rewrite emitToTask_recipients. eexists _, [_]. repeat split.
    eexists. split; [reflexivity|]. apply room_members_connected.
  - eexists _, [_]. repeat split. eexists. split; [reflexivity|]. done.
  - eexists _, [_]. repeat split. eexists. split; [reflexivity|]. done.
Qed.

(** X8.  Every emit function of the gateway, to a user, to a project room,
    to a task room or to everyone, returns normally and changes nothing but
    the wire, on which it puts at most one emission.  An emission to a user
    goes to the socket the registry holds for her; an emission to a room or
    to everyone is made even when it has no recipient, and goes to
    connected sockets only. *)
Theorem emit_only_extends_wire (call : EmitCall) (st : Server) :
  ∃ st' es,
    emit call st = (Ok tt, st') ∧
    sockets st' = sockets st ∧
    connectedUsers st' = connectedUsers st ∧
    adapter st' = adapter st ∧
    logged st' = logged st ∧
    wire st' = (es ++ wire st)%list ∧
    (length es ≤ 1)%nat ∧
    match call with
    | ToUser userId _ =>
        match connectedUsers st !! userId with
        | Some client => ∃ ev, es = [ {| recipients := {[client]}; event := ev |} ]
        | None => es = []
        end
    | _ => ∃ e, es = [e] ∧ recipients e ⊆ connected_sockets st
    end.
Proof.
  destruct (emit_cases call st) as (st' & es & Hrun & Hs & He & Ha & Hl & Hw & Hes).
  exists st', es. repeat (split; [assumption|]). split; [|exact Hes].
  destruct call as [uid c| | | |]; [destruct (connectedUsers st !! uid)|..];
    first [destruct Hes as (? & ->) | destruct Hes as (? & -> & _) | subst es];
    simpl; lia.
Qed.

(** ** Token of the header *)

Lemma replace_not_included (p r s : string) :
  includes p s = false → replace p r s = s.
Proof.
  induction s as [|c s IH]; cbn [includes replace].
  - by destruct (starts_with p "").
  - destruct (starts_with p (String c s)); [discriminate|].
    intros H. by rewrite IH.
Qed.

Lemma starts_with_app (p s : string) : starts_with p (p +:+ s) = true.
Proof. induction p as [|a p IH]; [done|]. simpl. by rewrite Ascii.eqb_refl. Qed.

Lemma drop_chars_app (p s : string) : drop_chars (String.length p) (p +:+ s) = s.
Proof. induction p as [|a p IH]; [by destruct s|]. simpl. exact IH. Qed.

Lemma replace_prefix (p r s : string) : replace p r (p +:+ s) = r +:+ s.
Proof.
  destruct (p +:+ s) eqn:E; cbn [replace]; rewrite <- E;
    by rewrite starts_with_app, drop_chars_app.
Qed.

(** X9.  When [auth.token] gives no token (absent, not a string, or empty)
    and the [Authorization] header is a string: a header that does not
    contain ["Bearer "] is the token as it stands; a header that starts with
    ["Bearer "] loses that one occurrence and no more, so that
    ["Bearer Bearer x"] yields the token ["Bearer x"]. *)
Theorem header_token_verbatim_or_stripped (hs : Handshake) (h : string) :
  js_not (authToken hs) = true →
  headers hs = Some (Str h) →
  (includes "Bearer " h = false → handshake_token hs = Some h) ∧
  (∀ t, h = "Bearer " +:+ t → handshake_token hs = Some t).
Proof.
  intros Hauth Hh.
  assert (Htok : handshake_token hs = Some (replace "Bearer " "" h)).
  { unfold handshake_token, headerToken. rewrite Hh. simpl.
    destruct (authToken hs) as [a|]; [|reflexivity].
    simpl in *. destruct (truthy a); [discriminate Hauth | reflexivity]. }
  rewrite Htok. split.
  - intros Hno. by rewrite replace_not_included.
  - intros t ->. by rewrite (replace_prefix "Bearer " "" t).
Qed.

Lemma header_token_verbatim_or_stripped_witness :
  handshake_token {| auth := Some (Str ""); headers := Some (Str "tok-u1") |}
  = Some "tok-u1" ∧
  handshake_token {| auth := None; headers := Some (Str "Bearer Bearer x") |}
  = Some "Bearer x".
Proof.
  split.
  - destruct (header_token_verbatim_or_stripped
                {| auth := Some (Str ""); headers := Some (Str "tok-u1") |} "tok-u1")
      as [H _]; [reflexivity | reflexivity |].
    apply H. reflexivity.
  - destruct (header_token_verbatim_or_stripped
                {| auth := None; headers := Some (Str "Bearer Bearer x") |}
                "Bearer Bearer x")
      as [_ H]; [reflexivity | reflexivity |].
    apply (H "Bearer x"). reflexivity.
Defined.

(** ** The segments of [handleConnection] *)

(** The segments, run in a row, are [handleConnection]. *)
Lemma handleConnection_segments_eq (env : Env) (client : SocketId) (st : Server) :
  handleConnection_segments env client st = handleConnection env client st.
Proof.
  unfold handleConnection_segments, handleConnection, handleConnection_start,
    handleConnection_found, handleConnection_written. unfold_M.
  destruct (js_not (handshake_token (handshake (sockets st !!! client)))); [done|].
  destruct (jwtService_verify env _) as [payload|e]; [|done]. simpl.
  destruct (findById (usersService env) (sub payload)) as [[u|]|e]; [|done|done].
  destruct (isActive u); [|done]. destruct (isConfirmed u); [|done]. simpl.
  by destruct (updateLastSeen (usersService env) (_id u) (clock env 0)) as [[]|e].
Qed.

(** ** Invariants of the event loop *)

Lemma benign_refl (st : Server) : benign st st.
Proof. by split. Qed.

Lemma benign_trans (st1 st2 st3 : Server) :
  benign st1 st2 → benign st2 st3 → benign st1 st3.
Proof.
  intros [U1 D1 C1 E1] [U2 D2 C2 E2]. split.
  - intros c. by rewrite U2, U1.
  - intros c H. by apply D2, D1.
  - intros c H. by apply C1, C2.
  - intros k c H. by apply E1, E2.
Qed.

(** A change of one socket that keeps its principal and does not connect
    it, with entries kept or deleted, is benign. *)
Lemma benign_alter (g : Socket → Socket) (c : SocketId) (st st' : Server) :
  (∀ s, user (g s) = user s) →
  (∀ s, connected (g s) = true → connected s = true) →
  sockets st' = alter g c (sockets st) →
  (∀ k c', connectedUsers st' !! k = Some c' → connectedUsers st !! k = Some c') →
  benign st st'.
Proof.
  intros Hu Hc Hs He. split; [..|exact He].
  - intros c'. rewrite Hs, !lookup_total_alt, lookup_alter.
    case_decide as Hd; [subst c'|done]. by destruct (sockets st !! c); simpl.
  - intros c'. rewrite Hs, lookup_alter_is_Some. done.
  - intros c'. rewrite Hs, !lookup_total_alt, lookup_alter.
    case_decide as Hd; [subst c'|done].
    destruct (sockets st !! c); simpl; [apply Hc|done].
Qed.

Lemma benign_same_sockets (st st' : Server) :
  sockets st' = sockets st →
  (∀ k c', connectedUsers st' !! k = Some c' → connectedUsers st !! k = Some c') →
  benign st st'.
Proof. intros Hs He. split; [..|exact He]; intros c; by rewrite Hs. Qed.

Lemma entries_delete (k0 : string) (m : gmap string SocketId) (k : string)
    (c : SocketId) :
  delete k0 m !! k = Some c → m !! k = Some c.
Proof. rewrite lookup_delete_Some. tauto. Qed.

Lemma handleDisconnect_benign (env : Env) (client : SocketId) (st : Server) :
  benign st (exec (handleDisconnect env client) st).
Proof.
  unfold exec. destruct (user (sockets st !!! client)) as [p|] eqn:Hu.
  - rewrite (handleDisconnect_authenticated env st client p Hu).
    destruct (updateLastSeen (usersService env) (id p) (clock env 0));
      apply benign_same_sockets; simpl; try done; apply entries_delete.
  - rewrite (handleDisconnect_unauthenticated env client st Hu). apply benign_refl.
Qed.

Lemma after_segment_benign (env' : Env) (client : SocketId) (before after : Server) :
  benign after (after_segment env' client before after).
Proof.
  unfold after_segment.
  destruct (connected (sockets before !!! client)
            && negb (connected (sockets after !!! client)));
    [apply handleDisconnect_benign | apply benign_refl].
Qed.

Lemma closed_benign (client : SocketId) (st st' : Server) :
  sockets st' = alter closed client (sockets st) →
  connectedUsers st' = connectedUsers st →
  benign st st'.
Proof.
  intros Hs He. apply (benign_alter closed client); try done.
  intros k c'. by rewrite He.
Qed.

Lemma closed_not_connected (client : SocketId) (m : gmap SocketId Socket) :
  connected (alter closed client m !!! client) = false.
Proof. rewrite lookup_total_alt, lookup_alter_eq. by destruct (m !! client). Qed.

(** What the first segment can do: close the client, or suspend. *)
Lemma handleConnection_start_cases (env : Env) (client : SocketId) (st : Server) :
  (∃ st1, handleConnection_start env client st = (Ok None, st1) ∧
          sockets st1 = alter closed client (sockets st) ∧
          connectedUsers st1 = connectedUsers st) ∨
  (∃ payload,
      handleConnection_start env client st = (Ok (Some (AwaitFindById payload)), st)).
Proof.
  unfold handleConnection_start. unfold_M.
  destruct (js_not (handshake_token (handshake (sockets st !!! client)))).
  { left. eexists. repeat split. }
  destruct (jwtService_verify env _) as [payload|e].
  - right. by exists payload.
  - left. eexists. repeat split.
Qed.

(** What the second segment can do: close the client, or register it and
    suspend. *)
Lemma handleConnection_found_cases (client : SocketId) (payload : JwtPayload)
    (found : Result (option UserDocument)) (st : Server) :
  (∃ st1, handleConnection_found client payload found st = (Ok None, st1) ∧
          sockets st1 = alter closed client (sockets st) ∧
          connectedUsers st1 = connectedUsers st) ∨
  (∃ u, found = Ok (Some u) ∧ isActive u = true ∧ isConfirmed u = true ∧
        handleConnection_found client payload found st
        = (Ok (Some (AwaitUpdateLastSeen u)), registered client u st)).
Proof.
  unfold handleConnection_found. unfold_M.
  destruct found as [[u|]|e]; simpl.
  - destruct (isActive u) eqn:Ha; simpl; [|left; eexists; repeat split].
    destruct (isConfirmed u) eqn:Hc; simpl; [|left; eexists; repeat split].
    right. exists u. repeat split; try assumption; reflexivity.
  - left. eexists. repeat split.
  - left. eexists. repeat split.
Qed.

(** What the third segment can do: announce the client, or close it. *)
Lemma handleConnection_written_cases (env : Env) (client : SocketId)
    (u : UserDocument) (written : Result unit) (st : Server) :
  connectedUsers (exec (handleConnection_written env client u written) st)
  = connectedUsers st ∧
  (sockets (exec (handleConnection_written env client u written) st) = sockets st ∨
   sockets (exec (handleConnection_written env client u written) st)
   = alter closed client (sockets st)).
Proof.
  unfold exec, handleConnection_written. unfold_M.
  destruct written as [[]|e]; simpl; split; auto.
Qed.

Lemma handleConnection_written_benign (env : Env) (client : SocketId)
    (u : UserDocument) (written : Result unit) (st : Server) :
  benign st (exec (handleConnection_written env client u written) st).
Proof.
  destruct (handleConnection_written_cases env client u written st) as [He [Hs|Hs]].
  - apply benign_same_sockets; [done|]. intros k c. by rewrite He.
  - by apply (closed_benign client).
Qed.

Lemma dispatch_benign (client : SocketId) (op : ClientOp) (st : Server) :
  benign st (exec (dispatch client op) st).
Proof.
  apply (benign_alter (with_rooms (op_effect op)) client); try done.
  - apply dispatch_sockets.
  - intros k c. by rewrite (proj1 (dispatch_frame client op st)).
Qed.

Lemma emit_benign (call : EmitCall) (st : Server) :
  benign st (exec (emit call) st).
Proof.
  unfold exec.
  destruct (emit_cases call st) as (st' & es & -> & Hs & He & _). simpl.
  apply benign_same_sockets; [done|]. intros k c. by rewrite He.
Qed.

Lemma LoopInv_benign (l : Loop) (st' : Server) (pend' : gmap SocketId Pending) :
  LoopInv l →
  benign (server l) st' →
  (∀ c p, pend' !! c = Some p → pending l !! c = Some p) →
  (∀ c, connected (sockets st' !!! c) = true → is_Some (pending l !! c) →
        is_Some (user (sockets st' !!! c)) ∨ is_Some (pend' !! c)) →
  LoopInv {| server := st'; pending := pend' |}.
Proof.
  intros [Ie Is If Iw Io] [Bu Bd Bc Be] Hsub Hopen. split; simpl.
  - intros u c Hc. destruct (Ie u c (Be u c Hc)) as (p & Hp & Hid).
    exists p. by rewrite Bu.
  - intros c p Hp. eapply Bd, Is, Hsub, Hp.
  - intros c payload Hp. rewrite Bu. eapply If, Hsub, Hp.
  - intros c u Hp. rewrite Bu. eapply Iw, Hsub, Hp.
  - intros c Hc. destruct (Io c (Bc c Hc)) as [Hu|Hp].
    + left. by rewrite Bu.
    + by apply Hopen.
Qed.

Lemma LoopInv_empty : LoopInv empty_loop.
Proof.
  split; unfold empty_loop, empty_server; simpl.
  - intros u c Hc. simpl in Hc. by rewrite lookup_empty in Hc.
  - intros c p Hp. by rewrite lookup_empty in Hp.
  - intros c p Hp. by rewrite lookup_empty in Hp.
  - intros c p Hp. by rewrite lookup_empty in Hp.
  - intros c. rewrite lookup_total_alt, lookup_empty. discriminate.
Qed.

Lemma after_segment_same (env' : Env) (client : SocketId) (before after : Server) :
  connected (sockets after !!! client) = connected (sockets before !!! client) →
  after_segment env' client before after = after.
Proof.
  intros H. unfold after_segment. rewrite H.
  by destruct (connected (sockets before !!! client)).
Qed.

(** A socket that has just been accepted, with its handler suspended on the
    directory. *)
Lemma LoopInv_accept (l : Loop) (client : SocketId) (hs : Handshake)
    (payload : JwtPayload) :
  LoopInv l →
  sockets (server l) !! client = None →
  LoopInv {| server := exec (accept client hs) (server l);
             pending := <[client := AwaitFindById payload]> (pending l) |}.
Proof.
  intros [Ie Is If Iw Io] Hfresh.
  assert (Hno : user (sockets (server l) !!! client) = None)
    by (by rewrite lookup_total_alt, Hfresh).
  split; simpl.
  - intros u c Hc. simpl in Hc. destruct (Ie u c Hc) as (p & Hp & Hid).
    exists p. split; [|done]. simpl.
    rewrite lookup_total_insert_ne; [done|]. intros <-. congruence.
  - intros c p. rewrite lookup_insert_Some. intros [[<- _]|[Hne Hp]].
    + rewrite lookup_insert_eq. eauto.
    + rewrite lookup_insert_ne by done. by eapply Is.
  - intros c payload'. rewrite lookup_insert_Some. intros [[<- _]|[Hne Hp]].
    + by rewrite lookup_total_insert_eq.
    + rewrite lookup_total_insert_ne by done. by eapply If.
  - intros c u. rewrite lookup_insert_Some. intros [[<- Hd]|[Hne Hp]].
    + discriminate Hd.
    + rewrite lookup_total_insert_ne by done. by eapply Iw.
  - intros c Hc. destruct (decide (client = c)) as [<-|Hne].
    + right. rewrite lookup_insert_eq. eauto.
    + rewrite lookup_total_insert_ne in * by done.
      destruct (Io c Hc) as [Hu|Hp]; [by left|right].
      by rewrite lookup_insert_ne.
Qed.

(** A socket whose handler has found its user and is suspended on the
    last-seen write. *)
Lemma LoopInv_registered (l : Loop) (client : SocketId) (payload : JwtPayload)
    (u : UserDocument) :
  LoopInv l →
  pending l !! client = Some (AwaitFindById payload) →
  LoopInv {| server := registered client u (server l);
             pending := <[client := AwaitUpdateLastSeen u]> (pending l) |}.
Proof.
  intros [Ie Is If Iw Io] Hp.
  destruct (Is client _ Hp) as [s Hs].
  pose proof (If client payload Hp) as Hno.
  assert (Hnew : user (alter (with_user (principal_of u)) client (sockets (server l))
                       !!! client) = Some (principal_of u))
    by (by rewrite lookup_total_alt, lookup_alter_eq, Hs).
  split; simpl.
  - intros k c. simpl. rewrite lookup_insert_Some. intros [[<- <-]|[Hne Hk]].
    + by exists (principal_of u).
    + destruct (Ie k c Hk) as (p & Hpc & Hid). exists p. split; [|done].
      rewrite lookup_total_alter_ne; [done|]. intros <-. congruence.
  - intros c p. rewrite lookup_insert_Some, lookup_alter_is_Some.
    intros [[<- _]|[Hne Hc]]; [eauto | by eapply Is].
  - intros c payload'. rewrite lookup_insert_Some. intros [[<- Hd]|[Hne Hc]].
    + discriminate Hd.
    + rewrite lookup_total_alter_ne by done. by eapply If.
  - intros c u'. rewrite lookup_insert_Some. intros [[<- [= <-]]|[Hne Hc]].
    + done.
    + rewrite lookup_total_alter_ne by done. by eapply Iw.
  - intros c Hc. destruct (decide (client = c)) as [<-|Hne].
    + left. rewrite Hnew. eauto.
    + rewrite lookup_total_alter_ne in * by done.
      destruct (Io c Hc) as [Hu|Hpc]; [by left|right].
      by rewrite lookup_insert_ne.
Qed.

Lemma registered_connected (client : SocketId) (u : UserDocument) (st : Server) :
  connected (sockets (registered client u st) !!! client)
  = connected (sockets st !!! client).
Proof.
  simpl. rewrite !lookup_total_alt, lookup_alter_eq.
  by destruct (sockets st !! client).
Qed.

(** Every event keeps the invariant. *)
Lemma LoopInv_step (ev : LoopEvent) (l : Loop) :
  LoopInv l → LoopInv (loop_step ev l).
Proof.
  intros Hinv.
  destruct ev as [env client hs | env' client found | env env' client written
                 | env client | client op | uid call | pid call]; cbn [loop_step].
  - (* Connection *)
    destruct (sockets (server l) !! client) eqn:Hfresh; [done|].
    set (st0 := exec (accept client hs) (server l)).
    destruct (handleConnection_start_cases env client st0)
      as [(st1 & Hrun & Hs & He) | (payload & Hrun)]; rewrite Hrun.
    + apply (LoopInv_benign
               {| server := st0;
                  pending := <[client := AwaitFindById {| jwt_email := ""; sub := "" |}]>
                               (pending l) |}).
      * by apply LoopInv_accept.
      * simpl. eapply benign_trans;
          [by apply (closed_benign client) | apply after_segment_benign].
      * simpl. intros c p. rewrite lookup_delete_Some, lookup_insert_Some.
        intros [Hne Hp]. by right.
      * simpl. intros c Hc Hp. destruct (decide (client = c)) as [<-|Hne].
        -- apply (benign_connected _ _ (after_segment_benign env client st0 st1)) in Hc.
           rewrite Hs, closed_not_connected in Hc. discriminate Hc.
        -- right. rewrite lookup_insert_ne in Hp by done.
           by rewrite lookup_delete_ne.
    + rewrite after_segment_same by done. by apply LoopInv_accept.
  - (* FindByIdSettles *)
    destruct (pending l !! client) as [[payload|u]|] eqn:Hp; try done.
    destruct (handleConnection_found_cases client payload found (server l))
      as [(st1 & Hrun & Hs & He) | (u & _ & _ & _ & Hrun)]; rewrite Hrun.
    + apply (LoopInv_benign l); [done|..].
      * eapply benign_trans;
          [by apply (closed_benign client) | apply after_segment_benign].
      * simpl. intros c p. rewrite lookup_delete_Some. tauto.
      * simpl. intros c Hc Hpc. destruct (decide (client = c)) as [<-|Hne].
        -- apply (benign_connected _ _
                    (after_segment_benign env' client (server l) st1)) in Hc.
           rewrite Hs, closed_not_connected in Hc. discriminate Hc.
        -- right. by rewrite lookup_delete_ne.
    + rewrite after_segment_same by apply registered_connected.
      by apply (LoopInv_registered l client payload).
  - (* UpdateLastSeenSettles *)
    destruct (pending l !! client) as [[payload|u]|] eqn:Hp; try done.
    pose proof (benign_trans _ _ _
                  (handleConnection_written_benign env client u written (server l))
                  (after_segment_benign env' client (server l)
                     (exec (handleConnection_written env client u written) (server l))))
      as Hb.
    apply (LoopInv_benign l); [done|exact Hb|..].
    + intros c p. rewrite lookup_delete_Some. tauto.
    + intros c Hc Hpc. destruct (decide (client = c)) as [<-|Hne].
      * left. rewrite (benign_user _ _ Hb), (inv_pending_write l Hinv client u Hp).
        eauto.
      * right. by rewrite lookup_delete_ne.
  - (* Disconnection *)
    destruct (connected (sockets (server l) !!! client)); [|done].
    apply (LoopInv_benign l); [done|..|auto|auto].
    unfold exec. rewrite transport_close_unfold.
    eapply benign_trans; [|apply handleDisconnect_benign].
    by apply (closed_benign client).
  - (* Message *)
    destruct (connected (sockets (server l) !!! client)); [|done].
    apply (LoopInv_benign l); [done|apply dispatch_benign|auto|auto].
  - apply (LoopInv_benign l);
      [done|apply (emit_benign (ToUser uid call))|auto|auto].
  - apply (LoopInv_benign l);
      [done|apply (emit_benign (ToProject pid call))|auto|auto].
Qed.

Lemma LoopInv_run (evs : list LoopEvent) : LoopInv (loop_run evs empty_loop).
Proof.
  induction evs as [|ev earlier IH]; [apply LoopInv_empty|].
  by apply LoopInv_step.
Qed.

(** X11.  Whatever the sequence of connections, settled promises,
    disconnections, room messages and emit calls, and whatever the verifier
    and the directory answer, an entry of [connectedUsers] always refers to
    a socket that carries the principal of the user the entry is for.  An
    emission to a user is therefore never addressed to a socket that was
    authenticated as somebody else, or not at all. *)
Theorem registry_entries_carry_principal (evs : list LoopEvent)
    (userId : string) (client : SocketId) :
  connectedUsers (server (loop_run evs empty_loop)) !! userId = Some client →
  ∃ p, user (sockets (server (loop_run evs empty_loop)) !!! client) = Some p ∧
       id p = userId.
Proof. apply (inv_entries _ (LoopInv_run evs)). Qed.

(** Alice connects on ["A"]; the directory finds her; the write succeeds. *)
Lemma registry_entries_carry_principal_witness :
  let evs := [ UpdateLastSeenSettles sample_env sample_env "A" (Ok tt);
               FindByIdSettles sample_env "A" (Ok (Some alice));
               Connection sample_env "A" hs_alice ] in
  connectedUsers (server (loop_run evs empty_loop)) !! "u1" = Some "A" ∧
  ∃ p, user (sockets (server (loop_run evs empty_loop)) !!! "A") = Some p ∧
       id p = "u1".
Proof.
  intros evs.
  assert (H : connectedUsers (server (loop_run evs empty_loop)) !! "u1" = Some "A")
    by (vm_compute; reflexivity).
  split; [exact H|].
  exact (registry_entries_carry_principal evs "u1" "A" H).
Defined.

(** X12.  Whatever the sequence of events, a socket that is connected
    either carries a principal or has its [handleConnection] still
    suspended on the directory: no socket stays open once its
    authentication has failed.  In particular every member of a room is
    authenticated or still being authenticated. *)
Theorem open_sockets_are_known (evs : list LoopEvent) :
  (∀ c s, sockets (server (loop_run evs empty_loop)) !! c = Some s →
          connected s = true →
          is_Some (user s) ∨ is_Some (pending (loop_run evs empty_loop) !! c)) ∧
  (∀ r c, c ∈ room_members r (server (loop_run evs empty_loop)) →
          is_Some (user (sockets (server (loop_run evs empty_loop)) !!! c)) ∨
          is_Some (pending (loop_run evs empty_loop) !! c)).
Proof.
  pose proof (inv_open _ (LoopInv_run evs)) as Hopen. split.
  - intros c s Hs Hc. specialize (Hopen c).
    rewrite lookup_total_alt, Hs in Hopen. by apply Hopen.
  - intros r c Hin. apply elem_of_room_members in Hin as (s & Hs & Hc & _).
    apply Hopen. by rewrite lookup_total_alt, Hs.
Qed.

(** Bob's socket ["B"] joins a project room while the directory has not yet
    answered for him; the socket ["C"], which came without a token, has
    been closed. *)
Lemma open_sockets_are_known_witness :
  let evs := [ Message "B" (join_project "P1");
               Connection sample_env "C" hs_none;
               Connection sample_env "B" hs_alice ] in
  let l := loop_run evs empty_loop in
  connected (sockets (server l) !!! "C") = false ∧
  "B" ∈ room_members "project:P1" (server l) ∧
  (is_Some (user (sockets (server l) !!! "B")) ∨ is_Some (pending l !! "B")) ∧
  user (sockets (server l) !!! "B") = None.
Proof.
  intros evs l.
  assert (Hin : "B" ∈ room_members "project:P1" (server l)).
  { apply elem_of_room_members.
    exists {| handshake := hs_alice; user := None; connected := true;
              rooms := {["project:P1"]} |}.
    split; [vm_compute; reflexivity|].
    split; [reflexivity|]. cbn [rooms]. apply elem_of_singleton. reflexivity. }
  split; [vm_compute; reflexivity|]. split; [exact Hin|].
  split; [|vm_compute; reflexivity].
  destruct (open_sockets_are_known evs) as [_ H].
  exact (H "project:P1" "B" Hin).
Defined.

(** X13.  A socket that closes while its [handleConnection] is suspended on
    the directory is registered all the same when the directory answers
    with an active, confirmed user: the continuation attaches the principal
    and writes the entry without looking at the socket.  The user is then
    reported online on a socket that is closed, and since the
    disconnection of that socket has already been handled, no later
    disconnection removes the entry. *)
Theorem close_during_lookup_leaves_entry (l : Loop) (env' : Env)
    (client : SocketId) (payload : JwtPayload) (u : UserDocument) (s : Socket) :
  pending l !! client = Some (AwaitFindById payload) →
  sockets (server l) !! client = Some s →
  connected s = false →
  isActive u = true →
  isConfirmed u = true →
  let l' := loop_step (FindByIdSettles env' client (Ok (Some u))) l in
  connectedUsers (server l') !! _id u = Some client ∧
  connected (sockets (server l') !!! client) = false ∧
  (isUserOnline (_id u) (server l')).1 = Ok true ∧
  (∀ env, loop_step (Disconnection env client) l' = l').
Proof.
  intros Hp Hs Hclosed Hact Hconf l'. subst l'. cbn [loop_step]. rewrite Hp.
  assert (Hrun : handleConnection_found client payload (Ok (Some u)) (server l)
                 = (Ok (Some (AwaitUpdateLastSeen u)), registered client u (server l))).
  { unfold handleConnection_found. unfold_M. simpl. by rewrite Hact, Hconf. }
  rewrite Hrun. rewrite after_segment_same by apply registered_connected.
  assert (Hc : connected (sockets (registered client u (server l)) !!! client) = false).
  { rewrite registered_connected, lookup_total_alt, Hs. exact Hclosed. }
  assert (He : connectedUsers (registered client u (server l)) !! _id u = Some client)
    by apply lookup_insert_eq.
  cbn [server pending]. split; [exact He|]. split; [exact Hc|]. split.
  - unfold isUserOnline. cbn [fst]. rewrite He.
    by rewrite bool_decide_eq_true_2 by eauto.
  - intros env. cbn [loop_step server]. by rewrite Hc.
Qed.

(** Alice opens ["A"] and drops it before the directory has answered. *)
Lemma close_during_lookup_leaves_entry_witness :
  let l := loop_run [ Disconnection sample_env "A";
                      Connection sample_env "A" hs_alice ] empty_loop in
  let l' := loop_step (FindByIdSettles sample_env "A" (Ok (Some alice))) l in
  connectedUsers (server l') !! "u1" = Some "A" ∧
  connected (sockets (server l') !!! "A") = false ∧
  (isUserOnline "u1" (server l')).1 = Ok true ∧
  (∀ env, loop_step (Disconnection env "A") l' = l').
Proof.
  intros l l'.
  apply (close_during_lookup_leaves_entry l sample_env "A"
           {| jwt_email := "alice@example.com"; sub := "u1" |} alice
           {| handshake := hs_alice; user := None; connected := false; rooms := ∅ |});
    vm_compute; reflexivity.
Defined.

(** * Properties of the services *)

Ltac unfold_S :=
  unfold mbind, Service_bind, mret, Service_ret, throw, query, attempt,
    new_Date, new_ObjectId, socketService, or_new_Date.

(** [toTaskDto] returns, issues no query and leaves the gateway alone. *)
Lemma toTaskDto_returns (db : Db) (task : TaskDocument) (w : World) :
  ∃ dto w',
    TasksService.toTaskDto db task w = (Returned dto, w') ∧
    gateway w' = gateway w ∧ issued w' = issued w ∧ ids_drawn w' = ids_drawn w ∧
    task_id dto = tdoc_id task ∧ task_status dto = tdoc_status task ∧
    task_projectId dto = tdoc_projectId task ∧
    task_createdBy dto = tdoc_createdBy task ∧
    task_assignedTo dto = tdoc_assignedTo task.
Proof.
  unfold TasksService.toTaskDto. unfold_S.
  destruct (tdoc_createdAt task), (tdoc_updatedAt task); simpl;
    eexists _, _; repeat split.
Qed.

(** ** Deleting a task *)

(** X14.  [TasksService.remove] deletes for the creator of the task and for
    nobody else.  When the task is not found the method throws
    [NotFoundException]; when the requester is not the creator, the
    assignee included, it throws [ForbiddenException]; in both cases the
    only query issued is the lookup, and the gateway is untouched.  For
    the creator the deletion is issued, and once it has succeeded exactly
    one emission is made: [task.deleted] with the task id, to the members
    of the room of the task's project. *)
Theorem remove_only_by_creator (db : Db) (id userId : string) (w : World) :
  (answer_tasks_findById db id = Ok None →
     TasksService.remove db id userId w =
       (Thrown (Http.Other (NotFoundException "Task not found")),
        {| gateway := gateway w; issued := tasks_findById id :: issued w;
           ids_drawn := ids_drawn w; dates_read := dates_read w |})) ∧
  (∀ task, answer_tasks_findById db id = Ok (Some task) →
     tdoc_createdBy task ≠ userId →
     TasksService.remove db id userId w =
       (Thrown (Http.ForbiddenException "Not authorized to delete this task"),
        {| gateway := gateway w; issued := tasks_findById id :: issued w;
           ids_drawn := ids_drawn w; dates_read := dates_read w |})) ∧
  (∀ task, answer_tasks_findById db id = Ok (Some task) →
     tdoc_createdBy task = userId →
     answer_tasks_findByIdAndDelete db id = Ok tt →
     TasksService.remove db id userId w =
       (Returned tt,
        {| gateway :=
             push_wire
               {| recipients :=
                    room_members (room_name project_kind (tdoc_projectId task))
                                 (gateway w);
                  event := task_deleted id |} (gateway w);
           issued := tasks_findByIdAndDelete id :: tasks_findById id :: issued w;
           ids_drawn := ids_drawn w; dates_read := dates_read w |})) ∧
  (∀ task e, answer_tasks_findById db id = Ok (Some task) →
     tdoc_createdBy task = userId →
     answer_tasks_findByIdAndDelete db id = Throw e →
     (TasksService.remove db id userId w).1 = Thrown (Http.Other e) ∧
     gateway (TasksService.remove db id userId w).2 = gateway w).
Proof.
  unfold TasksService.remove. unfold_S. split; [|split; [|split]].
  - intros ->. reflexivity.
  - intros task -> Hne. simpl.
    by rewrite (proj2 (String.eqb_neq _ _) Hne).
  - intros task -> <- Hd. simpl. rewrite String.eqb_refl, Hd. reflexivity.
  - intros task e -> <- Hd. simpl. rewrite String.eqb_refl, Hd. split; reflexivity.
Qed.

(** The assignee of the sample task may not delete it; its creator may, and
    Alice's socket, which is in the room of the project, is told. *)
Lemma remove_only_by_creator_witness :
  TasksService.remove sample_db "t1" "u2" sample_world =
    (Thrown (Http.ForbiddenException "Not authorized to delete this task"),
     {| gateway := gateway sample_world; issued := [tasks_findById "t1"];
        ids_drawn := 0; dates_read := 0 |}) ∧
  (TasksService.remove sample_db "t1" "u1" sample_world).1 = Returned tt ∧
  issued (TasksService.remove sample_db "t1" "u1" sample_world).2
    = [tasks_findByIdAndDelete "t1"; tasks_findById "t1"] ∧
  head (wire (gateway (TasksService.remove sample_db "t1" "u1" sample_world).2))
    = Some {| recipients := {["A"]}; event := task_deleted "t1" |}.
Proof.
  destruct (remove_only_by_creator sample_db "t1" "u2" sample_world)
    as (_ & Hforbidden & _).
  destruct (remove_only_by_creator sample_db "t1" "u1" sample_world)
    as (_ & _ & Hok & _).
  split; [apply (Hforbidden sample_task); [reflexivity | discriminate]|].
  rewrite (Hok sample_task) by reflexivity.
  split; [reflexivity|]. split; [reflexivity|].
  vm_compute. reflexivity.
Defined.

(** ** Changing the status of a task *)

(** X15.  [TasksService.updateStatus] serves the creator and the assignee of
    the task and nobody else: any other requester gets
    [ForbiddenException] after the lookup, with no update issued and the
    gateway untouched.  When it goes through it returns the DTO of the
    updated document and emits [task.updated] with that DTO to the room of
    the task's project.  The creator is notified exactly when somebody else
    made the change: for the creator herself that emission is the only
    one; for the assignee a [task_status_changed] notification addressed to
    the creator follows, delivered to the creator's registered socket if
    she has one and dropped otherwise. *)
Theorem updateStatus_notifies_creator_of_others_change (db : Db) (id : string)
    (status : TaskStatus) (userId : string) (w : World) (task : TaskDocument) :
  answer_tasks_findById db id = Ok (Some task) →
  (tdoc_createdBy task ≠ userId → tdoc_assignedTo task ≠ Some userId →
     TasksService.updateStatus db id status userId w =
       (Thrown (Http.ForbiddenException "Not authorized to update this task"),
        {| gateway := gateway w; issued := tasks_findById id :: issued w;
           ids_drawn := ids_drawn w; dates_read := dates_read w |})) ∧
  (∀ updated,
     tdoc_createdBy task = userId ∨ tdoc_assignedTo task = Some userId →
     answer_tasks_setStatus db id status = Ok (Some updated) →
     ∃ dto w',
       TasksService.updateStatus db id status userId w = (Returned dto, w') ∧
       task_id dto = tdoc_id updated ∧
       task_status dto = tdoc_status updated ∧
       issued w' =
         tasks_findByIdAndUpdate_status id status :: tasks_findById id :: issued w ∧
       sockets (gateway w') = sockets (gateway w) ∧
       connectedUsers (gateway w') = connectedUsers (gateway w) ∧
       ∃ notified,
         wire (gateway w') =
           (notified ++
            {| recipients :=
                 room_members (room_name project_kind (tdoc_projectId task))
                              (gateway w);
               event := task_updated dto |} :: wire (gateway w))%list ∧
         (tdoc_createdBy task = userId → notified = []) ∧
         (tdoc_createdBy task ≠ userId →
            match connectedUsers (gateway w) !! tdoc_createdBy task with
            | Some c =>
                ∃ n, notified = [ {| recipients := {[c]}; event := notification n |} ] ∧
                     notification_userId n = tdoc_createdBy task ∧
                     notification_type n = "task_status_changed" ∧
                     notification_message n =
                       "Task " +:+ dquote +:+ tdoc_title task +:+ dquote
                       +:+ " status changed to " +:+ TaskStatus_value status
            | None => notified = []
            end)).
Proof.
  intros Hf. unfold TasksService.updateStatus. unfold_S. rewrite Hf. simpl. split.
  - intros Hc Ha. rewrite (proj2 (String.eqb_neq _ _) Hc). simpl.
    destruct (tdoc_assignedTo task) as [a|]; [|reflexivity].
    assert (a ≠ userId) by congruence.
    by rewrite (proj2 (String.eqb_neq _ _) H).
  - intros updated Hallowed Hu. rewrite Hu.
    unfold TasksService.toTaskDto, emitTaskUpdatedToProject, emitNotification.
    unfold_S. unfold_M.
    destruct (String.eqb (tdoc_createdBy task) userId) eqn:Hc.
    + apply String.eqb_eq in Hc. simpl.
      destruct (tdoc_createdAt updated), (tdoc_updatedAt updated); simpl;
        eexists _, _; (split; [reflexivity|]); repeat (split; [reflexivity|]);
        exists []; (split; [reflexivity|]); (split; [reflexivity|]);
        intros Hne; destruct (Hne Hc).
    + apply String.eqb_neq in Hc.
      assert (Ha : match tdoc_assignedTo task with
                   | Some a => String.eqb a userId
                   | None => false
                   end = true).
      { destruct Hallowed as [?|Ha]; [done|]. rewrite Ha. apply String.eqb_refl. }
      rewrite Ha. simpl.
      destruct (tdoc_createdAt updated), (tdoc_updatedAt updated); simpl;
        destruct (connectedUsers (gateway w) !! tdoc_createdBy task) as [c|] eqn:He;
        simpl; eexists _, _; (split; [reflexivity|]);
        repeat (split; [reflexivity|]);
        first [ exists []; (split; [reflexivity|]);
                (split; [intros Heq; destruct (Hc Heq)|]); intros _;
                reflexivity
              | eexists [_]; (split; [reflexivity|]);
                (split; [intros Heq; destruct (Hc Heq)|]); intros _;
                eexists; repeat split ].
Qed.

(** The assignee completes the sample task: Alice, its creator, gets the
    room update and a notification; a stranger is refused. *)
Lemma updateStatus_notifies_creator_of_others_change_witness :
  (TasksService.updateStatus sample_db "t1" COMPLETED "u7" sample_world).1
    = Thrown (Http.ForbiddenException "Not authorized to update this task") ∧
  ∃ dto w' n,
    TasksService.updateStatus sample_db "t1" COMPLETED "u2" sample_world
      = (Returned dto, w') ∧
    task_status dto = COMPLETED ∧
    wire (gateway w') =
      {| recipients := {["A"]}; event := notification n |}
      :: {| recipients := {["A"]}; event := task_updated dto |}
      :: wire (gateway sample_world) ∧
    notification_userId n = "u1".
Proof.
  destruct (updateStatus_notifies_creator_of_others_change sample_db "t1" COMPLETED
              "u7" sample_world sample_task eq_refl) as [Hforbidden _].
  destruct (updateStatus_notifies_creator_of_others_change sample_db "t1" COMPLETED
              "u2" sample_world sample_task eq_refl) as [_ Hok].
  split; [rewrite Hforbidden; [reflexivity | discriminate | discriminate]|].
  destruct (Hok (task_with_status COMPLETED sample_task)) as
    (dto & w' & Hrun & _ & Hstatus & _);
    [right; reflexivity | reflexivity |].
  exists dto, w'. vm_compute in Hrun. injection Hrun as <- <-.
  eexists. split; [vm_compute; reflexivity|]. split; [reflexivity|].
  split; [vm_compute; reflexivity | reflexivity].
Defined.

(** ** Members of a project *)

Lemma existsb_eqb_elem_of (x : string) (l : list string) :
  existsb (λ m, String.eqb m x) l = true ↔ x ∈ l.
Proof.
  rewrite existsb_exists. split.
  - intros (m & Hin & Heq). apply String.eqb_eq in Heq as ->.
    by apply list_elem_of_In.
  - intros Hin. exists x. split; [by apply list_elem_of_In | apply String.eqb_refl].
Qed.

Lemma elem_of_filter_neq (x : string) (l : list string) (m : string) :
  m ∈ List.filter (λ member, negb (String.eqb member x)) l ↔ m ∈ l ∧ m ≠ x.
Proof.
  rewrite !list_elem_of_In, filter_In, negb_true_iff, String.eqb_neq. tauto.
Qed.

Lemma filter_neq_app_new (x : string) (l : list string) :
  x ∉ l →
  List.filter (λ member, negb (String.eqb member x)) (l ++ [x]) = l.
Proof.
  intros Hnot. rewrite List.filter_app. simpl. rewrite String.eqb_refl. simpl.
  rewrite app_nil_r. induction l as [|a l IH]; [reflexivity|]. simpl.
  apply not_elem_of_cons in Hnot as [Hne Hnot].
  rewrite (proj2 (String.eqb_neq a x)) by congruence. simpl. by rewrite IH.
Qed.

(** X16.  [ProjectsService.addMember].  A requester who is not an admin is
    refused with [ForbiddenException] before any query is issued.  Adding
    a user who is already a member changes nothing: the project is
    returned as it is, nothing is saved and nothing is emitted.  Adding a
    new member saves the project with that user appended to its members,
    then emits a [project_invite] notification addressed to the user,
    delivered to her registered socket if she has one, and [project.updated]
    with the new member list to the room of the project. *)
Theorem addMember_admin_only_idempotent (db : Db) (projectId userId : string)
    (adminUser : Principal) (w : World) :
  (isAdmin adminUser = false →
     ProjectsService.addMember db projectId userId adminUser w =
       (Thrown (Http.ForbiddenException "Admin access required"), w)) ∧
  (∀ project oid,
     isAdmin adminUser = true →
     answer_projects_findById db projectId = Ok (Some project) →
     ObjectId_of db userId = Ok oid →
     oid ∈ pdoc_members project →
     ∃ dto w',
       ProjectsService.addMember db projectId userId adminUser w = (Returned dto, w') ∧
       project_members dto = pdoc_members project ∧
       issued w' = projects_findById projectId :: issued w ∧
       gateway w' = gateway w) ∧
  (∀ project oid,
     isAdmin adminUser = true →
     answer_projects_findById db projectId = Ok (Some project) →
     ObjectId_of db userId = Ok oid →
     oid ∉ pdoc_members project →
     answer_projects_save db
       (ProjectsService.with_members (pdoc_members project ++ [oid]) project) = Ok tt →
     ∃ dto w' notified,
       ProjectsService.addMember db projectId userId adminUser w = (Returned dto, w') ∧
       project_members dto = (pdoc_members project ++ [oid])%list ∧
       issued w' =
         projects_save
           (ProjectsService.with_members (pdoc_members project ++ [oid]) project)
         :: projects_findById projectId :: issued w ∧
       sockets (gateway w') = sockets (gateway w) ∧
       connectedUsers (gateway w') = connectedUsers (gateway w) ∧
       wire (gateway w') =
         ({| recipients := room_members (room_name project_kind projectId) (gateway w);
             event := project_updated dto |} :: notified ++ wire (gateway w))%list ∧
       match connectedUsers (gateway w) !! userId with
       | Some c =>
           ∃ n, notified = [ {| recipients := {[c]}; event := notification n |} ] ∧
                notification_userId n = userId ∧
                notification_type n = "project_invite" ∧
                notification_message n =
                  "You have been added to project: " +:+ pdoc_name project
       | None => notified = []
       end).
Proof.
  unfold ProjectsService.addMember. split; [|split].
  - intros ->. reflexivity.
  - intros project oid -> Hf Ho Hin. unfold_S. simpl. rewrite Hf, Ho.
    rewrite (proj2 (existsb_eqb_elem_of oid (pdoc_members project)) Hin).
    unfold ProjectsService.toProjectDto. unfold_S.
    destruct (pdoc_createdAt project), (pdoc_updatedAt project); simpl;
      eexists _, _; repeat split.
  - intros project oid -> Hf Ho Hnot Hs. unfold_S. simpl. rewrite Hf, Ho.
    destruct (existsb (λ member, String.eqb member oid) (pdoc_members project))
      eqn:He; [by apply existsb_eqb_elem_of in He|].
    rewrite Hs. unfold ProjectsService.toProjectDto, emitNotification,
      emitProjectUpdatedToProject. unfold_S. unfold_M. simpl.
    destruct (pdoc_createdAt project), (pdoc_updatedAt project); simpl;
      destruct (connectedUsers (gateway w) !! userId) as [c|] eqn:Hc; simpl;
      first [ eexists _, _, []; (split; [reflexivity|]);
              repeat (split; [reflexivity|]); reflexivity
            | eexists _, _, [_]; (split; [reflexivity|]);
              repeat (split; [reflexivity|]); eexists; repeat split ].
Qed.

Lemma addMember_admin_only_idempotent_witness :
  ProjectsService.addMember sample_db "p1" "u2" (principal_of alice) sample_world =
    (Thrown (Http.ForbiddenException "Admin access required"), sample_world) ∧
  (∃ dto w',
     ProjectsService.addMember sample_db "p1" "u1" sample_admin sample_world
       = (Returned dto, w') ∧
     project_members dto = ["u1"] ∧
     issued w' = [projects_findById "p1"] ∧
     gateway w' = gateway sample_world) ∧
  (∃ dto w',
     ProjectsService.addMember sample_db "p1" "u2" sample_admin sample_world
       = (Returned dto, w') ∧
     project_members dto = ["u1"; "u2"] ∧
     wire (gateway w') =
       {| recipients := {["A"]}; event := project_updated dto |}
       :: wire (gateway sample_world)).
Proof.
  destruct (addMember_admin_only_idempotent sample_db "p1" "u2" (principal_of alice)
              sample_world) as (Hrefused & _).
  destruct (addMember_admin_only_idempotent sample_db "p1" "u1" sample_admin
              sample_world) as (_ & Hsame & _).
  destruct (addMember_admin_only_idempotent sample_db "p1" "u2" sample_admin
              sample_world) as (_ & _ & Hnew).
  split; [apply Hrefused; reflexivity|]. split.
  - destruct (Hsame sample_project "u1") as (dto & w' & Hrun & Hm & Hi & Hg);
      [reflexivity | reflexivity | reflexivity | by apply list_elem_of_singleton |].
    exists dto, w'. repeat split; assumption.
  - destruct (Hnew sample_project "u2") as (dto & w' & notified & Hrun & Hm & _);
      [reflexivity | reflexivity | reflexivity | | reflexivity |].
    { intros Hin. apply list_elem_of_singleton in Hin. discriminate Hin. }
    exists dto, w'. split; [exact Hrun|]. split; [exact Hm|].
    vm_compute in Hrun. injection Hrun as <- <-. vm_compute. reflexivity.
Defined.

(** X17.  [ProjectsService.removeMember] serves the creator of the project
    and nobody else: any other requester gets [ForbiddenException] after
    the lookup, with nothing saved and the gateway untouched.  For the
    creator the project is saved with exactly its former members other
    than the user, and the one emission made is [project.updated] with the
    new member list to the room of the project; the user who was removed
    is not notified. *)
Theorem removeMember_creator_only (db : Db) (projectId userId currentUserId : string)
    (w : World) (project : ProjectDocument) :
  answer_projects_findById db projectId = Ok (Some project) →
  (pdoc_createdBy project ≠ currentUserId →
     ProjectsService.removeMember db projectId userId currentUserId w =
       (Thrown (Http.ForbiddenException "Only project creator can remove members"),
        {| gateway := gateway w; issued := projects_findById projectId :: issued w;
           ids_drawn := ids_drawn w; dates_read := dates_read w |})) ∧
  (∀ oid,
     pdoc_createdBy project = currentUserId →
     ObjectId_of db userId = Ok oid →
     (∀ saved, answer_projects_save db saved = Ok tt) →
     ∃ dto w',
       ProjectsService.removeMember db projectId userId currentUserId w
         = (Returned dto, w') ∧
       (∀ m, m ∈ project_members dto ↔ m ∈ pdoc_members project ∧ m ≠ oid) ∧
       issued w' =
         projects_save
           (ProjectsService.with_members (project_members dto) project)
         :: projects_findById projectId :: issued w ∧
       sockets (gateway w') = sockets (gateway w) ∧
       connectedUsers (gateway w') = connectedUsers (gateway w) ∧
       wire (gateway w') =
         {| recipients := room_members (room_name project_kind projectId) (gateway w);
            event := project_updated dto |} :: wire (gateway w)).
Proof.
  intros Hf. unfold ProjectsService.removeMember. unfold_S. rewrite Hf. simpl. split.
  - intros Hne. by rewrite (proj2 (String.eqb_neq _ _) Hne).
  - intros oid <- Ho Hs. rewrite String.eqb_refl, Ho. simpl. rewrite Hs.
    unfold ProjectsService.toProjectDto, emitProjectUpdatedToProject.
    unfold_S. unfold_M. simpl.
    destruct (pdoc_createdAt project), (pdoc_updatedAt project); simpl;
      eexists _, _; (split; [reflexivity|]); simpl;
      (split; [intros m; apply elem_of_filter_neq|]); repeat split.
Qed.

(** Alice, who created the sample project, removes ["u2"] from it; ["u2"]
    herself may not. *)
Lemma removeMember_creator_only_witness :
  (ProjectsService.removeMember sample_db_after_add "p1" "u1" "u2" sample_world).1
    = Thrown (Http.ForbiddenException "Only project creator can remove members") ∧
  ∃ dto w',
    ProjectsService.removeMember sample_db_after_add "p1" "u2" "u1" sample_world
      = (Returned dto, w') ∧
    project_members dto = ["u1"] ∧
    wire (gateway w') =
      {| recipients := {["A"]}; event := project_updated dto |}
      :: wire (gateway sample_world).
Proof.
  destruct (removeMember_creator_only sample_db_after_add "p1" "u1" "u2" sample_world
              (ProjectsService.with_members ["u1"; "u2"] sample_project) eq_refl)
    as [Hrefused _].
  destruct (removeMember_creator_only sample_db_after_add "p1" "u2" "u1" sample_world
              (ProjectsService.with_members ["u1"; "u2"] sample_project) eq_refl)
    as [_ Hok].
  split; [rewrite Hrefused; [reflexivity | discriminate]|].
  destruct (Hok "u2") as (dto & w' & Hrun & _);
    [reflexivity | reflexivity | reflexivity |].
  exists dto, w'. split; [exact Hrun|].
  vm_compute in Hrun. injection Hrun as <- <-.
  split; [reflexivity | vm_compute; reflexivity].
Defined.

(** The document [addMember] saves for a new member. *)
Lemma addMember_steps (db : Db) (projectId userId : string) (adminUser : Principal)
    (w : World) (project : ProjectDocument) (oid : string) :
  isAdmin adminUser = true →
  answer_projects_findById db projectId = Ok (Some project) →
  ObjectId_of db userId = Ok oid →
  oid ∉ pdoc_members project →
  answer_projects_save db
    (ProjectsService.with_members (pdoc_members project ++ [oid]) project) = Ok tt →
  head (issued (ProjectsService.addMember db projectId userId adminUser w).2)
  = Some (projects_save
            (ProjectsService.with_members (pdoc_members project ++ [oid]) project)).
Proof.
  intros Hadmin Hf Ho Hnot Hs. unfold ProjectsService.addMember. rewrite Hadmin.
  unfold_S. simpl. rewrite Hf, Ho.
  destruct (existsb (λ member, String.eqb member oid) (pdoc_members project))
    eqn:He; [by apply existsb_eqb_elem_of in He|].
  rewrite Hs. unfold ProjectsService.toProjectDto, emitNotification,
    emitProjectUpdatedToProject. unfold_S. unfold_M. simpl.
  destruct (pdoc_createdAt project), (pdoc_updatedAt project); simpl;
    destruct (connectedUsers (gateway w) !! userId); reflexivity.
Qed.

(** X18.  Adding a member and removing her again is a round trip of the
    member list: when an admin adds a user who was not a member, and the
    creator then removes that user from the project as it was saved, the
    project is saved with, and returned with, the members it had at the
    start, in the same order. *)
Theorem add_then_remove_member_round_trip (db db' : Db)
    (projectId userId currentUserId : string) (adminUser : Principal)
    (w w' : World) (project saved : ProjectDocument) (oid : string) :
  isAdmin adminUser = true →
  answer_projects_findById db projectId = Ok (Some project) →
  ObjectId_of db userId = Ok oid →
  oid ∉ pdoc_members project →
  (∀ doc, answer_projects_save db doc = Ok tt) →
  head (issued (ProjectsService.addMember db projectId userId adminUser w).2)
    = Some (projects_save saved) →
  answer_projects_findById db' projectId = Ok (Some saved) →
  ObjectId_of db' userId = Ok oid →
  pdoc_createdBy project = currentUserId →
  (∀ doc, answer_projects_save db' doc = Ok tt) →
  ∃ dto w'',
    ProjectsService.removeMember db' projectId userId currentUserId w'
      = (Returned dto, w'') ∧
    project_members dto = pdoc_members project ∧
    head (issued w'') = Some (projects_save project).
Proof.
  intros Hadmin Hf Ho Hnot Hs Hsaved Hf' Ho' Hc Hs'.
  pose proof (addMember_steps db projectId userId adminUser w project oid
                Hadmin Hf Ho Hnot (Hs _)) as Hissued.
  rewrite Hissued in Hsaved. injection Hsaved as <-.
  unfold ProjectsService.removeMember. unfold_S. rewrite Hf'. simpl.
  rewrite Hc, String.eqb_refl, Ho'. simpl. rewrite Hs'.
  rewrite filter_neq_app_new by done.
  unfold ProjectsService.toProjectDto, emitProjectUpdatedToProject.
  unfold_S. unfold_M. simpl.
  assert (Hsame : ProjectsService.with_members (pdoc_members project)
                    (ProjectsService.with_members (pdoc_members project ++ [oid]) project)
                  = project) by (by destruct project).
  rewrite Hsame.
  destruct (pdoc_createdAt project), (pdoc_updatedAt project); simpl;
    eexists _, _; repeat split.
Qed.

Lemma add_then_remove_member_round_trip_witness :
  ∃ dto w'',
    ProjectsService.removeMember sample_db_after_add "p1" "u2" "u1" sample_world
      = (Returned dto, w'') ∧
    project_members dto = pdoc_members sample_project ∧
    head (issued w'') = Some (projects_save sample_project).
Proof.
  apply (add_then_remove_member_round_trip sample_db sample_db_after_add
           "p1" "u2" "u1" sample_admin sample_world sample_world sample_project
           (ProjectsService.with_members ["u1"; "u2"] sample_project) "u2");
    try reflexivity.
  intros Hin. apply list_elem_of_singleton in Hin. discriminate Hin.
Defined.

(** ** The users controller *)

(** X19.  Who may read and confirm users.  [findAll] and [confirmUser]
    refuse every requester who is not an admin, and [findById] refuses a
    requester who is neither an admin nor the user asked for; a refusal is
    a [ForbiddenException] thrown before any query is issued.  A requester
    who passes gets what the users service gives: the list of users, the
    user or [NotFoundException] when the model holds none, and for
    [confirmUser] the one update query with the confirmed user or
    [NotFoundException]. *)
Theorem users_controller_access (db : Db) (req_user : Principal) (i : string)
    (w : World) :
  (* findAll *)
  (isAdmin req_user = false →
     UsersController.findAll db req_user w =
       (Thrown (Http.ForbiddenException "Admin access required"), w)) ∧
  (∀ users, isAdmin req_user = true → answer_users_find_active db = Ok users →
     (UsersController.findAll db req_user w).1 = Returned users) ∧
  (* findById *)
  (isAdmin req_user = false → i ≠ id req_user →
     UsersController.findById db i req_user w =
       (Thrown (Http.ForbiddenException "Access denied"), w)) ∧
  (isAdmin req_user = true ∨ i = id req_user →
     (UsersController.findById db i req_user w).1 =
       match answer_users_findById db i with
       | Ok (Some user) => Returned user
       | Ok None => Thrown (Http.Other (NotFoundException "User not found"))
       | Throw e => Thrown (Http.Other e)
       end) ∧
  (* confirmUser *)
  (isAdmin req_user = false →
     UsersController.confirmUser db i req_user w =
       (Thrown (Http.ForbiddenException "Admin access required"), w)) ∧
  (isAdmin req_user = true →
     issued (UsersController.confirmUser db i req_user w).2
       = users_findByIdAndUpdate_isConfirmed i :: issued w ∧
     (UsersController.confirmUser db i req_user w).1 =
       match answer_users_confirm db i with
       | Ok (Some user) => Returned user
       | Ok None => Thrown (Http.Other (NotFoundException "User not found"))
       | Throw e => Thrown (Http.Other e)
       end).
Proof.
  unfold UsersController.findAll, UsersController.findById,
    UsersController.confirmUser, UsersController.UsersService_confirmUser,
    UsersController.UsersService_findAll, UsersController.usersService_findById,
    UsersService_findById.
  unfold_S. simpl.
  split; [|split; [|split; [|split; [|split]]]].
  - intros ->. reflexivity.
  - intros users -> ->. reflexivity.
  - intros -> Hne. by rewrite (proj2 (String.eqb_neq _ _) Hne).
  - intros Hallowed.
    assert (Hpass : negb (String.eqb i (id req_user)) && negb (isAdmin req_user) = false).
    { destruct Hallowed as [->| ->]; [apply andb_false_r|].
      by rewrite String.eqb_refl. }
    rewrite Hpass. by destruct (answer_users_findById db i) as [[?|]|?].
  - intros ->. reflexivity.
  - intros ->. simpl. by destruct (answer_users_confirm db i) as [[?|]|?].
Qed.

(** Alice, who is no admin, may read herself and nobody else, and may
    neither list nor confirm users. *)
Lemma users_controller_access_witness :
  UsersController.findAll sample_db (principal_of alice) sample_world =
    (Thrown (Http.ForbiddenException "Admin access required"), sample_world) ∧
  (UsersController.findAll sample_db sample_admin sample_world).1 = Returned [alice] ∧
  UsersController.findById sample_db "u9" (principal_of alice) sample_world =
    (Thrown (Http.ForbiddenException "Access denied"), sample_world) ∧
  (UsersController.findById sample_db "u1" (principal_of alice) sample_world).1
    = Returned alice ∧
  UsersController.confirmUser sample_db "u1" (principal_of alice) sample_world =
    (Thrown (Http.ForbiddenException "Admin access required"), sample_world) ∧
  (UsersController.confirmUser sample_db "u9" sample_admin sample_world).1
    = Thrown (Http.Other (NotFoundException "User not found")).
Proof.
  destruct (users_controller_access sample_db (principal_of alice) "u9" sample_world)
    as (Hall & _ & Hother & _ & Hconfirm' & _).
  destruct (users_controller_access sample_db (principal_of alice) "u1" sample_world)
    as (_ & _ & _ & Hself & Hconfirm & _).
  destruct (users_controller_access sample_db sample_admin "u9" sample_world)
    as (_ & Hlist & _ & _ & _ & Hadmin).
  split; [apply Hall; reflexivity|].
  split; [apply Hlist; reflexivity|].
  split; [apply Hother; [reflexivity | discriminate]|].
  split; [rewrite Hself; [reflexivity | right; reflexivity]|].
  split; [apply Hconfirm; reflexivity|].
  destruct Hadmin as [_ ->]; reflexivity.
Defined.

(** ** Creation of a project *)

(** The ids of the members are built in order, and the first string that is
    no id throws. *)
Lemma map_each_ObjectId_ok (db : Db) (ids oids : list string) (w : World) :
  Forall2 (λ i oid, ObjectId_of db i = Ok oid) ids oids →
  map_each (λ i, attempt (ObjectId_of db i)) ids w = (Returned oids, w).
Proof.
  induction 1 as [|i oid ids oids Hi _ IH]; [reflexivity|].
  simpl. unfold_S. unfold attempt in IH. rewrite Hi. simpl.
  by rewrite IH.
Qed.

Lemma map_each_ObjectId_throw (db : Db) (ids : list string) (w : World) :
  (∃ i e, i ∈ ids ∧ ObjectId_of db i = Throw e) →
  ∃ e, map_each (λ i, attempt (ObjectId_of db i)) ids w = (Thrown (Http.Other e), w).
Proof.
  induction ids as [|a ids IH]; intros (i & e & Hin & Hi).
  - by apply elem_of_nil in Hin.
  - simpl. unfold_S. destruct (ObjectId_of db a) as [oid|e'] eqn:Ha; simpl.
    + apply elem_of_cons in Hin as [->|Hin]; [congruence|].
      destruct IH as [e2 He2]; [by exists i, e|].
      exists e2. unfold attempt in He2. by rewrite He2.
    + by exists e'.
Qed.

Lemma for_each_cons {A} (f : A → Service unit) (x : A) (xs : list A) (w : World) :
  for_each f (x :: xs) w =
    match f x w with
    | (Returned _, w1) => for_each f xs w1
    | (Thrown e, w1) => (Thrown e, w1)
    end.
Proof. reflexivity. Qed.

(** What the notification of [create] does for one member. *)
Lemma notify_created_step (db : Db) (dto : CreateProjectDto) (userId m : string)
    (w : World) :
  (m = userId →
     ProjectsService.notify_created db dto userId m w = (Returned tt, w)) ∧
  (m ≠ userId →
     ∃ n,
       notification_userId n = m ∧
       notification_type n = "project_created" ∧
       notification_message n = "You have been added to project: " +:+ cp_name dto ∧
       ProjectsService.notify_created db dto userId m w =
         (Returned tt,
          {| gateway :=
               match connectedUsers (gateway w) !! m with
               | Some c =>
                   push_wire {| recipients := {[c]}; event := notification n |}
                             (gateway w)
               | None => gateway w
               end;
             issued := issued w;
             ids_drawn := S (ids_drawn w);
             dates_read := S (dates_read w) |})).
Proof.
  unfold ProjectsService.notify_created. split.
  - intros ->. by rewrite String.eqb_refl.
  - intros Hne. rewrite (proj2 (String.eqb_neq _ _) Hne). simpl.
    eexists. split; [|split; [|split]]; cycle 3.
    + unfold_S. unfold emitNotification. unfold_M. simpl.
      destruct (connectedUsers (gateway w) !! m); reflexivity.
    + reflexivity.
    + reflexivity.
    + reflexivity.
Qed.

(** What one round of notifications of [create] does. *)
Lemma notify_created_each (db : Db) (dto : CreateProjectDto) (userId : string)
    (ms : list string) (w : World) :
  ∃ w' es,
    for_each (ProjectsService.notify_created db dto userId) ms w = (Returned tt, w') ∧
    issued w' = issued w ∧
    sockets (gateway w') = sockets (gateway w) ∧
    connectedUsers (gateway w') = connectedUsers (gateway w) ∧
    ids_drawn w' = (ids_drawn w + length (filter (λ m, m ≠ userId) ms))%nat ∧
    wire (gateway w') = (rev es ++ wire (gateway w))%list ∧
    Forall2
      (λ e m, ∃ c n,
         connectedUsers (gateway w) !! m = Some c ∧
         e = {| recipients := {[c]}; event := notification n |} ∧
         notification_userId n = m ∧
         notification_type n = "project_created" ∧
         notification_message n = "You have been added to project: " +:+ cp_name dto)
      es
      (filter (λ m, m ≠ userId ∧ is_Some (connectedUsers (gateway w) !! m)) ms).
Proof.
  revert w. induction ms as [|m ms IH]; intros w.
  - exists w, []. repeat split; simpl; try lia. constructor.
  - rewrite for_each_cons.
    destruct (notify_created_step db dto userId m w) as [Hsame Hother].
    destruct (decide (m = userId)) as [Hm|Hm].
    + rewrite (Hsame Hm).
      destruct (IH w) as (w' & es & Hrun & Hi & Hs & Hc & Hd & Hw & Hes).
      exists w', es. rewrite Hrun.
      rewrite !filter_cons_False by tauto.
      repeat split; assumption.
    + destruct (Hother Hm) as (n & Hn1 & Hn2 & Hn3 & ->).
      match goal with
      | |- context [for_each _ ms ?w1] =>
          destruct (IH w1) as (w' & es & Hrun & Hi & Hs & Hc & Hd & Hw & Hes)
      end.
      rewrite Hrun. cbn [gateway issued ids_drawn] in Hi, Hs, Hc, Hd, Hw, Hes.
      rewrite (filter_cons_True (λ m, m ≠ userId)) by done.
      destruct (connectedUsers (gateway w) !! m) as [c|] eqn:Hreg.
      * exists w', ({| recipients := {[c]}; event := notification n |} :: es).
        rewrite (filter_cons_True _ m) by (split; [done | by rewrite Hreg]).
        split; [reflexivity|]. split; [done|]. split; [done|]. split; [done|].
        split; [simpl; lia|].
        split; [simpl; rewrite <- app_assoc; exact Hw|].
        constructor; [|exact Hes].
        by exists c, n.
      * exists w', es.
        rewrite (filter_cons_False _ m)
          by (rewrite Hreg; intros [_ [? ?]]; discriminate).
        split; [reflexivity|]. split; [done|]. split; [done|]. split; [done|].
        split; [simpl; lia|]. split; [exact Hw | exact Hes].
Qed.

(** X20.  [ProjectsService.create].  The ids of the creator and of the
    listed members are built before anything else: when one of the strings
    is no id, the call throws with nothing stored and nothing emitted.
    When they all are, the project is created once with the creator first
    and the listed members after her, as listed, and then one
    [project_created] notification goes out for each entry of that list
    that differs from the caller's id and has a registered socket, in the
    order of the list, each to that one socket; the registry and the
    sockets stay as they were, and an id is drawn for every entry that
    differs from the caller's id, registered or not. *)
Theorem create_validates_then_notifies (db : Db) (createProjectDto : CreateProjectDto)
    (userId : string) (w : World) :
  ((∃ e, ObjectId_of db userId = Throw e) ∨
   (∃ i e, i ∈ default [] (cp_members createProjectDto) ∧
           ObjectId_of db i = Throw e) →
   ∃ e, ProjectsService.create db createProjectDto userId w
          = (Thrown (Http.Other e), w)) ∧
  (∀ creator others project,
     ObjectId_of db userId = Ok creator →
     Forall2 (λ i oid, ObjectId_of db i = Ok oid)
             (default [] (cp_members createProjectDto)) others →
     let input :=
       {| pi_name := cp_name createProjectDto;
          pi_description := cp_description createProjectDto;
          pi_createdBy := creator;
          pi_members := creator :: others |} in
     answer_projects_create db input = Ok project →
     ∃ dto w' es,
       ProjectsService.create db createProjectDto userId w = (Returned dto, w') ∧
       project_id dto = pdoc_id project ∧
       project_members dto = pdoc_members project ∧
       issued w' = projects_create input :: issued w ∧
       sockets (gateway w') = sockets (gateway w) ∧
       connectedUsers (gateway w') = connectedUsers (gateway w) ∧
       ids_drawn w' =
         (ids_drawn w + length (filter (λ m, m ≠ userId) (creator :: others)))%nat ∧
       wire (gateway w') = (rev es ++ wire (gateway w))%list ∧
       Forall2
         (λ e m, ∃ c n,
            connectedUsers (gateway w) !! m = Some c ∧
            e = {| recipients := {[c]}; event := notification n |} ∧
            notification_userId n = m ∧
            notification_type n = "project_created" ∧
            notification_message n =
              "You have been added to project: " +:+ cp_name createProjectDto)
         es
         (filter (λ m, m ≠ userId ∧ is_Some (connectedUsers (gateway w) !! m))
                 (creator :: others))).
Proof.
  split.
  - intros [[e He]|Hbad]; unfold ProjectsService.create.
    + unfold mbind, Service_bind. unfold attempt at 1. rewrite He. by exists e.
    + unfold mbind, Service_bind. unfold attempt at 1.
      destruct (ObjectId_of db userId) as [creator|e]; [|by exists e].
      destruct (map_each_ObjectId_throw db _ w Hbad) as [e He].
      rewrite He. by exists e.
  - intros creator others project Hu Hothers input Hcreate.
    unfold ProjectsService.create.
    unfold mbind, Service_bind. unfold attempt at 1. rewrite Hu.
    rewrite (map_each_ObjectId_ok db _ others w Hothers).
    unfold attempt. fold input.
    unfold query. rewrite Hcreate.
    set (w1 := {| gateway := gateway w; issued := projects_create input :: issued w;
                  ids_drawn := ids_drawn w; dates_read := dates_read w |}).
    assert (Hdto : ∃ dto w2,
              ProjectsService.toProjectDto db project w1 = (Returned dto, w2) ∧
              project_id dto = pdoc_id project ∧
              project_members dto = pdoc_members project ∧
              gateway w2 = gateway w ∧ issued w2 = issued w1 ∧
              ids_drawn w2 = ids_drawn w).
    { unfold ProjectsService.toProjectDto. unfold_S.
      destruct (pdoc_createdAt project), (pdoc_updatedAt project); simpl;
        eexists _, _; repeat split. }
    destruct Hdto as (dto & w2 & -> & Hid & Hmem & Hg & Hi & Hd).
    destruct (notify_created_each db createProjectDto userId (creator :: others) w2)
      as (w' & es & -> & Hi' & Hs' & Hc' & Hd' & Hw' & Hes).
    rewrite Hg in Hs', Hc', Hw', Hes.
    exists dto, w', es. unfold mret, Service_ret.
    split; [reflexivity|]. split; [exact Hid|]. split; [exact Hmem|].
    split; [by rewrite Hi', Hi|]. split; [exact Hs'|]. split; [exact Hc'|].
    split; [by rewrite Hd', Hd|]. split; [exact Hw' | exact Hes].
Qed.

(** The admin creates a project with Alice, who is connected on ["A"], and
    with ["u9"], who is not connected: one notification, to ["A"].  With a
    member ["nope"] that the driver refuses, nothing happens. *)
Lemma create_validates_then_notifies_witness :
  (∃ e, ProjectsService.create sample_db_strict
          {| cp_name := "Gemini"; cp_description := None;
             cp_members := Some ["u1"; "nope"] |} "u0" sample_world
        = (Thrown (Http.Other e), sample_world)) ∧
  (∃ dto w' n,
     ProjectsService.create sample_db
       {| cp_name := "Gemini"; cp_description := None;
          cp_members := Some ["u1"; "u9"] |} "u0" sample_world
       = (Returned dto, w') ∧
     project_members dto = ["u0"; "u1"; "u9"] ∧
     ids_drawn w' = 2%nat ∧
     wire (gateway w') =
       {| recipients := {["A"]}; event := notification n |}
       :: wire (gateway sample_world) ∧
     notification_userId n = "u1").
Proof.
  split.
  - apply create_validates_then_notifies. right.
    exists "nope", (Error "input must be a 24 character hex string").
    split; [|reflexivity]. simpl. apply list_elem_of_In. simpl. tauto.
  - destruct (create_validates_then_notifies sample_db
                {| cp_name := "Gemini"; cp_description := None;
                   cp_members := Some ["u1"; "u9"] |} "u0" sample_world)
      as [_ Hok].
    pose proof (Hok "u0" ["u1"; "u9"]
                {| pdoc_id := "p2"; pdoc_name := "Gemini"; pdoc_description := None;
                   pdoc_createdBy := "u0"; pdoc_members := ["u0"; "u1"; "u9"];
                   pdoc_isActive := true;
                   pdoc_createdAt := Some 7%Z; pdoc_updatedAt := Some 7%Z |}
                eq_refl) as Hrun.
    assert (Hothers : Forall2 (λ i oid, ObjectId_of sample_db i = Ok oid)
                              ["u1"; "u9"] ["u1"; "u9"]) by (repeat constructor).
    specialize (Hrun Hothers). cbv zeta in Hrun. specialize (Hrun eq_refl).
    destruct Hrun as (dto & w' & es & Hrun & _).
    pose proof Hrun as Hval. vm_compute in Hval. injection Hval as <- <-.
    eexists _, _,
      {| notification_id := "65f000000000000000000001";
         notification_type := "project_created";
         notification_title := "New Project";
         notification_message := "You have been added to project: Gemini";
         notification_userId := "u1";
         notification_read := false;
         notification_createdAt := 2000%Z |}.
    split; [exact Hrun|].
    split; [reflexivity|]. split; [reflexivity|].
    split; [vm_compute; reflexivity | reflexivity].
Defined.

(** ** Reading a project *)

Lemma existsb_pu_id (userId : string) (members : list PopulatedUser) :
  existsb (λ member, String.eqb (pu_id member) userId) members = true
  ↔ userId ∈ pu_id <$> members.
Proof.
  rewrite existsb_exists, list_elem_of_fmap. split.
  - intros (m & Hin & Heq). apply String.eqb_eq in Heq.
    exists m. split; [done | by apply list_elem_of_In].
  - intros (m & -> & Hin). exists m. split; [by apply list_elem_of_In|].
    apply String.eqb_refl.
Qed.

Lemma map_each_cons {A B} (f : A → Service B) (x : A) (xs : list A) (w : World) :
  map_each f (x :: xs) w =
    match f x w with
    | (Returned y, w1) =>
        match map_each f xs w1 with
        | (Returned ys, w2) => (Returned (y :: ys), w2)
        | (Thrown e, w2) => (Thrown e, w2)
        end
    | (Thrown e, w1) => (Thrown e, w1)
    end.
Proof. reflexivity. Qed.

(** The details of the members are read off the registry, which stays as
    it is. *)
Lemma member_details_each (members : list PopulatedUser) (w : World) :
  map_each
    (λ member,
       online ← socketService (isUserOnline (pu_id member));
       mret {| md_id := pu_id member; md_email := pu_email member;
               md_name := pu_name member; md_isOnline := online;
               md_lastSeen := pu_lastSeen member |})
    members w
  = (Returned
       ((λ member,
           {| md_id := pu_id member; md_email := pu_email member;
              md_name := pu_name member;
              md_isOnline :=
                bool_decide (is_Some (connectedUsers (gateway w) !! pu_id member));
              md_lastSeen := pu_lastSeen member |}) <$> members),
     w).
Proof.
  destruct w as [g i d r].
  match goal with |- map_each ?f0 _ _ = _ => set (f := f0) end.
  induction members as [|m members IH]; [reflexivity|].
  rewrite map_each_cons.
  assert (Hstep : f m {| gateway := g; issued := i; ids_drawn := d; dates_read := r |}
                  = (Returned
                       {| md_id := pu_id m; md_email := pu_email m;
                          md_name := pu_name m;
                          md_isOnline :=
                            bool_decide (is_Some (connectedUsers g !! pu_id m));
                          md_lastSeen := pu_lastSeen m |},
                     {| gateway := g; issued := i; ids_drawn := d; dates_read := r |}))
    by reflexivity.
  rewrite Hstep, IH. reflexivity.
Qed.

(** X21.  [ProjectsService.findById].  A project that does not exist is
    [NotFoundException]; a caller whose id is not among the members of the
    project is refused with [ForbiddenException].  A member is answered,
    by one query and with the gateway left as it is, with the ids of the
    members in their order and with one detail for each of them, in the
    same order, whose [isOnline] is [true] exactly when the registry of the
    gateway holds an entry for that member at the time of the call. *)
Theorem findById_members_only_with_presence (db : Db) (id' userId : string)
    (w : World) :
  (answer_projects_findById_populated db id' = Ok None →
     (ProjectsService.findById db id' userId w).1
       = Thrown (Http.Other (NotFoundException "Project not found"))) ∧
  (∀ project,
     answer_projects_findById_populated db id' = Ok (Some project) →
     userId ∉ pu_id <$> pp_members project →
     (ProjectsService.findById db id' userId w).1
       = Thrown (Http.ForbiddenException "Not authorized to access this project") ∧
     gateway (ProjectsService.findById db id' userId w).2 = gateway w) ∧
  (∀ project creator,
     answer_projects_findById_populated db id' = Ok (Some project) →
     userId ∈ pu_id <$> pp_members project →
     pp_createdBy project = Some creator →
     ∃ dto w',
       ProjectsService.findById db id' userId w = (Returned dto, w') ∧
       gateway w' = gateway w ∧
       issued w' = projects_findById_populated id' :: issued w ∧
       project_createdBy (pwm_project dto) = pu_id creator ∧
       project_members (pwm_project dto) = pu_id <$> pp_members project ∧
       Forall2
         (λ detail member,
            md_id detail = pu_id member ∧
            md_lastSeen detail = pu_lastSeen member ∧
            (md_isOnline detail = true
             ↔ is_Some (connectedUsers (gateway w) !! pu_id member)))
         (memberDetails dto) (pp_members project)).
Proof.
  unfold ProjectsService.findById. split; [|split].
  - intros Hf. unfold mbind, Service_bind, query. by rewrite Hf.
  - intros project Hf Hnot. unfold mbind, Service_bind, query. rewrite Hf.
    destruct (existsb _ (pp_members project)) eqn:He;
      [by apply existsb_pu_id in He|].
    by split.
  - intros project creator Hf Hin Hcreator.
    unfold mbind, Service_bind, query. rewrite Hf.
    rewrite (proj2 (existsb_pu_id userId (pp_members project)) Hin). simpl.
    unfold ProjectsService.toProjectDto_populated. rewrite Hcreator.
    unfold_S.
    destruct (pp_createdAt project), (pp_updatedAt project); simpl;
      rewrite member_details_each; simpl;
      eexists _, _; (split; [reflexivity|]); simpl;
      repeat (split; [reflexivity|]);
      apply Forall2_fmap_l, Forall_Forall2_diag, Forall_forall;
      intros m _; simpl; repeat split; try apply bool_decide_eq_true.
Qed.

(** Alice reads project ["p1"], of which she and ["u2"] are members: she is
    reported online and ["u2"] offline.  ["u9"], who is no member, is
    refused, and project ["p7"] does not exist. *)
Lemma findById_members_only_with_presence_witness :
  (ProjectsService.findById sample_db "p7" "u1" sample_world).1
    = Thrown (Http.Other (NotFoundException "Project not found")) ∧
  (ProjectsService.findById sample_db "p1" "u9" sample_world).1
    = Thrown (Http.ForbiddenException "Not authorized to access this project") ∧
  (∃ dto w',
     ProjectsService.findById sample_db "p1" "u1" sample_world = (Returned dto, w') ∧
     gateway w' = gateway sample_world ∧
     md_isOnline <$> memberDetails dto = [true; false]).
Proof.
  split; [|split].
  - by apply (findById_members_only_with_presence sample_db "p7" "u1" sample_world).
  - destruct (findById_members_only_with_presence sample_db "p1" "u9" sample_world)
      as (_ & Hrefused & _).
    apply (Hrefused sample_populated); [reflexivity|].
    vm_compute. intros Hin. apply list_elem_of_In in Hin. simpl in Hin.
    destruct Hin as [Hin|[Hin|[]]]; discriminate.
  - destruct (findById_members_only_with_presence sample_db "p1" "u1" sample_world)
      as (_ & _ & Hmember).
    destruct (Hmember sample_populated
                {| pu_id := "u1"; pu_name := "Alice"; pu_email := "alice@example.com";
                   pu_lastSeen := Some 1000%Z |})
      as (dto & w' & Hrun & Hg & _).
    { reflexivity. }
    { apply list_elem_of_In. simpl. tauto. }
    { reflexivity. }
    pose proof Hrun as Hval. vm_compute in Hval. injection Hval as <- <-.
    eexists _, _. split; [exact Hrun|]. split; [exact Hg | reflexivity].
Defined.

(** ** Creation of a task *)

Lemma truthy_nonempty (s : string) : truthy s = true ↔ s ≠ "".
Proof. destruct s; simpl; split; congruence. Qed.

(** X22.  [TasksService.create].  Without an active project of that id of
    which the caller is a member the call is refused with
    [ForbiddenException] after that one query: no task is created and
    nothing is emitted.  Otherwise the task is created once, for the caller
    as its creator, with status [PENDING] and priority [0] unless the
    request gives others, and [task.created] with its DTO is emitted to the
    room named after the project id of the request.  A [task_assigned]
    notification follows exactly when the request names a non-empty
    assignee other than the caller who has a registered socket, and it goes
    to that socket alone. *)
Theorem create_for_members_notifies_assignee (db : Db) (createTaskDto : CreateTaskDto)
    (userId : string) (w : World) (pid uid : string) :
  ObjectId_of db (ct_projectId createTaskDto) = Ok pid →
  ObjectId_of db userId = Ok uid →
  (answer_projects_findOne_active_member db pid uid = Ok None →
     TasksService.create db createTaskDto userId w =
       (Thrown (Http.ForbiddenException "Project not found or access denied"),
        {| gateway := gateway w;
           issued := projects_findOne_active_member pid uid :: issued w;
           ids_drawn := ids_drawn w; dates_read := dates_read w |})) ∧
  (∀ project,
     answer_projects_findOne_active_member db pid uid = Ok (Some project) →
     (∀ s, ct_assignedTo createTaskDto = Some s → ∃ oid, ObjectId_of db s = Ok oid) →
     (∀ taskData, ∃ task, answer_tasks_create db taskData = Ok task) →
     ∃ task taskDto w' taskData notified,
       TasksService.create db createTaskDto userId w = (Returned taskDto, w') ∧
       answer_tasks_create db taskData = Ok task ∧
       task_id taskDto = tdoc_id task ∧
       issued w' =
         tasks_create taskData :: projects_findOne_active_member pid uid :: issued w ∧
       td_createdBy taskData = uid ∧
       td_projectId taskData = pid ∧
       td_status taskData = default PENDING (ct_status createTaskDto) ∧
       td_priority taskData = default 0%Z (ct_priority createTaskDto) ∧
       sockets (gateway w') = sockets (gateway w) ∧
       connectedUsers (gateway w') = connectedUsers (gateway w) ∧
       wire (gateway w') =
         (notified ++
          {| recipients :=
               room_members (room_name project_kind (ct_projectId createTaskDto))
                            (gateway w);
             event := task_created taskDto |} :: wire (gateway w))%list ∧
       (∀ assignee c,
          ct_assignedTo createTaskDto = Some assignee →
          assignee ≠ "" → assignee ≠ userId →
          connectedUsers (gateway w) !! assignee = Some c →
          ∃ n, notified = [ {| recipients := {[c]}; event := notification n |} ] ∧
               notification_userId n = assignee ∧
               notification_type n = "task_assigned" ∧
               notification_message n =
                 "You have been assigned to " +:+ dquote +:+ ct_title createTaskDto
                 +:+ dquote +:+ " in project: " +:+ pdoc_name project) ∧
       (ct_assignedTo createTaskDto = None ∨
        ct_assignedTo createTaskDto = Some "" ∨
        ct_assignedTo createTaskDto = Some userId ∨
        (∃ a, ct_assignedTo createTaskDto = Some a ∧
              connectedUsers (gateway w) !! a = None) →
        notified = [])).
Proof.
  intros Hp Hu. unfold TasksService.create, TasksService.validateProjectAccess.
  split.
  - intros Hf. unfold_S. rewrite Hp, Hu, Hf. reflexivity.
  - intros project Hf Hassignee Hcreate.
    unfold mbind, Service_bind. unfold attempt at 1. rewrite Hp, Hu.
    unfold attempt at 1. unfold query at 1. rewrite Hf.
    unfold mret at 1. unfold Service_ret at 1. unfold attempt at 1 2.
    assert (Hwhen : ∃ assigned,
              TasksService.when_truthy (ct_assignedTo createTaskDto)
                (λ s, attempt (ObjectId_of db s)) =
              λ w, (Returned assigned, w)).
    { unfold TasksService.when_truthy.
      destruct (ct_assignedTo createTaskDto) as [s|]; [|by exists None].
      destruct (truthy s); [|by exists None].
      destruct (Hassignee s eq_refl) as [oid Ho].
      exists (Some oid). unfold_S. by rewrite Ho. }
    destruct Hwhen as [assigned ->].
    assert (Hdue : ∃ due,
              TasksService.when_truthy (A := string) (ct_dueDate createTaskDto)
                (λ s, mret s) =
              λ w, (Returned due, w)).
    { unfold TasksService.when_truthy.
      destruct (ct_dueDate createTaskDto) as [s|]; [|by exists None].
      destruct (truthy s); [by exists (Some s) | by exists None]. }
    destruct Hdue as [due ->].
    match goal with
    | |- context [query (tasks_create ?td) _] =>
        set (taskData := td); destruct (Hcreate taskData) as [task Ht]
    end.
    unfold query. rewrite Ht.
    match goal with
    | |- context [TasksService.toTaskDto db task ?w1] =>
        destruct (toTaskDto_returns db task w1)
          as (taskDto & w2 & -> & Hg & Hi & _ & Hid & _)
    end.
    simpl in Hg, Hi.
    unfold socketService at 1. unfold emitTaskCreatedToProject, server_to_emit.
    rewrite Hg.
    destruct (ct_assignedTo createTaskDto) as [a|];
      [destruct (truthy a) eqn:Hta;
        [destruct (String.eqb a userId) eqn:Hau;
          [|simpl; unfold_S; unfold emitNotification; unfold_M; simpl; rewrite ?Hg;
            destruct (connectedUsers (gateway w) !! a) as [c|] eqn:Hreg]|]|];
      simpl.
    + (* the caller assigns the task to herself *)
      apply String.eqb_eq in Hau.
      exists task, taskDto. eexists _, taskData, [].
      split; [reflexivity|]. repeat (split; [done|]).
      split; [|done]. intros assignee c [= <-] _ Hne. contradiction.
    + (* the assignee has a registered socket *)
      apply String.eqb_neq in Hau.
      exists task, taskDto. eexists _, taskData, [_].
      split; [reflexivity|]. repeat (split; [done|]).
      split.
      * intros assignee c' [= <-] _ _ Hc'. rewrite Hreg in Hc'. injection Hc' as <-.
        eexists. by repeat split.
      * intros [H|[H|[H|(a' & H & Hnone)]]]; try discriminate.
        { injection H as ->. by apply truthy_nonempty in Hta. }
        { injection H as ->. contradiction. }
        { injection H as <-. congruence. }
    + (* the assignee has no registered socket *)
      exists task, taskDto. eexists _, taskData, [].
      split; [reflexivity|]. repeat (split; [done|]).
      split; [|done]. intros assignee c [= <-] _ _ Hc. congruence.
    + (* the assignee is the empty string *)
      exists task, taskDto. eexists _, taskData, [].
      split; [reflexivity|]. repeat (split; [done|]).
      split; [|done]. intros assignee c [= <-] Hne.
      apply truthy_nonempty in Hne. congruence.
    + (* no assignee *)
      exists task, taskDto. eexists _, taskData, [].
      split; [reflexivity|]. repeat (split; [done|]). done.
Qed.

(** Alice creates a task in her project ["p1"] and assigns it to herself:
    only [task.created] goes out, to the room of the project, where she is.
    In project ["p7"], of which she is no member, she is refused. *)
Lemma create_for_members_notifies_assignee_witness :
  (TasksService.create sample_db
     {| ct_title := "Plan"; ct_description := None; ct_projectId := "p7";
        ct_assignedTo := None; ct_status := None; ct_dueDate := None;
        ct_priority := None |} "u1" sample_world).1
    = Thrown (Http.ForbiddenException "Project not found or access denied") ∧
  (∃ taskDto w',
     TasksService.create sample_db
       {| ct_title := "Plan"; ct_description := None; ct_projectId := "p1";
          ct_assignedTo := Some "u1"; ct_status := None; ct_dueDate := None;
          ct_priority := None |} "u1" sample_world = (Returned taskDto, w') ∧
     task_status taskDto = PENDING ∧
     wire (gateway w') =
       {| recipients := {["A"]}; event := task_created taskDto |}
       :: wire (gateway sample_world)).
Proof.
  split.
  - destruct (create_for_members_notifies_assignee sample_db
                {| ct_title := "Plan"; ct_description := None; ct_projectId := "p7";
                   ct_assignedTo := None; ct_status := None; ct_dueDate := None;
                   ct_priority := None |} "u1" sample_world "p7" "u1" eq_refl eq_refl)
      as [Hrefused _].
    by rewrite Hrefused.
  - destruct (create_for_members_notifies_assignee sample_db
                {| ct_title := "Plan"; ct_description := None; ct_projectId := "p1";
                   ct_assignedTo := Some "u1"; ct_status := None; ct_dueDate := None;
                   ct_priority := None |} "u1" sample_world "p1" "u1" eq_refl eq_refl)
      as [_ Hcreated].
    destruct (Hcreated sample_project eq_refl)
      as (task & taskDto & w' & taskData & notified & Hrun & _).
    { intros s _. by exists s. }
    { intros taskData. eexists. reflexivity. }
    pose proof Hrun as Hval. vm_compute in Hval. injection Hval as <- <-.
    eexists _, _. split; [exact Hrun|]. split; [reflexivity|].
    vm_compute. reflexivity.
Defined.

(** ** Update of a task *)

Lemma existsb_eqb_member (userId : string) (members : list string) :
  existsb (λ member, String.eqb member userId) members = true ↔ userId ∈ members.
Proof.
  rewrite existsb_exists. split.
  - intros (m & Hin & Heq). apply String.eqb_eq in Heq as ->.
    by apply list_elem_of_In.
  - intros Hin. exists userId. split; [by apply list_elem_of_In|].
    apply String.eqb_refl.
Qed.

(** X23.  [TasksService.update] on a task whose project is there.  Access
    goes by membership of the project alone: a caller who is not among its
    members is refused with [ForbiddenException] after the lookup, with
    nothing written and nothing emitted.  For a member the update is
    written once, carrying the status of the request, and [task.updated]
    is emitted to the room of the project.  A [task_assigned] notification
    follows exactly when the request names a non-empty assignee that
    differs from the assignee the task had and has a registered socket,
    the caller included; it goes to that socket alone. *)
Theorem update_for_members_notifies_new_assignee (db : Db) (id' : string)
    (dto : UpdateTaskDto) (userId : string) (w : World)
    (task : PopulatedTask) (project : ProjectInfo) :
  answer_tasks_findById_populated db id' = Ok (Some task) →
  pt_projectId task = Some project →
  (userId ∉ pinfo_members project →
     TasksService.update db id' dto userId w =
       (Thrown (Http.ForbiddenException "Not authorized to update this task"),
        {| gateway := gateway w;
           issued := tasks_findById_populated id' :: issued w;
           ids_drawn := ids_drawn w; dates_read := dates_read w |})) ∧
  (userId ∈ pinfo_members project →
   (∀ s, ut_assignedTo dto = Some s → ∃ oid, ObjectId_of db s = Ok oid) →
   (∀ updateData, ∃ updated, answer_tasks_update db id' updateData = Ok (Some updated)) →
   ∃ updated taskDto w' updateData notified,
     TasksService.update db id' dto userId w = (Returned taskDto, w') ∧
     answer_tasks_update db id' updateData = Ok (Some updated) ∧
     task_id taskDto = tdoc_id updated ∧
     issued w' =
       tasks_findByIdAndUpdate id' updateData
       :: tasks_findById_populated id' :: issued w ∧
     ud_title updateData = ut_title dto ∧
     ud_status updateData = ut_status dto ∧
     sockets (gateway w') = sockets (gateway w) ∧
     connectedUsers (gateway w') = connectedUsers (gateway w) ∧
     wire (gateway w') =
       (notified ++
        {| recipients :=
             room_members (room_name project_kind (pinfo_id project)) (gateway w);
           event := task_updated taskDto |} :: wire (gateway w))%list ∧
     (∀ assignee c,
        ut_assignedTo dto = Some assignee →
        assignee ≠ "" → pt_assignedTo task ≠ Some assignee →
        connectedUsers (gateway w) !! assignee = Some c →
        ∃ n, notified = [ {| recipients := {[c]}; event := notification n |} ] ∧
             notification_userId n = assignee ∧
             notification_type n = "task_assigned" ∧
             notification_message n =
               "You have been assigned to " +:+ dquote +:+ pt_title task
               +:+ dquote +:+ " in project: " +:+ pinfo_name project) ∧
     (ut_assignedTo dto = None ∨
      ut_assignedTo dto = Some "" ∨
      ut_assignedTo dto = pt_assignedTo task ∨
      (∃ a, ut_assignedTo dto = Some a ∧ connectedUsers (gateway w) !! a = None) →
      notified = [])).
Proof.
  intros Hf Hproject. unfold TasksService.update, TasksService.checkTaskAccess.
  unfold_S. rewrite Hf. simpl. rewrite Hproject. simpl.
  split.
  - intros Hnot.
    destruct (existsb _ (pinfo_members project)) eqn:He;
      [by apply existsb_eqb_member in He|].
    reflexivity.
  - intros Hin Hassignee Hupdate.
    rewrite (proj2 (existsb_eqb_member userId (pinfo_members project)) Hin).
    simpl.
    destruct (ut_assignedTo dto) as [a|] eqn:Ha;
      [destruct (truthy a) eqn:Hta;
        [destruct (Hassignee a eq_refl) as [oid Ho]; rewrite Ho|]|];
      simpl;
      match goal with
      | |- context [answer_tasks_update db id' ?ud] =>
          set (updateData := ud); destruct (Hupdate updateData) as [updated Hu];
          rewrite Hu
      end;
      match goal with
      | |- context [TasksService.toTaskDto db ?u ?w1] =>
          destruct (toTaskDto_returns db u w1)
            as (taskDto & w2 & -> & Hg & Hi & _ & Hid & _);
          simpl in Hg, Hi
      end;
      unfold emitTaskUpdatedToProject, server_to_emit;
      rewrite ?Hg; simpl.
    + destruct (decide (Some a = pt_assignedTo task)) as [Hold|Hold];
        [rewrite (bool_decide_eq_true_2 _ Hold)
        |rewrite (bool_decide_eq_false_2 _ Hold);
         unfold emitNotification; unfold_M; simpl; rewrite ?Hg;
         destruct (connectedUsers (gateway w) !! a) as [c|] eqn:Hreg];
        simpl.
      * (* the assignee is the one the task had *)
        exists updated, taskDto. eexists _, updateData, [].
        split; [reflexivity|]. repeat (split; [done|]).
        split; [|done]. intros assignee c [= <-] _ Hne. congruence.
      * (* the new assignee has a registered socket *)
        exists updated, taskDto. eexists _, updateData, [_].
        split; [reflexivity|]. repeat (split; [done|]).
        split.
        { intros assignee c' [= <-] _ _ Hc'. rewrite Hreg in Hc'.
          injection Hc' as <-. eexists. by repeat split. }
        { intros [H|[H|[H|(a' & H & Hnone)]]]; try discriminate.
          - injection H as ->. by apply truthy_nonempty in Hta.
          - congruence.
          - injection H as <-. congruence. }
      * (* the new assignee has no registered socket *)
        exists updated, taskDto. eexists _, updateData, [].
        split; [reflexivity|]. repeat (split; [done|]).
        split; [|done]. intros assignee c [= <-] _ _ Hc. congruence.
    + (* the assignee is the empty string *)
      exists updated, taskDto. eexists _, updateData, [].
      split; [reflexivity|]. repeat (split; [done|]).
      split; [|done]. intros assignee c [= <-] Hne.
      apply truthy_nonempty in Hne. congruence.
    + (* no assignee *)
      exists updated, taskDto. eexists _, updateData, [].
      split; [reflexivity|]. repeat (split; [done|]). done.
Qed.

(** Alice, a member of the project of task ["t1"], takes the task over from
    ["u2"]: she is notified herself, on her socket ["A"].  ["u2"], the
    assignee, is no member of the project and is refused. *)
Lemma update_for_members_notifies_new_assignee_witness :
  (TasksService.update sample_db "t1"
     {| ut_title := None; ut_description := None; ut_assignedTo := None;
        ut_status := Some COMPLETED; ut_dueDate := None; ut_priority := None |}
     "u2" sample_world).1
    = Thrown (Http.ForbiddenException "Not authorized to update this task") ∧
  (∃ taskDto w' n,
     TasksService.update sample_db "t1"
       {| ut_title := None; ut_description := None; ut_assignedTo := Some "u1";
          ut_status := None; ut_dueDate := None; ut_priority := None |}
       "u1" sample_world = (Returned taskDto, w') ∧
     wire (gateway w') =
       {| recipients := {["A"]}; event := notification n |}
       :: {| recipients := {["A"]}; event := task_updated taskDto |}
       :: wire (gateway sample_world) ∧
     notification_userId n = "u1").
Proof.
  split.
  - destruct (update_for_members_notifies_new_assignee sample_db "t1"
                {| ut_title := None; ut_description := None; ut_assignedTo := None;
                   ut_status := Some COMPLETED; ut_dueDate := None;
                   ut_priority := None |}
                "u2" sample_world sample_populated_task
                {| pinfo_id := "p1"; pinfo_name := "Apollo";
                   pinfo_members := ["u1"; "u3"] |} eq_refl eq_refl)
      as [Hrefused _].
    rewrite Hrefused; [reflexivity|].
    intros Hin. apply list_elem_of_In in Hin. simpl in Hin.
    destruct Hin as [Hin|[Hin|[]]]; discriminate.
  - destruct (update_for_members_notifies_new_assignee sample_db "t1"
                {| ut_title := None; ut_description := None;
                   ut_assignedTo := Some "u1";
                   ut_status := None; ut_dueDate := None; ut_priority := None |}
                "u1" sample_world sample_populated_task
                {| pinfo_id := "p1"; pinfo_name := "Apollo";
                   pinfo_members := ["u1"; "u3"] |} eq_refl eq_refl)
      as [_ Hupdated].
    destruct Hupdated
      as (updated & taskDto & w' & updateData & notified & Hrun & _).
    { apply list_elem_of_In. simpl. tauto. }
    { intros s _. by exists s. }
    { intros updateData. eexists. reflexivity. }
    pose proof Hrun as Hval. vm_compute in Hval. injection Hval as <- <-.
    eexists _, _,
      {| notification_id := "65f000000000000000000001";
         notification_type := "task_assigned";
         notification_title := "Task Assigned to You";
         notification_message :=
           "You have been assigned to " +:+ dquote +:+ "Write report" +:+ dquote
           +:+ " in project: Apollo";
         notification_userId := "u1";
         notification_read := false;
         notification_createdAt := 2000%Z |}.
    split; [exact Hrun|]. split; [vm_compute; reflexivity | reflexivity].
Defined.

(** ** The two ways to change a status *)

(** X24.  [TasksService.updateStatus] and [TasksService.update] do not
    serve the same callers for the same task.  A member of the task's
    project who neither created the task nor is assigned to it is refused
    by [updateStatus], yet [update] with nothing but that status writes it.
    The creator or the assignee of the task who is no member of its project
    is refused by [update], yet [updateStatus] writes the status. *)
Theorem status_change_paths_differ (db : Db) (id' : string) (status : TaskStatus)
    (userId : string) (w : World)
    (task : TaskDocument) (populated : PopulatedTask) (project : ProjectInfo) :
  let dto :=
    {| ut_title := None; ut_description := None; ut_assignedTo := None;
       ut_status := Some status; ut_dueDate := None; ut_priority := None |} in
  answer_tasks_findById db id' = Ok (Some task) →
  answer_tasks_findById_populated db id' = Ok (Some populated) →
  pt_projectId populated = Some project →
  (tdoc_createdBy task ≠ userId → tdoc_assignedTo task ≠ Some userId →
   userId ∈ pinfo_members project →
   (∀ updateData, ∃ updated, answer_tasks_update db id' updateData = Ok (Some updated)) →
     (TasksService.updateStatus db id' status userId w).1
       = Thrown (Http.ForbiddenException "Not authorized to update this task") ∧
     ∃ taskDto w',
       TasksService.update db id' dto userId w = (Returned taskDto, w') ∧
       head (issued w') =
         Some (tasks_findByIdAndUpdate id'
                 {| ud_title := None; ud_description := None;
                    ud_status := Some status; ud_priority := None;
                    ud_dueDate := None; ud_assignedTo := None |})) ∧
  (tdoc_createdBy task = userId ∨ tdoc_assignedTo task = Some userId →
   userId ∉ pinfo_members project →
   (∃ updated, answer_tasks_setStatus db id' status = Ok (Some updated)) →
     (TasksService.update db id' dto userId w).1
       = Thrown (Http.ForbiddenException "Not authorized to update this task") ∧
     ∃ taskDto w',
       TasksService.updateStatus db id' status userId w = (Returned taskDto, w') ∧
       head (issued w') = Some (tasks_findByIdAndUpdate_status id' status)).
Proof.
  intros dto Hf Hfp Hproject.
  unfold TasksService.updateStatus, TasksService.update,
    TasksService.checkTaskAccess, dto.
  unfold_S. rewrite Hf, Hfp. simpl. rewrite Hproject. simpl.
  split.
  - intros Hc Ha Hin Hupdate.
    rewrite (proj2 (String.eqb_neq _ _) Hc).
    rewrite (proj2 (existsb_eqb_member userId (pinfo_members project)) Hin).
    simpl. split.
    + destruct (tdoc_assignedTo task) as [a|]; [|reflexivity].
      assert (Hne : a ≠ userId) by congruence.
      by rewrite (proj2 (String.eqb_neq _ _) Hne).
    + match goal with
      | |- context [answer_tasks_update db id' ?ud] =>
          destruct (Hupdate ud) as [updated Hu]; rewrite Hu
      end.
      match goal with
      | |- context [TasksService.toTaskDto db ?u ?w1] =>
          destruct (toTaskDto_returns db u w1)
            as (taskDto & w2 & -> & Hg & Hi & _);
          simpl in Hg, Hi
      end.
      unfold emitTaskUpdatedToProject, server_to_emit. simpl.
      eexists _, _. split; [reflexivity|]. simpl. by rewrite Hi.
  - intros Hallowed Hnot [updated Hu].
    destruct (existsb _ (pinfo_members project)) eqn:He;
      [by apply existsb_eqb_member in He|].
    simpl. split; [reflexivity|].
    assert (Hpass : negb (String.eqb (tdoc_createdBy task) userId)
                    && negb match tdoc_assignedTo task with
                            | Some a => String.eqb a userId
                            | None => false
                            end = false).
    { destruct Hallowed as [Hc|Ha].
      - by rewrite Hc, String.eqb_refl.
      - rewrite Ha, String.eqb_refl. apply andb_false_r. }
    rewrite Hpass, Hu.
    match goal with
    | |- context [TasksService.toTaskDto db ?u ?w1] =>
        destruct (toTaskDto_returns db u w1)
          as (taskDto & w2 & -> & Hg & Hi & _);
        simpl in Hg, Hi
    end.
    unfold emitTaskUpdatedToProject, emitNotification, server_to_emit.
    unfold_M. simpl.
    destruct (negb (String.eqb (tdoc_createdBy task) userId)); simpl;
      [destruct (connectedUsers (gateway w2) !! tdoc_createdBy task); simpl|];
      eexists _, _; (split; [reflexivity|]); simpl; by rewrite Hi.
Qed.

(** For task ["t1"], created by ["u1"] and assigned to ["u2"], in a project
    with the members ["u1"] and ["u3"]: ["u3"] may complete it through
    [update] but not through [updateStatus], and ["u2"] the other way
    round. *)
Lemma status_change_paths_differ_witness :
  ((TasksService.updateStatus sample_db "t1" COMPLETED "u3" sample_world).1
     = Thrown (Http.ForbiddenException "Not authorized to update this task") ∧
   ∃ taskDto w',
     TasksService.update sample_db "t1"
       {| ut_title := None; ut_description := None; ut_assignedTo := None;
          ut_status := Some COMPLETED; ut_dueDate := None; ut_priority := None |}
       "u3" sample_world = (Returned taskDto, w') ∧
     task_status taskDto = COMPLETED) ∧
  ((TasksService.update sample_db "t1"
      {| ut_title := None; ut_description := None; ut_assignedTo := None;
         ut_status := Some COMPLETED; ut_dueDate := None; ut_priority := None |}
      "u2" sample_world).1
     = Thrown (Http.ForbiddenException "Not authorized to update this task") ∧
   ∃ taskDto w',
     TasksService.updateStatus sample_db "t1" COMPLETED "u2" sample_world
       = (Returned taskDto, w') ∧
     task_status taskDto = COMPLETED).
Proof.
  split.
  - destruct (status_change_paths_differ sample_db "t1" COMPLETED "u3" sample_world
                sample_task sample_populated_task
                {| pinfo_id := "p1"; pinfo_name := "Apollo";
                   pinfo_members := ["u1"; "u3"] |} eq_refl eq_refl eq_refl)
      as [Hmember _].
    destruct Hmember as [Hrefused (taskDto & w' & Hrun & _)].
    { discriminate. }
    { discriminate. }
    { apply list_elem_of_In. simpl. tauto. }
    { intros updateData. eexists. reflexivity. }
    split; [exact Hrefused|].
    pose proof Hrun as Hval. vm_compute in Hval. injection Hval as <- <-.
    eexists _, _. split; [exact Hrun | reflexivity].
  - destruct (status_change_paths_differ sample_db "t1" COMPLETED "u2" sample_world
                sample_task sample_populated_task
                {| pinfo_id := "p1"; pinfo_name := "Apollo";
                   pinfo_members := ["u1"; "u3"] |} eq_refl eq_refl eq_refl)
      as [_ Hassignee].
    destruct Hassignee as [Hrefused (taskDto & w' & Hrun & _)].
    { right. reflexivity. }
    { intros Hin. apply list_elem_of_In in Hin. simpl in Hin.
      destruct Hin as [Hin|[Hin|[]]]; discriminate. }
    { eexists. reflexivity. }
    split; [exact Hrefused|].
    pose proof Hrun as Hval. vm_compute in Hval. injection Hval as <- <-.
    eexists _, _. split; [exact Hrun | reflexivity].
Defined.
